(** * Conway's Game of Life (game.js): a shallow embedding and its properties

    The development follows [game.js] function by function.  The live grid is
    an array of row arrays; rows are mutable objects, so they live in a heap
    and the grid holds references to them.  Functions of the script that
    change the global variables or the heap are computations in a state and
    exception monad; functions that only read are evaluated against a state.

    Numbers.  A cell, a count or a size is an integer, and sums of them are
    exact: on the grids of 0 and 1 that the script makes they stay far below
    2^53, where doubles are exact.  The generation counter is different, it
    can be set from the save store: its increment is the increment of a
    double.  The sizes [initCanvas] chooses are computed on doubles.  The
    timing test of [animate] and the mouse position arithmetic are inputs.
    Array lengths are not bounded by 2^32.

    Strings are sequences of UTF-16 code units.  The parsed save store is an
    object: it has the entries of the JSON text as its own properties and
    inherits the properties of [Object.prototype].

    What is outside the model: the canvas pixels, the button labels and the
    list of the load dialog (of the page only the toast, the two statistics
    fields, the name input and the dialog's open flag are kept), and
    [updateSpeed], whose [speed] only feeds the timing test. *)

From Stdlib Require Import PrimFloat.
From Stdlib Require FloatOps SpecFloat.
From Stdlib Require Import ZArith String Ascii List Lia Bool.
From stdpp Require Import base option list strings gmap.

Local Open Scope Z_scope.

(** ** Strings *)

(** A string is the sequence of its UTF-16 code units. *)
Definition jsstring : Type := list N.

(** The string of an ASCII literal. *)
Definition str (s : string) : jsstring := map N_of_ascii (list_ascii_of_string s).

(** The double quote, which the script writes inside template literals. *)
Definition quote : jsstring := [34%N].

(** ** Doubles *)

(** The double that holds the integer [z]. *)
Definition num (z : Z) : float :=
  FloatOps.SF2Prim
    (SpecFloat.binary_normalize FloatOps.prec FloatOps.emax z 0 false).

(** [Math.floor] of a finite double (the doubles of this script are
    quotients of window sizes, which are integers of 32 bits). *)
Definition Math_floor (f : float) : Z :=
  match FloatOps.Prim2SF f with
  | SpecFloat.S754_finite sign m e =>
      Z.shiftl (if sign then Z.neg m else Z.pos m) e
  | _ => 0
  end.

(** The doubles written [0.5] and [0.6] in the script. *)
#[local] Set Warnings "-inexact-float".
Definition d0_5 : float := 0.5%float.
Definition d0_6 : float := 0.6%float.
#[local] Set Warnings "+inexact-float".

(** The double nearest to the integer [z], ties going to the even
    significand (for [z] below 2^1024 in size). *)
Definition to_double (z : Z) : Z :=
  let a := Z.abs z in
  let e := Z.log2 a - 52 in
  if e <=? 0 then z
  else
    let u := 2 ^ e in
    let q := a / u in
    let r := a mod u in
    let q' := if 2 * r <? u then q
              else if u <? 2 * r then q + 1
              else if Z.even q then q else q + 1 in
    Z.sgn z * (q' * u).

(** [g++] on a variable that holds an integer: the sum is rounded to a
    double. *)
Definition js_incr (g : Z) : Z := to_double (g + 1).

(** ** Values *)

(** The values a grid cell or a counter can take.  [Undefined] is what reading
    past the end of an array (or a hole) gives, [Null] what JSON makes of it. *)
Inductive jsval : Type :=
  | Num (z : Z)
  | NaN
  | Undefined
  | Null.

#[global] Instance jsval_eq_dec : EqDecision jsval.
Proof. solve_decision. Defined.

(** [a + b] on these values (ToNumber sends null to 0 and undefined to NaN). *)
Definition js_add (a b : jsval) : jsval :=
  match a, b with
  | Num x, Num y => Num (x + y)
  | Num x, Null => Num x
  | Null, Num y => Num y
  | Null, Null => Num 0
  | _, _ => NaN
  end.

(** [a % b] on integers: the remainder takes the sign of [a]; [a % 0] is NaN. *)
Definition js_rem (a b : Z) : jsval :=
  if b =? 0 then NaN else Num (Z.rem a b).

(** [v === n] for a number literal [n]. *)
Definition strict_eq (v : jsval) (n : Z) : bool :=
  match v with
  | Num z => z =? n
  | _ => false
  end.

(** ** Arrays *)

(** [a[i]]: [None] stands for undefined (index out of range, negative or NaN). *)
Definition arr_get {A : Type} (a : list A) (i : jsval) : option A :=
  match i with
  | Num z => if 0 <=? z then a !! Z.to_nat z else None
  | _ => None
  end.

(** [a[i] = v] for an integer index: inside the array the element is replaced,
    past its end the array grows and the skipped positions read as undefined.
    A negative index names a property that is not an element. *)
Definition arr_set (a : list jsval) (i : Z) (v : jsval) : list jsval :=
  if i <? 0 then a
  else if i <? Z.of_nat (length a) then <[Z.to_nat i := v]> a
  else a ++ replicate (Z.to_nat i - length a)%nat Undefined ++ [v].

(** ** Exceptions and results *)

Inductive exn : Type := TypeError | RangeError.

Inductive outcome (A : Type) : Type :=
  | Ok (a : A)
  | Throw (e : exn).
Arguments Ok {A} a.
Arguments Throw {A} e.

Definition obind {A B : Type} (c : outcome A) (k : A -> outcome B) : outcome B :=
  match c with
  | Ok a => k a
  | Throw e => Throw e
  end.

(** Left fold with early exit, for loops that only read. *)
Fixpoint ofold {A B : Type} (f : A -> B -> outcome A) (a : A) (l : list B)
  : outcome A :=
  match l with
  | [] => Ok a
  | b :: l' => obind (f a b) (fun a' => ofold f a' l')
  end.

(** [Array(n).fill(v)]: a negative length is a RangeError. *)
Definition Array_fill {A : Type} (n : Z) (v : A) : outcome (list A) :=
  if n <? 0 then Throw RangeError else Ok (replicate (Z.to_nat n) v).

(** ** Program state *)

Definition loc := nat.

Record config : Type := {
  cellSize : Z;
  gridWidth : Z;
  gridHeight : Z;
}.

(** One saved game as it sits in the JSON text of the save store. *)
Record gameData : Type := {
  gd_name : jsstring;
  gd_grid : list (list jsval);
  gd_generation : Z;
  gd_date : jsstring;
  gd_gridWidth : Z;
  gd_gridHeight : Z;
}.

Inductive toast_type : Type := success | error.

Record state : Type := {
  CONFIG : config;
  heap : list (list jsval);            (* the row arrays *)
  grid : list loc;
  isRunning : bool;
  generation : Z;
  animationId : option nat;
  conwayGameSaves : option (gmap jsstring gameData);  (* the localStorage item *)
  saveNameInput : jsstring;
  toast : option (jsstring * toast_type);
  generationDisplay : option Z;        (* text of the generation field *)
  populationDisplay : option jsval;    (* text of the population field *)
  loadModal : bool;
}.

Definition set_CONFIG (v : config) (s : state) : state :=
  {| CONFIG := v; heap := heap s; grid := grid s; isRunning := isRunning s;
     generation := generation s; animationId := animationId s;
     conwayGameSaves := conwayGameSaves s; saveNameInput := saveNameInput s;
     toast := toast s; generationDisplay := generationDisplay s;
     populationDisplay := populationDisplay s; loadModal := loadModal s |}.

Definition set_heap (v : list (list jsval)) (s : state) : state :=
  {| CONFIG := CONFIG s; heap := v; grid := grid s; isRunning := isRunning s;
     generation := generation s; animationId := animationId s;
     conwayGameSaves := conwayGameSaves s; saveNameInput := saveNameInput s;
     toast := toast s; generationDisplay := generationDisplay s;
     populationDisplay := populationDisplay s; loadModal := loadModal s |}.

Definition set_grid (v : list loc) (s : state) : state :=
  {| CONFIG := CONFIG s; heap := heap s; grid := v; isRunning := isRunning s;
     generation := generation s; animationId := animationId s;
     conwayGameSaves := conwayGameSaves s; saveNameInput := saveNameInput s;
     toast := toast s; generationDisplay := generationDisplay s;
     populationDisplay := populationDisplay s; loadModal := loadModal s |}.

Definition set_isRunning (v : bool) (s : state) : state :=
  {| CONFIG := CONFIG s; heap := heap s; grid := grid s; isRunning := v;
     generation := generation s; animationId := animationId s;
     conwayGameSaves := conwayGameSaves s; saveNameInput := saveNameInput s;
     toast := toast s; generationDisplay := generationDisplay s;
     populationDisplay := populationDisplay s; loadModal := loadModal s |}.

Definition set_generation (v : Z) (s : state) : state :=
  {| CONFIG := CONFIG s; heap := heap s; grid := grid s;
     isRunning := isRunning s; generation := v; animationId := animationId s;
     conwayGameSaves := conwayGameSaves s; saveNameInput := saveNameInput s;
     toast := toast s; generationDisplay := generationDisplay s;
     populationDisplay := populationDisplay s; loadModal := loadModal s |}.

Definition set_animationId (v : option nat) (s : state) : state :=
  {| CONFIG := CONFIG s; heap := heap s; grid := grid s;
     isRunning := isRunning s; generation := generation s; animationId := v;
     conwayGameSaves := conwayGameSaves s; saveNameInput := saveNameInput s;
     toast := toast s; generationDisplay := generationDisplay s;
     populationDisplay := populationDisplay s; loadModal := loadModal s |}.

Definition set_conwayGameSaves (v : option (gmap jsstring gameData)) (s : state)
  : state :=
  {| CONFIG := CONFIG s; heap := heap s; grid := grid s;
     isRunning := isRunning s; generation := generation s;
     animationId := animationId s; conwayGameSaves := v;
     saveNameInput := saveNameInput s; toast := toast s;
     generationDisplay := generationDisplay s;
     populationDisplay := populationDisplay s; loadModal := loadModal s |}.

Definition set_saveNameInput (v : jsstring) (s : state) : state :=
  {| CONFIG := CONFIG s; heap := heap s; grid := grid s;
     isRunning := isRunning s; generation := generation s;
     animationId := animationId s; conwayGameSaves := conwayGameSaves s;
     saveNameInput := v; toast := toast s;
     generationDisplay := generationDisplay s;
     populationDisplay := populationDisplay s; loadModal := loadModal s |}.

Definition set_toast (v : option (jsstring * toast_type)) (s : state) : state :=
  {| CONFIG := CONFIG s; heap := heap s; grid := grid s;
     isRunning := isRunning s; generation := generation s;
     animationId := animationId s; conwayGameSaves := conwayGameSaves s;
     saveNameInput := saveNameInput s; toast := v;
     generationDisplay := generationDisplay s;
     populationDisplay := populationDisplay s; loadModal := loadModal s |}.

Definition set_generationDisplay (v : option Z) (s : state) : state :=
  {| CONFIG := CONFIG s; heap := heap s; grid := grid s;
     isRunning := isRunning s; generation := generation s;
     animationId := animationId s; conwayGameSaves := conwayGameSaves s;
     saveNameInput := saveNameInput s; toast := toast s;
     generationDisplay := v; populationDisplay := populationDisplay s;
     loadModal := loadModal s |}.

Definition set_populationDisplay (v : option jsval) (s : state) : state :=
  {| CONFIG := CONFIG s; heap := heap s; grid := grid s;
     isRunning := isRunning s; generation := generation s;
     animationId := animationId s; conwayGameSaves := conwayGameSaves s;
     saveNameInput := saveNameInput s; toast := toast s;
     generationDisplay := generationDisplay s; populationDisplay := v;
     loadModal := loadModal s |}.

Definition set_loadModal (v : bool) (s : state) : state :=
  {| CONFIG := CONFIG s; heap := heap s; grid := grid s;
     isRunning := isRunning s; generation := generation s;
     animationId := animationId s; conwayGameSaves := conwayGameSaves s;
     saveNameInput := saveNameInput s; toast := toast s;
     generationDisplay := generationDisplay s;
     populationDisplay := populationDisplay s; loadModal := v |}.

(** ** The state and exception monad

    An exception ends the computation but keeps the state reached so far, as
    an uncaught exception in an event handler does. *)

Definition M (A : Type) : Type := state -> outcome A * state.

Definition ret {A : Type} (a : A) : M A := fun s => (Ok a, s).

Definition bind {A B : Type} (c : M A) (k : A -> M B) : M B :=
  fun s => match c s with
           | (Ok a, s') => k a s'
           | (Throw e, s') => (Throw e, s')
           end.

Notation "'let*' x ':=' c 'in' k" := (bind c (fun x => k))
  (at level 10, x name, c at level 100, k at level 200).
Notation "c ';;' k" := (bind c (fun _ => k))
  (at level 100, k at level 200, right associativity).

(** Evaluate a reading function in the current state. *)
Definition reads {A : Type} (f : state -> outcome A) : M A := fun s => (f s, s).

Definition gets {A : Type} (f : state -> A) : M A := fun s => (Ok (f s), s).

Definition modify (f : state -> state) : M unit := fun s => (Ok tt, f s).

(** [for (let i = ...; ...; i++) body] over the values [l] that [i] takes. *)
Fixpoint for_ {B : Type} (l : list B) (body : B -> M unit) : M unit :=
  match l with
  | [] => ret tt
  | b :: l' => body b ;; for_ l' body
  end.

(** [a.map(f)] where [f] has effects: elements are visited in order. *)
Fixpoint mapM {B C : Type} (f : B -> M C) (l : list B) : M (list C) :=
  match l with
  | [] => ret []
  | b :: l' => let* c := f b in let* cs := mapM f l' in ret (c :: cs)
  end.

(** A new array object holding [row]; its reference is the next free one. *)
Definition alloc (row : list jsval) : M loc :=
  fun s => (Ok (length (heap s)), set_heap (heap s ++ [row]) s).

(** ** Reading and writing grid cells *)

(** [g[y][x]].  A missing row makes the second lookup throw; a missing cell
    reads as undefined.  (A reference always points to an array; the case of
    one that does not is there to make the function total.) *)
Definition index2 (h : list (list jsval)) (g : list loc) (y x : jsval)
  : outcome jsval :=
  match arr_get g y with
  | None => Throw TypeError
  | Some l =>
      match h !! l with
      | None => Throw TypeError
      | Some row => Ok (default Undefined (arr_get row x))
      end
  end.

(** [g[y][x] = v] for integers [y] and [x]. *)
Definition store2 (g : list loc) (y x : Z) (v : jsval) : M unit :=
  fun s =>
    match arr_get g (Num y) with
    | None => (Throw TypeError, s)
    | Some l =>
        match heap s !! l with
        | None => (Throw TypeError, s)
        | Some row => (Ok tt, set_heap (<[l := arr_set row x v]> (heap s)) s)
        end
    end.

(** ** The canvas size *)

(** [initCanvas], for a window of [innerWidth] by [innerHeight] pixels (two
    integers of 32 bits).  The canvas itself is not modelled, so what
    remains are the assignments to CONFIG. *)
Definition initCanvas (innerWidth innerHeight : Z) : M unit :=
  if innerWidth <? 768 then
    modify (fun s => set_CONFIG {| cellSize := 6;
                                   gridWidth := gridWidth (CONFIG s);
                                   gridHeight := gridHeight (CONFIG s) |} s);;
    modify (fun s =>
      set_CONFIG
        {| cellSize := cellSize (CONFIG s);
           gridWidth := Math_floor ((num innerWidth - num 64)
                                    / num (cellSize (CONFIG s)))%float;
           gridHeight := gridHeight (CONFIG s) |} s);;
    modify (fun s =>
      set_CONFIG
        {| cellSize := cellSize (CONFIG s);
           gridWidth := gridWidth (CONFIG s);
           gridHeight := Math_floor ((num innerHeight * d0_5)
                                     / num (cellSize (CONFIG s)))%float |} s)
  else if innerWidth <? 1024 then
    modify (fun s => set_CONFIG {| cellSize := 7;
                                   gridWidth := gridWidth (CONFIG s);
                                   gridHeight := gridHeight (CONFIG s) |} s);;
    modify (fun s =>
      set_CONFIG
        {| cellSize := cellSize (CONFIG s);
           gridWidth := Math_floor ((num innerWidth * d0_6)
                                    / num (cellSize (CONFIG s)))%float;
           gridHeight := gridHeight (CONFIG s) |} s);;
    modify (fun s =>
      set_CONFIG
        {| cellSize := cellSize (CONFIG s);
           gridWidth := gridWidth (CONFIG s);
           gridHeight := Math_floor ((num innerHeight * d0_6)
                                     / num (cellSize (CONFIG s)))%float |} s)
  else ret tt.

(** ** Grid creation *)

(** [createEmptyGrid]: every row is a separate new array of zeros. *)
Definition createEmptyGrid : M (list loc) :=
  let* cfg := gets CONFIG in
  let* outer := reads (fun _ => Array_fill (gridHeight cfg) Null) in
  mapM (fun _ : jsval =>
          let* row := reads (fun _ => Array_fill (gridWidth cfg) (Num 0)) in
          alloc row)
       outer.

(** [createRandomGrid].  [rnd k] tells whether the [k]-th call of
    [Math.random()] (counted from 0) came out below [CONFIG.initialDensity];
    row [y] makes the calls number [y * gridWidth] and following. *)
Definition createRandomGrid (rnd : nat -> bool) : M (list loc) :=
  let* cfg := gets CONFIG in
  let* outer := reads (fun _ => Array_fill (gridHeight cfg) Null) in
  mapM (fun y : nat =>
          let* row := reads (fun _ => Array_fill (gridWidth cfg) (Num 0)) in
          alloc (imap (fun x _ =>
                         if rnd (y * Z.to_nat (gridWidth cfg) + x)%nat
                         then Num 1 else Num 0) row))
       (seq 0 (length outer)).

(** ** Neighbour count *)

Definition deltas : list Z := [-1; 0; 1].

(** [countNeighbors(grid, x, y)], read in state [s]. *)
Definition countNeighbors (s : state) (g : list loc) (x y : Z) : outcome jsval :=
  ofold (fun count i =>
    ofold (fun count j =>
      if (i =? 0) && (j =? 0) then Ok count
      else
        let newY := js_rem (y + i + gridHeight (CONFIG s)) (gridHeight (CONFIG s)) in
        let newX := js_rem (x + j + gridWidth (CONFIG s)) (gridWidth (CONFIG s)) in
        obind (index2 (heap s) g newY newX) (fun v => Ok (js_add count v)))
      count deltas)
    (Num 0) deltas.

(** ** Simulation step and statistics *)

(** [showToast(message, type)]; the timer that hides the toast again is not
    modelled. *)
Definition showToast (message : jsstring) (type : toast_type) : M unit :=
  modify (set_toast (Some (message, type))).

(** What is left of [renderGrid] without the canvas: its reads of
    [grid[y][x]], which throw when row [y] is missing. *)
Definition renderGrid : M unit :=
  reads (fun s =>
    ofold (fun _ y =>
      ofold (fun _ x =>
        obind (index2 (heap s) (grid s) (Num y) (Num x)) (fun _ => Ok tt))
        tt (seqZ 0 (gridWidth (CONFIG s))))
      tt (seqZ 0 (gridHeight (CONFIG s)))).

(** The sum [updateStats] accumulates in [population]. *)
Definition population (s : state) : outcome jsval :=
  ofold (fun p y =>
    ofold (fun p x =>
      obind (index2 (heap s) (grid s) (Num y) (Num x))
            (fun v => Ok (js_add p v)))
      p (seqZ 0 (gridWidth (CONFIG s))))
    (Num 0) (seqZ 0 (gridHeight (CONFIG s))).

Definition updateStats : M unit :=
  let* gen := gets generation in
  modify (set_generationDisplay (Some gen));;
  let* p := reads population in
  modify (set_populationDisplay (Some p)).

(** The body of the two loops of [nextGeneration], at cell (x, y). *)
Definition nextGeneration_body (newGrid : list loc) (y x : Z) : M unit :=
  let* neighbors := reads (fun s => countNeighbors s (grid s) x y) in
  let* cell := reads (fun s => index2 (heap s) (grid s) (Num y) (Num x)) in
  if strict_eq cell 1 && (strict_eq neighbors 2 || strict_eq neighbors 3)
  then store2 newGrid y x (Num 1)
  else if strict_eq cell 0 && strict_eq neighbors 3
  then store2 newGrid y x (Num 1)
  else store2 newGrid y x (Num 0).

Definition nextGeneration : M unit :=
  let* newGrid := createEmptyGrid in
  let* cfg := gets CONFIG in
  for_ (seqZ 0 (gridHeight cfg)) (fun y =>
    for_ (seqZ 0 (gridWidth cfg)) (fun x =>
      nextGeneration_body newGrid y x));;
  modify (set_grid newGrid);;
  modify (fun s => set_generation (js_incr (generation s)) s);;
  updateStats.

(** ** Scheduler *)

(** [animate(timestamp)].  [due] is the outcome of the comparison
    [timestamp - lastUpdateTime >= 1000 / speed], [id] the handle that
    [requestAnimationFrame] returns. *)
Definition animate (due : bool) (id : nat) : M unit :=
  let* running := gets isRunning in
  if negb running then ret tt
  else
    (if due then nextGeneration;; renderGrid else ret tt);;
    modify (set_animationId (Some id)).

Definition start (id : nat) : M unit :=
  let* running := gets isRunning in
  if running then ret tt
  else
    modify (set_isRunning true);;
    modify (set_animationId (Some id)).

(** [pause]; cancelling the armed callback is an effect on the host only. *)
Definition pause : M unit :=
  let* running := gets isRunning in
  if negb running then ret tt
  else modify (set_isRunning false).

Definition togglePlayPause (id : nat) : M unit :=
  let* running := gets isRunning in
  if running then pause else start id.

Definition step : M unit :=
  pause;;
  nextGeneration;;
  renderGrid.

Definition clear : M unit :=
  pause;;
  let* g := createEmptyGrid in
  modify (set_grid g);;
  modify (set_generation 0);;
  renderGrid;;
  updateStats;;
  showToast (str "Tablero limpiado") success.

Definition randomize (rnd : nat -> bool) : M unit :=
  pause;;
  let* g := createRandomGrid rnd in
  modify (set_grid g);;
  modify (set_generation 0);;
  renderGrid;;
  updateStats;;
  showToast (str "Tablero generado aleatoriamente") success.

(** ** Mouse and touch input *)

(** [handleCanvasClick]; [x] and [y] are the two [Math.floor] results.  (When
    they are not integers the range test fails and nothing happens.) *)
Definition handleCanvasClick (x y : Z) : M unit :=
  let* cfg := gets CONFIG in
  if (0 <=? x) && (x <? gridWidth cfg) && (0 <=? y) && (y <? gridHeight cfg)
  then
    let* g := gets grid in
    let* old := reads (fun s => index2 (heap s) g (Num y) (Num x)) in
    store2 g y x (if strict_eq old 1 then Num 0 else Num 1);;
    renderGrid;;
    updateStats
  else ret tt.

Definition handleTouchMove (x y : Z) : M unit :=
  let* cfg := gets CONFIG in
  if (0 <=? x) && (x <? gridWidth cfg) && (0 <=? y) && (y <? gridHeight cfg)
  then
    let* g := gets grid in
    store2 g y x (Num 1);;
    renderGrid;;
    updateStats
  else ret tt.

(** ** Saved games *)

(** The code units [String.prototype.trim] removes, the white space and the
    line terminators of ECMAScript: TAB, LF, VT, FF, CR, space, no-break
    space, U+1680, U+2000 to U+200A, U+2028, U+2029, U+202F, U+205F, U+3000
    and U+FEFF. *)
Definition white_space : list N :=
  [0x9; 0xA; 0xB; 0xC; 0xD; 0x20; 0xA0; 0x1680;
   0x2000; 0x2001; 0x2002; 0x2003; 0x2004; 0x2005; 0x2006; 0x2007; 0x2008;
   0x2009; 0x200A; 0x2028; 0x2029; 0x202F; 0x205F; 0x3000; 0xFEFF]%N.

Definition is_space (c : N) : bool := bool_decide (c ∈ white_space).

Fixpoint trim_start (s : jsstring) : jsstring :=
  match s with
  | [] => []
  | c :: s' => if is_space c then trim_start s' else s
  end.

(** [s.trim()] *)
Definition trim (s : jsstring) : jsstring :=
  reverse (trim_start (reverse (trim_start s))).

(** [getSavedGames]: the parsed item, or the empty object when there is
    none.  The map holds the object's own properties. *)
Definition getSavedGames (s : state) : gmap jsstring gameData :=
  default ∅ (conwayGameSaves s).

(** The names of the properties every object inherits from
    [Object.prototype]. *)
Definition Object_prototype : list jsstring :=
  map str ["constructor"; "__defineGetter__"; "__defineSetter__";
           "hasOwnProperty"; "__lookupGetter__"; "__lookupSetter__";
           "isPrototypeOf"; "propertyIsEnumerable"; "toString"; "valueOf";
           "__proto__"; "toLocaleString"]%string.

(** What [savedGames[name]] finds: an entry of the store, a property of
    [Object.prototype] (a function, or for [__proto__] the prototype object),
    or nothing. *)
Inductive property : Type :=
  | Own (gd : gameData)
  | Inherited
  | Absent.

(** [savedGames[name]] *)
Definition get_property (savedGames : gmap jsstring gameData) (name : jsstring)
  : property :=
  match savedGames !! name with
  | Some gd => Own gd
  | None => if bool_decide (name ∈ Object_prototype) then Inherited else Absent
  end.

(** [savedGames[name] = gameData].  An assignment to [__proto__], when the
    object has no entry of that name, reaches the setter of
    [Object.prototype]: it changes the prototype of [savedGames] and makes no
    entry, so [JSON.stringify] writes the entries there were. *)
Definition set_property (savedGames : gmap jsstring gameData) (name : jsstring)
    (gd : gameData) : gmap jsstring gameData :=
  if bool_decide (name = str "__proto__" /\ savedGames !! name = None)
  then savedGames
  else <[name := gd]> savedGames.

(** What [JSON.stringify] writes for an array element. *)
Definition json_val (v : jsval) : jsval :=
  match v with
  | Num z => Num z
  | _ => Null
  end.

(** The grid as [JSON.stringify] writes it: the rows are followed through
    the heap and copied. *)
Definition json_grid (h : list (list jsval)) (g : list loc)
  : list (list jsval) :=
  map (fun l => map json_val (default [] (h !! l))) g.

(** [saveGame]; [now] is [new Date().toISOString()]. *)
Definition saveGame (now : jsstring) : M unit :=
  let* name := gets (fun s => trim (saveNameInput s)) in
  if bool_decide (name = [])
  then showToast (str "Por favor, ingresa un nombre para la partida") error
  else
    let* savedGames := gets getSavedGames in
    let* gameData := gets (fun s =>
      {| gd_name := name;
         gd_grid := json_grid (heap s) (grid s);
         gd_generation := generation s;
         gd_date := now;
         gd_gridWidth := gridWidth (CONFIG s);
         gd_gridHeight := gridHeight (CONFIG s) |}) in
    modify (set_conwayGameSaves
              (Some (set_property savedGames name gameData)));;
    modify (set_saveNameInput []);;
    showToast (str "Partida " ++ quote ++ name ++ quote
               ++ str " guardada correctamente")
              success.

Definition closeModal : M unit := modify (set_loadModal false).

Definition showLoadModal : M unit := modify (set_loadModal true).

(** [loadGame].  An inherited property is not falsy, and its [gridWidth]
    is undefined, which differs from the number in CONFIG.  The arrays of
    the parsed grid are new objects; they are allocated here at the point
    where the grid is taken over. *)
Definition loadGame (name : jsstring) : M unit :=
  let* savedGames := gets getSavedGames in
  match get_property savedGames name with
  | Absent => showToast (str "No se pudo cargar la partida") error
  | Inherited =>
      showToast (str "La partida guardada tiene dimensiones diferentes") error
  | Own gameData =>
      let* cfg := gets CONFIG in
      if negb (gd_gridWidth gameData =? gridWidth cfg)
         || negb (gd_gridHeight gameData =? gridHeight cfg)
      then showToast (str "La partida guardada tiene dimensiones diferentes")
                     error
      else
        pause;;
        let* g := mapM alloc (gd_grid gameData) in
        modify (set_grid g);;
        modify (set_generation (gd_generation gameData));;
        renderGrid;;
        updateStats;;
        closeModal;;
        showToast (str "Partida " ++ quote ++ name ++ quote ++ str " cargada")
                  success
  end.

(** [deleteGame]; [confirmed] is the answer to the [confirm] dialog. *)
Definition deleteGame (name : jsstring) (confirmed : bool) : M unit :=
  if negb confirmed then ret tt
  else
    let* savedGames := gets getSavedGames in
    modify (set_conwayGameSaves (Some (delete name savedGames)));;
    showToast (str "Partida " ++ quote ++ name ++ quote ++ str " eliminada")
              success.

(** ** Sessions *)

(** [init]; its delayed [start] is the event [EvStart]. *)
Definition init (innerWidth innerHeight : Z) (rnd : nat -> bool) : M unit :=
  initCanvas innerWidth innerHeight;;
  let* g := createRandomGrid rnd in
  modify (set_grid g);;
  renderGrid;;
  updateStats.

(** The state when the script has run its declarations: [saves] is what
    localStorage holds from earlier visits. *)
Definition page_load (cfg : config) (saves : option (gmap jsstring gameData))
  : state :=
  {| CONFIG := cfg; heap := []; grid := []; isRunning := false;
     generation := 0; animationId := None; conwayGameSaves := saves;
     saveNameInput := []; toast := None;
     generationDisplay := None; populationDisplay := None;
     loadModal := false |}.

(** The callback [init] sets a timer for. *)
Definition autoStart (id : nat) : M unit :=
  start id;;
  showToast ([0xA1%N] ++ str "Juego iniciado! Presiona Espacio para pausar")
            success.

(** The callback of the resize listener (the timer that delays it is not
    modelled). *)
Definition resize (innerWidth innerHeight : Z) : M unit :=
  pause;;
  initCanvas innerWidth innerHeight;;
  renderGrid.

(** What can happen after [init]: the callbacks and listeners the script
    installs (the speed listener apart), with the inputs the model takes
    from outside.  [EvInput] is the user typing a name. *)
Inductive event : Type :=
  | EvAnimate (due : bool) (id : nat)
  | EvStart (id : nat)
  | EvTogglePlayPause (id : nat)
  | EvStep
  | EvClear
  | EvRandomize (rnd : nat -> bool)
  | EvClick (x y : Z)
  | EvTouch (x y : Z)
  | EvInput (v : jsstring)
  | EvSave (now : jsstring)
  | EvShowLoadModal
  | EvCloseModal
  | EvLoad (name : jsstring)
  | EvDelete (name : jsstring) (confirmed : bool)
  | EvResize (innerWidth innerHeight : Z).

Definition handle (e : event) : M unit :=
  match e with
  | EvAnimate due id => animate due id
  | EvStart id => autoStart id
  | EvTogglePlayPause id => togglePlayPause id
  | EvStep => step
  | EvClear => clear
  | EvRandomize rnd => randomize rnd
  | EvClick x y => handleCanvasClick x y
  | EvTouch x y => handleTouchMove x y
  | EvInput v => modify (set_saveNameInput v)
  | EvSave now => saveGame now
  | EvShowLoadModal => showLoadModal
  | EvCloseModal => closeModal
  | EvLoad name => loadGame name
  | EvDelete name confirmed => deleteGame name confirmed
  | EvResize innerWidth innerHeight => resize innerWidth innerHeight
  end.

(** ** Running the model on a small board *)

(** The page with a [w] by [h] configuration and nothing stored, before any
    grid has been made. *)
Definition state0 (w h : Z) : state :=
  page_load {| cellSize := 8; gridWidth := w; gridHeight := h |} None.

(** The live grid with its rows read out of the heap. *)
Definition cells (s : state) : list (list jsval) :=
  map (fun l => default [] (heap s !! l)) (grid s).

(** A state whose grid holds the given rows. *)
Definition with_rows (rows : list (list jsval)) (s : state) : state :=
  let '(r, s') := mapM alloc rows s in
  match r with
  | Ok g => set_grid g s'
  | Throw _ => s'
  end.

(** Short names for the two cell values. *)
Definition n0 : jsval := Num 0.
Definition n1 : jsval := Num 1.

(** A vertical blinker in the middle of a 5 by 5 board. *)

Definition blinker : state :=
  with_rows [[n0;n0;n0;n0;n0];
             [n0;n0;n1;n0;n0];
             [n0;n0;n1;n0;n0];
             [n0;n0;n1;n0;n0];
             [n0;n0;n0;n0;n0]] (state0 5 5).

(** * Notions used in the statements *)

(** ** Well-formed grids *)

(** Row reference [l] points to an array of [gridWidth] cells. *)
Definition row_ok (s : state) (l : loc) : Prop :=
  exists row, heap s !! l = Some row
              /\ Z.of_nat (length row) = gridWidth (CONFIG s).

(** The live grid has the configured dimensions and no row is shared. *)
Definition grid_ok (s : state) : Prop :=
  Z.of_nat (length (grid s)) = gridHeight (CONFIG s)
  /\ NoDup (grid s)
  /\ Forall (row_ok s) (grid s).

(** A cell value that is 0 or 1. *)
Definition bit (v : jsval) : Prop := v = Num 0 \/ v = Num 1.

(** Every cell of the live grid is 0 or 1. *)
Definition binary (s : state) : Prop := Forall (Forall bit) (cells s).

(** Every cell of the live grid is 0. *)
Definition all_dead (s : state) : Prop :=
  Forall (Forall (fun v => v = Num 0)) (cells s).

(** Dimensions for which the grid constructors do not throw. *)
Definition dims_ok (s : state) : Prop :=
  0 <= gridHeight (CONFIG s)
  /\ (0 < gridHeight (CONFIG s) -> 0 <= gridWidth (CONFIG s)).

(** The configured dimensions as list lengths. *)
Definition width (s : state) : nat := Z.to_nat (gridWidth (CONFIG s)).
Definition height (s : state) : nat := Z.to_nat (gridHeight (CONFIG s)).

(** Rows of the configured dimensions. *)
Definition rows_ok (s : state) (rows : list (list jsval)) : Prop :=
  length rows = height s /\ Forall (fun r => length r = width s) rows.

(** The cell at column [x] of row [y], as [grid[y][x]] reads it. *)
Definition cell (s : state) (x y : Z) : jsval :=
  match index2 (heap s) (grid s) (Num y) (Num x) with
  | Ok v => v
  | Throw _ => Undefined
  end.

(** The state of a cell as a number. *)
Definition cellZ (s : state) (x y : Z) : Z :=
  match cell s x y with
  | Num z => z
  | _ => 0
  end.

(** The rows that [g] refers to, read in heap [h]. *)
Definition rows_of (h : list (list jsval)) (g : list loc) : list (list jsval) :=
  map (fun l => default [] (h !! l)) g.

(** ** Neighbours and the rule *)

(** The eight neighbour offsets [(i, j)] in the order of the two loops. *)
Definition offsets : list (Z * Z) :=
  [(-1, -1); (-1, 0); (-1, 1); (0, -1); (0, 1); (1, -1); (1, 0); (1, 1)].

(** The neighbour at offset [(i, j)] of (x, y) on the torus. *)
Definition neighbor (s : state) (x y : Z) (d : Z * Z) : jsval :=
  cell s ((x + snd d) mod gridWidth (CONFIG s))
         ((y + fst d) mod gridHeight (CONFIG s)).

(** The count [countNeighbors] returns inside the grid. *)
Definition neighbors (s : state) (x y : Z) : jsval :=
  fold_left js_add (map (neighbor s x y) offsets) (Num 0).

(** The number of live cells among the eight neighbours of (x, y) on the
    torus. *)
Definition live_neighbors (s : state) (x y : Z) : Z :=
  Z.of_nat (length (filter (fun v => v = Num 1)
                           (map (neighbor s x y) offsets))).

(** Conway's rule as the [if] chain of [nextGeneration] decides it. *)
Definition rule (c neighbors : jsval) : jsval :=
  if strict_eq c 1 && (strict_eq neighbors 2 || strict_eq neighbors 3)
  then Num 1
  else if strict_eq c 0 && strict_eq neighbors 3 then Num 1
  else Num 0.

(** The value [nextGeneration] writes at (x, y). *)
Definition next_cell (s : state) (x y : nat) : jsval :=
  rule (cell s (Z.of_nat x) (Z.of_nat y))
       (neighbors s (Z.of_nat x) (Z.of_nat y)).

(** The rows [nextGeneration] builds. *)
Definition next_rows (s : state) : list (list jsval) :=
  map (fun y => map (fun x => next_cell s x y) (seq 0 (width s)))
      (seq 0 (height s)).

(** The neighbour count in the specification's words: the sum of the states
    of the eight neighbours, each coordinate wrapped as
    [(coord + delta + dimension) mod dimension]. *)
Definition neighborCount (st : Z -> Z -> Z) (w h x y : Z) : Z :=
  foldr Z.add 0
        (map (fun d => st ((x + snd d + w) mod w) ((y + fst d + h) mod h))
             offsets).

(** ** The states the functions leave *)

(** The state [updateStats] leaves when its loop does not throw. *)
Definition stats_of (s : state) : state :=
  set_populationDisplay
    (Some (match population s with Ok p => p | Throw _ => NaN end))
    (set_generationDisplay (Some (generation s)) s).

(** The state after [nextGeneration]. *)
Definition next_state (s : state) : state :=
  stats_of
    (set_generation (js_incr (generation s))
       (set_grid (seq (length (heap s)) (height s))
          (set_heap (heap s ++ next_rows s) s))).

(** The state after [pause]. *)
Definition paused (s : state) : state :=
  if isRunning s then set_isRunning false s else s.

(** The rows [createEmptyGrid] builds. *)
Definition empty_rows (s : state) : list (list jsval) :=
  replicate (height s) (replicate (width s) (Num 0)).

(** The rows [createRandomGrid] builds from the draws [rnd]. *)
Definition random_rows (rnd : nat -> bool) (s : state) : list (list jsval) :=
  map (fun y => imap (fun x _ => if rnd (y * width s + x)%nat
                                 then Num 1 else Num 0)
                     (replicate (width s) (Num 0)))
      (seq 0 (height s)).

(** The state after a new grid with rows [rows] has been installed by
    [clear] or [randomize]. *)
Definition install (rows : list (list jsval)) (message : jsstring) (s : state)
  : state :=
  set_toast (Some (message, success))
    (stats_of
       (set_generation 0
          (set_grid (seq (length (heap s)) (length rows))
             (set_heap (heap s ++ rows) (paused s))))).

(** The record [saveGame] stores. *)
Definition snapshot (name now : jsstring) (s : state) : gameData :=
  {| gd_name := name;
     gd_grid := json_grid (heap s) (grid s);
     gd_generation := generation s;
     gd_date := now;
     gd_gridWidth := gridWidth (CONFIG s);
     gd_gridHeight := gridHeight (CONFIG s) |}.

(** The state after a [saveGame] that stores the game. *)
Definition saved (name now : jsstring) (s : state) : state :=
  set_toast
    (Some (str "Partida " ++ quote ++ name ++ quote
           ++ str " guardada correctamente",
           success))
    (set_saveNameInput []
       (set_conwayGameSaves
          (Some (set_property (getSavedGames s) name (snapshot name now s)))
          s)).

(** The state after a successful [loadGame]. *)
Definition loaded (name : jsstring) (gd : gameData) (s : state) : state :=
  set_toast
    (Some (str "Partida " ++ quote ++ name ++ quote ++ str " cargada", success))
    (set_loadModal false
       (stats_of
          (set_generation (gd_generation gd)
             (set_grid (seq (length (heap s)) (length (gd_grid gd)))
                (set_heap (heap s ++ gd_grid gd) (paused s)))))).

(** The toast [deleteGame] shows. *)
Definition deleted_toast (name : jsstring) : jsstring * toast_type :=
  (str "Partida " ++ quote ++ name ++ quote ++ str " eliminada", success).

(** ** The 2 by 2 block *)

(** Membership in the 2 by 2 block whose top left cell is (bx, by) on the
    torus of width [w] and height [h]. *)
Definition in_block (w h bx by_ x y : Z) : bool :=
  bool_decide ((x = bx \/ x = (bx + 1) mod w) /\ (y = by_ \/ y = (by_ + 1) mod h)).

(** 1 when [t] is one of the two block coordinates [b] and [b + 1] (wrapped)
    along an axis of length [n], else 0. *)
Definition on_axis (n b t : Z) : Z :=
  if decide (t = b \/ t = (b + 1) mod n) then 1 else 0.

(** ** Sessions and their invariant *)

(** A saved game as [saveGame] writes it: a generation count that is not
    negative and a grid of bits with the dimensions stored next to it. *)
Definition gameData_ok (gd : gameData) : Prop :=
  0 <= gd_generation gd
  /\ length (gd_grid gd) = Z.to_nat (gd_gridHeight gd)
  /\ Forall (fun r => length r = Z.to_nat (gd_gridWidth gd)) (gd_grid gd)
  /\ Forall (Forall bit) (gd_grid gd).

(** Every saved game is of this kind. *)
Definition saves_ok (m : gmap jsstring gameData) : Prop :=
  map_Forall (fun _ gd => gameData_ok gd) m.

(** The generation counts of the stored games are not negative. *)
Definition counts_ok (m : gmap jsstring gameData) : Prop :=
  map_Forall (fun _ gd => 0 <= gd_generation gd) m.

(** The states of a session: the page is loaded with a save store whose
    generation counts are not negative, [init] runs in a window of some
    size, then events arrive, resizes of the window among them. *)
Inductive session : state -> Prop :=
  | session_init cfg saves innerWidth innerHeight rnd :
      counts_ok (default ∅ saves) ->
      session (snd (init innerWidth innerHeight rnd (page_load cfg saves)))
  | session_event e s :
      session s -> session (snd (handle e s)).

(** The grid dimensions are the same in both states. *)
Definition same_dims (s s' : state) : Prop :=
  gridWidth (CONFIG s') = gridWidth (CONFIG s)
  /\ gridHeight (CONFIG s') = gridHeight (CONFIG s).

(** The states of a session in which the grid keeps the dimensions [init]
    gave it: the window makes [initCanvas] choose dimensions that are not
    negative, the save store was written by [saveGame] in sessions of this
    kind, and the events that arrive leave the dimensions as they are (of
    the events only a resize can change them). *)
Inductive reachable : state -> Prop :=
  | reach_init cfg saves innerWidth innerHeight rnd :
      0 <= gridWidth
             (CONFIG (snd (initCanvas innerWidth innerHeight
                             (page_load cfg saves)))) ->
      0 <= gridHeight
             (CONFIG (snd (initCanvas innerWidth innerHeight
                             (page_load cfg saves)))) ->
      saves_ok (default ∅ saves) ->
      reachable (snd (init innerWidth innerHeight rnd (page_load cfg saves)))
  | reach_event e s :
      reachable s -> same_dims s (snd (handle e s)) ->
      reachable (snd (handle e s)).

(** The invariant of such a session. *)
Definition inv (s : state) : Prop :=
  grid_ok s /\ binary s /\ 0 <= generation s /\ saves_ok (getSavedGames s).

(** The counter of a session is never negative. *)
Definition counter_ok (s : state) : Prop :=
  0 <= generation s /\ counts_ok (getSavedGames s).

(** ** Deciding the predicates on concrete states *)

(** The predicates above are decidable. *)
#[global] Instance row_ok_dec s l : Decision (row_ok s l).
Proof.
  unfold row_ok. destruct (heap s !! l) as [row|].
  - destruct (decide (Z.of_nat (length row) = gridWidth (CONFIG s))).
    + left. eauto.
    + right. intros (r & [= <-] & ?). done.
  - right. intros (r & ? & _). done.
Defined.

#[global] Instance grid_ok_dec s : Decision (grid_ok s).
Proof. unfold grid_ok. apply _. Defined.

#[global] Instance bit_dec v : Decision (bit v).
Proof. unfold bit. apply _. Defined.

#[global] Instance binary_dec s : Decision (binary s).
Proof. unfold binary. apply _. Defined.

#[global] Instance all_dead_dec s : Decision (all_dead s).
Proof. unfold all_dead. apply _. Defined.

(** Settle a decidable statement about concrete data by evaluation. *)
Ltac decide_by_eval :=
  lazymatch goal with
  | |- ?P => apply (bool_decide_unpack P); vm_compute; exact I
  end.

(** ** Concrete boards *)

(** 4 by 3, with a live cell in the corner opposite to (0, 0). *)
Definition corners : state :=
  with_rows [[n1;n0;n0;n1];
             [n0;n0;n0;n0];
             [n0;n1;n0;n1]] (state0 4 3).

(** 3 by 2, nothing alive. *)
Definition barren : state :=
  with_rows [[n0;n0;n0];
             [n0;n0;n0]] (state0 3 2).

(** 5 by 4, one block that wraps around both edges: its cells are (4, 3),
    (0, 3), (4, 0) and (0, 0). *)
Definition wrapped_block : state :=
  with_rows [[n1;n0;n0;n0;n1];
             [n0;n0;n0;n0;n0];
             [n0;n0;n0;n0;n0];
             [n1;n0;n0;n0;n1]] (state0 5 4).

(** A stored game of the default 80 by 50 size next to a 5 by 5 live grid. *)
Definition wide_game : gameData :=
  {| gd_name := str "wide"; gd_grid := replicate 50 (replicate 80 n0);
     gd_generation := 12; gd_date := str "2024-01-01T00:00:00.000Z";
     gd_gridWidth := 80; gd_gridHeight := 50 |}.

(** The 5 by 5 blinker board with that game in its store. *)
Definition small_window : state :=
  set_conwayGameSaves (Some {[ str "wide" := wide_game ]}) blinker.

(** The blinker board with [__proto__] typed into the name field. *)
Definition proto_named : state := set_saveNameInput (str "__proto__") blinker.

(** A session on a 3 by 2 board in a window of 1280 by 720 pixels, with an
    empty save store ... *)
Definition fresh_session : state :=
  snd (init 1280 720 Nat.even
         (page_load {| cellSize := 8; gridWidth := 3; gridHeight := 2 |} None)).

(** ... in which one step is made and the game saved as "a". *)
Definition played_session : state :=
  snd (handle (EvSave (str "2024-01-01T00:00:00.000Z"))
         (snd (handle (EvInput (str " a "))
                 (snd (handle EvStep fresh_session))))).

(** * Notions for the properties of the remaining code *)

(** ** What a computation leaves alone *)

(** Every run of [c], whether it returns or throws, takes a state to one that
    is related to it by [R]. *)
Definition preserves (R : state -> state -> Prop) {A : Type} (c : M A) : Prop :=
  forall s r s', c s = (r, s') -> R s s'.

(** Only the heap differs. *)
Definition heap_only (s s' : state) : Prop := s' = set_heap (heap s') s.

(** The arrays that exist in [s] are the same in [s']. *)
Definition old_arrays_kept (s s' : state) : Prop :=
  forall l, (l < length (heap s))%nat -> heap s' !! l = heap s !! l.

(** While [nextGeneration], called in state [s], fills its new grid: nothing
    but the heap has changed, and the heap is the one of [s] followed by the
    rows of the new grid, which have the configured dimensions and hold bits. *)
Definition building (s σ : state) : Prop :=
  heap_only s σ
  /\ exists R, heap σ = heap s ++ R /\ rows_ok s R /\ Forall (Forall bit) R.

(** The configuration is the same. *)
Definition config_kept (s s' : state) : Prop := CONFIG s' = CONFIG s.

(** The save store is the same. *)
Definition store_kept (s s' : state) : Prop :=
  conwayGameSaves s' = conwayGameSaves s.

(** The generation counter is the same. *)
Definition generation_kept (s s' : state) : Prop :=
  generation s' = generation s.

(** If the counter and the stored counts were not negative, they still are
    not. *)
Definition keeps_counter (s s' : state) : Prop :=
  counter_ok s -> counter_ok s'.

(** The resize events. *)
Definition resizes (e : event) : bool :=
  match e with
  | EvResize _ _ => true
  | _ => false
  end.

(** The events that write the save store. *)
Definition writes_store (e : event) : bool :=
  match e with
  | EvSave _ | EvDelete _ _ => true
  | _ => false
  end.

(** ** Statistics *)

(** The number of cells of the live grid that hold 1. *)
Definition live_cells (s : state) : Z :=
  Z.of_nat (length (filter (fun v => v = Num 1) (concat (cells s)))).

(** Only the heap and the two statistics fields differ. *)
Definition heap_and_stats_only (s s' : state) : Prop :=
  s' = set_populationDisplay (populationDisplay s')
         (set_generationDisplay (generationDisplay s')
            (set_heap (heap s') s)).

(** ** Names *)

(** The string consists of white space only (or is empty). *)
Fixpoint blank (v : jsstring) : bool :=
  match v with
  | [] => true
  | c :: v' => is_space c && blank v'
  end.

(** ** Shifting the board *)

(** The grid of [t] is the grid of [s] moved by [a] columns and [b] rows
    around the torus: cell (x, y) of [t] is cell (x + a, y + b) of [s]. *)
Definition shifted (a b : Z) (s t : state) : Prop :=
  CONFIG t = CONFIG s
  /\ forall x y,
       0 <= x < gridWidth (CONFIG s) -> 0 <= y < gridHeight (CONFIG s) ->
       cell t x y
       = cell s ((x + a) mod gridWidth (CONFIG s))
               ((y + b) mod gridHeight (CONFIG s)).

(** ** More concrete boards *)

(** The 5 by 4 board with the block of [wrapped_block] moved into the
    bottom right corner: its cells are (3, 2), (4, 2), (3, 3) and (4, 3). *)
Definition corner_block : state :=
  with_rows [[n0;n0;n0;n0;n0];
             [n0;n0;n0;n0;n0];
             [n0;n0;n0;n1;n1];
             [n0;n0;n0;n1;n1]] (state0 5 4).

(** The blinker board after a click on its centre, and after a click on its
    corner (0, 0). *)
Definition blinker_centre_clicked : state := snd (handleCanvasClick 2 2 blinker).
Definition blinker_corner_clicked : state := snd (handleCanvasClick 0 0 blinker).

(** A game of generation 2^53 in the save store, as a long session could
    have left it there; the session that finds it and loads it; and that
    session with the game started again. *)
Definition old_game : gameData :=
  {| gd_name := str "old"; gd_grid := [[n0;n1;n0]; [n0;n1;n0]];
     gd_generation := 2 ^ 53; gd_date := str "2024-01-01T00:00:00.000Z";
     gd_gridWidth := 3; gd_gridHeight := 2 |}.

Definition late_session : state :=
  snd (handle (EvLoad (str "old"))
         (snd (init 1280 720 Nat.even
                 (page_load {| cellSize := 8; gridWidth := 3; gridHeight := 2 |}
                            (Some {[ str "old" := old_game ]}))))).


(** The game that [played_session] holds under the name "a". *)
Definition stored_a : gameData :=
  snapshot (str "a") (str "2024-01-01T00:00:00.000Z")
           (snd (handle EvStep fresh_session)).

(** Three animation frames; the interval had elapsed at the first and the
    third. *)
Definition three_frames : list (bool * nat) := [(true, 1%nat); (false, 2%nat); (true, 3%nat)].

(** * Properties *)

(** ** The model at work *)

Example blinker_turns :
  nextGeneration blinker
  = (Ok tt, snd (nextGeneration blinker))
  /\ cells (snd (nextGeneration blinker))
     = [[n0;n0;n0;n0;n0];
        [n0;n0;n0;n0;n0];
        [n0;n1;n1;n1;n0];
        [n0;n0;n0;n0;n0];
        [n0;n0;n0;n0;n0]]
  /\ generation (snd (nextGeneration blinker)) = 1
  /\ populationDisplay (snd (nextGeneration blinker)) = Some (Num 3).
Proof.
  split; [vm_compute; reflexivity|]. split; [vm_compute; reflexivity|].
  split; vm_compute; reflexivity.
Qed.

(** In a window of 500 by 800 pixels [initCanvas] makes the grid 72 by 66
    cells of 6 pixels; in one of 800 by 600 pixels, 68 by 51 cells of 7
    pixels; from 1024 pixels on it leaves CONFIG alone. *)
Example initCanvas_sizes :
  CONFIG (snd (initCanvas 500 800 (state0 80 50)))
  = {| cellSize := 6; gridWidth := 72; gridHeight := 66 |}
  /\ CONFIG (snd (initCanvas 800 600 (state0 80 50)))
     = {| cellSize := 7; gridWidth := 68; gridHeight := 51 |}
  /\ CONFIG (snd (initCanvas 1024 768 (state0 80 50)))
     = {| cellSize := 8; gridWidth := 80; gridHeight := 50 |}.
Proof. repeat split; vm_compute; reflexivity. Qed.

(** At 2^53 the increment of the counter is lost in the rounding, as it is
    in the addition of doubles. *)
Example js_incr_stuck :
  js_incr (2 ^ 53 - 1) = 2 ^ 53
  /\ js_incr (2 ^ 53) = 2 ^ 53
  /\ Math_floor (num (2 ^ 53) + num 1)%float = 2 ^ 53
  /\ js_incr (2 ^ 53 + 2) = 2 ^ 53 + 4
  /\ Math_floor (num (2 ^ 53 + 2) + num 1)%float = 2 ^ 53 + 4.
Proof. repeat split; vm_compute; reflexivity. Qed.

Example corners_count : countNeighbors corners (grid corners) 0 0 = Ok (Num 3).
Proof. vm_compute. reflexivity. Qed.

Example remainder_keeps_sign : js_rem (-1) 5 = Num (-1) /\ js_rem 7 0 = NaN.
Proof. split; reflexivity. Qed.

Example arr_set_grows : arr_set [n0] 3 n1 = [n0; Undefined; Undefined; n1].
Proof. reflexivity. Qed.

Example missing_rows_throw : fst (nextGeneration (state0 2 2)) = Throw TypeError.
Proof. vm_compute. reflexivity. Qed.

Example negative_width_throws : fst (clear (state0 (-1) 2)) = Throw RangeError.
Proof. vm_compute. reflexivity. Qed.

Example trim_name :
  trim (str "  mi partida  ") = str "mi partida"
  /\ trim ([0xA0; 0x3000]%N ++ str "a b" ++ [0xFEFF; 0x2028]%N) = str "a b".
Proof. split; vm_compute; reflexivity. Qed.

Example save_then_delete :
  let s := snd ((modify (set_saveNameInput (str "a"));; saveGame (str "t");;
                 deleteGame (str "a") true) blinker) in
  conwayGameSaves s = Some ∅ /\ isRunning s = false.
Proof. split; vm_compute; reflexivity. Qed.

(** A name that every object inherits can be stored like any other, with
    the exception of [__proto__]. *)
Example inherited_names :
  get_property ∅ (str "toString") = Inherited
  /\ get_property ∅ (str "nada") = Absent
  /\ get_property (set_property ∅ (str "toString") wide_game) (str "toString")
     = Own wide_game
  /\ set_property ∅ (str "__proto__") wide_game = ∅.
Proof. repeat split; vm_compute; reflexivity. Qed.

(** ** The monad and the heap *)

Lemma set_heap_same s : set_heap (heap s) s = s.
Proof. by destruct s. Qed.

Lemma mapM_ext {B C : Type} (f f' : B -> M C) (l : list B) s :
  (forall b s', f b s' = f' b s') -> mapM f l s = mapM f' l s.
Proof.
  intros Hf. revert s. induction l as [|b l IH]; intros s; [done|].
  cbn. unfold bind. rewrite Hf. destruct (f' b s) as [[c|e] s1]; [|done].
  by rewrite IH.
Qed.

(** Allocating one array per element appends them to the heap in order. *)
Lemma mapM_alloc_map {B : Type} (f : B -> list jsval) (l : list B) s :
  mapM (fun b => alloc (f b)) l s
  = (Ok (seq (length (heap s)) (length l)), set_heap (heap s ++ map f l) s).
Proof.
  revert s. induction l as [|b l IH]; intros s.
  - cbn. by rewrite app_nil_r, set_heap_same.
  - cbn [mapM]. unfold bind at 1. unfold alloc at 1.
    unfold bind at 1. rewrite IH. cbn.
    rewrite length_app, <- app_assoc. cbn.
    by replace (length (heap s) + 1)%nat with (S (length (heap s))) by lia.
Qed.

Lemma mapM_alloc (rows : list (list jsval)) s :
  mapM alloc rows s
  = (Ok (seq (length (heap s)) (length rows)), set_heap (heap s ++ rows) s).
Proof. rewrite <- (map_id rows) at 3. apply (mapM_alloc_map id). Qed.

(** ** Grid creation *)

Lemma createEmptyGrid_ok s :
  dims_ok s ->
  createEmptyGrid s
  = (Ok (seq (length (heap s)) (height s)),
     set_heap (heap s ++ empty_rows s) s).
Proof.
  intros [Hh Hw]. unfold createEmptyGrid, empty_rows.
  unfold bind at 1. unfold gets at 1. unfold bind at 1. unfold reads at 1.
  unfold Array_fill at 1. destruct (Z.ltb_spec (gridHeight (CONFIG s)) 0); [lia|].
  fold (height s).
  destruct (decide (gridHeight (CONFIG s) = 0)) as [E|E].
  - unfold height. rewrite E. cbn. by rewrite app_nil_r, set_heap_same.
  - rewrite (mapM_ext _ (fun _ => alloc (replicate (width s) (Num 0)))).
    + rewrite mapM_alloc_map, length_replicate. do 3 f_equal.
      apply (fmap_replicate (fun _ : jsval => replicate (width s) (Num 0))).
    + intros _ s'. unfold bind, reads, Array_fill.
      destruct (Z.ltb_spec (gridWidth (CONFIG s)) 0); [lia|]. done.
Qed.

Lemma createRandomGrid_ok rnd s :
  dims_ok s ->
  createRandomGrid rnd s
  = (Ok (seq (length (heap s)) (height s)),
     set_heap (heap s ++ random_rows rnd s) s).
Proof.
  intros [Hh Hw]. unfold createRandomGrid.
  unfold bind at 1. unfold gets at 1. unfold bind at 1. unfold reads at 1.
  unfold Array_fill at 1. destruct (Z.ltb_spec (gridHeight (CONFIG s)) 0); [lia|].
  rewrite length_replicate. fold (height s).
  destruct (decide (gridHeight (CONFIG s) = 0)) as [E|E].
  - unfold random_rows, height. rewrite E. cbn.
    by rewrite app_nil_r, set_heap_same.
  - rewrite (mapM_ext _ (fun y => alloc
               (imap (fun x _ => if rnd (y * width s + x)%nat
                                 then Num 1 else Num 0)
                     (replicate (width s) (Num 0))))).
    + rewrite mapM_alloc_map. by rewrite length_seq.
    + intros y s'. unfold bind, reads, Array_fill.
      destruct (Z.ltb_spec (gridWidth (CONFIG s)) 0); [lia|]. done.
Qed.

(** ** Reading a well-formed grid *)

Lemma grid_ok_lookup s y :
  grid_ok s -> 0 <= y < gridHeight (CONFIG s) ->
  exists l row, grid s !! Z.to_nat y = Some l /\ heap s !! l = Some row
                /\ Z.of_nat (length row) = gridWidth (CONFIG s).
Proof.
  intros (Hlen & _ & Hrows) Hy.
  destruct (lookup_lt_is_Some_2 (grid s) (Z.to_nat y)) as [l Hl]; [lia|].
  rewrite Forall_forall in Hrows.
  destruct (Hrows l) as (row & Hrow & Hw).
  { apply list_elem_of_lookup. eauto. }
  eauto.
Qed.

Lemma index2_in_range s x y :
  grid_ok s ->
  0 <= x < gridWidth (CONFIG s) -> 0 <= y < gridHeight (CONFIG s) ->
  index2 (heap s) (grid s) (Num y) (Num x) = Ok (cell s x y).
Proof.
  intros Hok Hx Hy. unfold cell.
  destruct (grid_ok_lookup s y Hok Hy) as (l & row & Hl & Hrow & Hw).
  unfold index2, arr_get.
  destruct (Z.leb_spec 0 y); [|lia]. rewrite Hl, Hrow. done.
Qed.

(** Reads through [g] only depend on the rows that [g] refers to. *)
Lemma index2_frame (h h' : list (list jsval)) (g : list loc) y x :
  (forall l, l ∈ g -> h' !! l = h !! l) ->
  index2 h' g y x = index2 h g y x.
Proof.
  intros Hfr. unfold index2.
  destruct (arr_get g y) as [l|] eqn:Hg; [|done].
  rewrite Hfr; [done|].
  unfold arr_get in Hg. destruct y as [z| | |]; try done.
  destruct (0 <=? z); [|done]. apply list_elem_of_lookup. eauto.
Qed.

Lemma countNeighbors_frame s s' g x y :
  CONFIG s' = CONFIG s ->
  (forall l, l ∈ g -> heap s' !! l = heap s !! l) ->
  countNeighbors s' g x y = countNeighbors s g x y.
Proof.
  intros Hc Hfr. unfold countNeighbors. rewrite Hc.
  assert (Hi : forall a b, index2 (heap s') g a b = index2 (heap s) g a b)
    by (intros; by apply index2_frame).
  unfold deltas. cbn [ofold]. cbn [Z.eqb andb].
  by rewrite !Hi.
Qed.

(** The index the code computes for a neighbour is the wrapped coordinate. *)
Lemma js_rem_wrap (c d n : Z) :
  0 <= c < n -> -1 <= d <= 1 ->
  js_rem (c + d + n) n = Num ((c + d) mod n).
Proof.
  intros Hc Hd. unfold js_rem.
  destruct (Z.eqb_spec n 0); [lia|].
  rewrite Z.rem_mod_nonneg by lia.
  f_equal. rewrite <- (Z.mod_add (c + d) 1 n) by lia. f_equal. lia.
Qed.

Lemma countNeighbors_in_range s x y :
  grid_ok s ->
  0 <= x < gridWidth (CONFIG s) -> 0 <= y < gridHeight (CONFIG s) ->
  countNeighbors s (grid s) x y
  = Ok (fold_left js_add (map (neighbor s x y) offsets) (Num 0)).
Proof.
  intros Hok Hx Hy. unfold countNeighbors, deltas.
  cbn [ofold]. cbn [Z.eqb andb].
  rewrite !js_rem_wrap by lia.
  rewrite !index2_in_range by (try done; apply Z.mod_pos_bound; lia).
  reflexivity.
Qed.

(** ** The simulation step on a well-formed grid *)

Lemma grid_ok_lt s l : grid_ok s -> l ∈ grid s -> (l < length (heap s))%nat.
Proof.
  intros (_ & _ & Hrows) Hl. rewrite Forall_forall in Hrows.
  destruct (Hrows l Hl) as (row & Hrow & _). by eapply lookup_lt_Some.
Qed.

Lemma grid_ok_frame s R l :
  grid_ok s -> l ∈ grid s -> (heap s ++ R) !! l = heap s !! l.
Proof. intros Hok Hl. apply lookup_app_l. by eapply grid_ok_lt. Qed.

Lemma arr_set_in_range (row : list jsval) (x : nat) v :
  (x < length row)%nat -> arr_set row (Z.of_nat x) v = <[x := v]> row.
Proof.
  intros Hx. unfold arr_set.
  destruct (Z.ltb_spec (Z.of_nat x) 0); [lia|].
  destruct (Z.ltb_spec (Z.of_nat x) (Z.of_nat (length row))); [|lia].
  by rewrite Nat2Z.id.
Qed.

Lemma store2_new (h R : list (list jsval)) (n : nat) (row : list jsval)
      (x y : nat) v σ :
  heap σ = h ++ R -> (y < n)%nat -> R !! y = Some row -> (x < length row)%nat ->
  store2 (seq (length h) n) (Z.of_nat y) (Z.of_nat x) v σ
  = (Ok tt, set_heap (h ++ <[y := <[x := v]> row]> R) σ).
Proof.
  intros Hh Hy HR Hx. unfold store2, arr_get.
  destruct (Z.leb_spec 0 (Z.of_nat y)); [|lia].
  rewrite Nat2Z.id, lookup_seq_lt by done.
  rewrite Hh, lookup_app_r by lia.
  replace (length h + y - length h)%nat with y by lia. rewrite HR.
  by rewrite arr_set_in_range, insert_app_r.
Qed.

Lemma seqZ_0 (n : Z) : seqZ 0 n = map Z.of_nat (seq 0 (Z.to_nat n)).
Proof.
  unfold seqZ. apply map_ext. intros i. lia.
Qed.

Lemma for_map {A B : Type} (f : A -> B) (l : list A) (body : B -> M unit) σ :
  for_ (map f l) body σ = for_ l (fun a => body (f a)) σ.
Proof.
  revert σ. induction l as [|a l IH]; intros σ; [done|].
  cbn. unfold bind. destruct (body (f a) σ) as [[[]|e] σ']; [apply IH|done].
Qed.

(** The two loops run in states [σ] that differ from the state [s] at the
    call only in the heap, which is the heap of [s] followed by the rows [R]
    of the new grid. *)
Section OneGeneration.

Variable s : state.
Hypothesis Hok : grid_ok s.

Let newGrid : list loc := seq (length (heap s)) (height s).

Lemma nextGeneration_body_ok σ R row (x y : nat) :
  (y < height s)%nat -> (x < width s)%nat ->
  CONFIG σ = CONFIG s -> grid σ = grid s -> heap σ = heap s ++ R ->
  R !! y = Some row -> length row = width s ->
  nextGeneration_body newGrid (Z.of_nat y) (Z.of_nat x) σ
  = (Ok tt, set_heap (heap s ++ <[y := <[x := next_cell s x y]> row]> R) σ).
Proof.
  intros Hy Hx Hc Hg Hh HR Hrow. unfold width, height in *.
  unfold nextGeneration_body, bind, reads. rewrite Hg.
  rewrite (countNeighbors_frame s σ) by
    (try done; intros; rewrite Hh; by apply grid_ok_frame).
  rewrite countNeighbors_in_range by (try done; lia).
  rewrite (index2_frame (heap s) (heap σ)) by
    (intros; rewrite Hh; by apply grid_ok_frame).
  rewrite index2_in_range by (try done; lia).
  fold (neighbors s (Z.of_nat x) (Z.of_nat y)).
  assert (Hst : store2 newGrid (Z.of_nat y) (Z.of_nat x) (next_cell s x y) σ
                = (Ok tt,
                   set_heap (heap s ++ <[y := <[x := next_cell s x y]> row]> R)
                            σ))
    by (eapply store2_new; try done; lia).
  rewrite <- Hst. unfold next_cell, rule.
  destruct (strict_eq (cell s (Z.of_nat x) (Z.of_nat y)) 1
            && (strict_eq (neighbors s (Z.of_nat x) (Z.of_nat y)) 2
                || strict_eq (neighbors s (Z.of_nat x) (Z.of_nat y)) 3));
    [done|].
  by destruct (strict_eq (cell s (Z.of_nat x) (Z.of_nat y)) 0
               && strict_eq (neighbors s (Z.of_nat x) (Z.of_nat y)) 3).
Qed.

(** The inner loop from column [k] on: the cells of row [y] are overwritten
    from left to right. *)
Lemma inner_loop (y : nat) :
  (y < height s)%nat ->
  forall (n k : nat) (row : list jsval) (R : list (list jsval)) σ,
    (k + n = width s)%nat ->
    CONFIG σ = CONFIG s -> grid σ = grid s -> heap σ = heap s ++ R ->
    R !! y = Some row -> length row = width s ->
    for_ (seq k n)
         (fun x => nextGeneration_body newGrid (Z.of_nat y) (Z.of_nat x)) σ
    = (Ok tt,
       set_heap (heap s
                 ++ <[y := take k row
                           ++ map (fun x => next_cell s x y) (seq k n)]> R)
                σ).
Proof.
  intros Hy. induction n as [|n IH]; intros k row R σ Hk Hc Hg Hh HR Hrow.
  - cbn. rewrite app_nil_r, take_ge by lia.
    rewrite list_insert_id by done. by rewrite <- Hh, set_heap_same.
  - cbn [seq for_]. unfold bind at 1.
    rewrite (nextGeneration_body_ok σ R row) by (try done; lia).
    assert (HyR : (y < length R)%nat) by (by eapply lookup_lt_Some).
    rewrite (IH (S k) (<[k := next_cell s k y]> row)
                (<[y := <[k := next_cell s k y]> row]> R));
      try done; try lia.
    + rewrite list_insert_insert_eq.
      rewrite (take_S_r _ k (next_cell s k y))
        by (apply list_lookup_insert_eq; lia).
      rewrite take_insert_ge by lia. rewrite <- app_assoc. done.
    + by apply list_lookup_insert_eq.
    + by rewrite length_insert.
Qed.

(** The outer loop from row [k] on. *)
Lemma outer_loop :
  forall (n k : nat) (R : list (list jsval)) σ,
    (k + n = height s)%nat ->
    CONFIG σ = CONFIG s -> grid σ = grid s -> heap σ = heap s ++ R ->
    length R = height s -> Forall (fun row => length row = width s) R ->
    for_ (seq k n)
         (fun y => for_ (seqZ 0 (gridWidth (CONFIG s)))
            (fun x => nextGeneration_body newGrid (Z.of_nat y) x)) σ
    = (Ok tt,
       set_heap (heap s ++ take k R
                 ++ map (fun y => map (fun x => next_cell s x y)
                                      (seq 0 (width s)))
                        (seq k n))
                σ).
Proof.
  induction n as [|n IH]; intros k R σ Hk Hc Hg Hh HR Hrows.
  - cbn. rewrite app_nil_r, take_ge by lia. by rewrite <- Hh, set_heap_same.
  - cbn [seq for_]. unfold bind at 1.
    destruct (lookup_lt_is_Some_2 R k) as [row Hrow]; [lia|].
    assert (Hlen : length row = width s).
    { rewrite Forall_forall in Hrows. apply Hrows.
      apply list_elem_of_lookup. eauto. }
    set (new := map (fun x => next_cell s x k) (seq 0 (width s))).
    assert (Hin : for_ (seqZ 0 (gridWidth (CONFIG s)))
                    (fun x => nextGeneration_body newGrid (Z.of_nat k) x) σ
                  = (Ok tt, set_heap (heap s ++ <[k := new]> R) σ)).
    { rewrite seqZ_0, for_map. fold (width s).
      by rewrite (inner_loop k ltac:(lia) (width s) 0%nat row R σ)
        by (try done; lia). }
    rewrite Hin.
    rewrite (IH (S k) (<[k := new]> R)); try done; try lia.
    + rewrite (take_S_r _ k new) by (apply list_lookup_insert_eq; lia).
      rewrite take_insert_ge by lia. by rewrite <- app_assoc.
    + by rewrite length_insert.
    + apply Forall_insert; [done|]. unfold new.
      by rewrite length_map, length_seq.
Qed.

End OneGeneration.

(** ** Reading loops never throw on a well-formed grid *)

Lemma ofold_total {A B : Type} (f : A -> B -> outcome A) (l : list B) :
  (forall a b, b ∈ l -> exists a', f a b = Ok a') ->
  forall a, exists r, ofold f a l = Ok r.
Proof.
  induction l as [|b l IH]; intros Hf a; [by eexists|].
  cbn. destruct (Hf a b) as [a' Ha']; [by left|]. rewrite Ha'. cbn.
  apply IH. intros. apply Hf. by right.
Qed.

Lemma population_total s : grid_ok s -> exists p, population s = Ok p.
Proof.
  intros Hok. unfold population. apply ofold_total.
  intros p y Hy. apply ofold_total. intros p' x Hx.
  apply elem_of_seqZ in Hy, Hx.
  rewrite index2_in_range by (try done; lia). by eexists.
Qed.

Lemma renderGrid_ok s : grid_ok s -> renderGrid s = (Ok tt, s).
Proof.
  intros Hok. unfold renderGrid, reads.
  match goal with
  | |- (?t, _) = _ => assert (Ht : exists r, t = Ok r)
  end.
  { apply ofold_total. intros [] y Hy. apply ofold_total. intros [] x Hx.
    apply elem_of_seqZ in Hy, Hx.
    rewrite index2_in_range by (try done; lia). by eexists. }
  by destruct Ht as [[] ->].
Qed.

Lemma updateStats_ok s : grid_ok s -> updateStats s = (Ok tt, stats_of s).
Proof.
  intros Hok. unfold updateStats, stats_of, bind, gets, modify, reads.
  change (population (set_generationDisplay (Some (generation s)) s))
    with (population s).
  by destruct (population_total s Hok) as [p ->].
Qed.

(** ** Freshly allocated grids *)

Lemma cells_fresh σ (h rows : list (list jsval)) :
  heap σ = h ++ rows -> grid σ = seq (length h) (length rows) ->
  cells σ = rows.
Proof.
  intros Hh Hg. unfold cells. rewrite Hh, Hg. apply list_eq. intros i.
  rewrite list_lookup_fmap.
  destruct (decide (i < length rows)%nat) as [Hi|Hi].
  - rewrite lookup_seq_lt by done. cbn.
    rewrite lookup_app_r by lia.
    replace (length h + i - length h)%nat with i by lia.
    destruct (lookup_lt_is_Some_2 rows i Hi) as [r Hr]. by rewrite Hr.
  - rewrite lookup_seq_ge by lia. cbn. symmetry. apply lookup_ge_None. lia.
Qed.

Lemma grid_ok_fresh σ (h rows : list (list jsval)) :
  heap σ = h ++ rows -> grid σ = seq (length h) (length rows) ->
  Z.of_nat (length rows) = gridHeight (CONFIG σ) ->
  Forall (fun r => Z.of_nat (length r) = gridWidth (CONFIG σ)) rows ->
  grid_ok σ.
Proof.
  intros Hh Hg Hlen Hrows. unfold grid_ok. rewrite Hg. repeat split.
  - by rewrite length_seq.
  - apply NoDup_seq.
  - apply Forall_forall. intros l Hl. apply elem_of_seq in Hl.
    destruct (lookup_lt_is_Some_2 rows (l - length h)) as [r Hr]; [lia|].
    exists r. split.
    + rewrite Hh, lookup_app_r by lia. done.
    + rewrite Forall_forall in Hrows. apply Hrows.
      apply list_elem_of_lookup. eauto.
Qed.

Lemma grid_ok_dims s : grid_ok s -> dims_ok s.
Proof.
  intros Hok. split; [destruct Hok; lia|]. intros Hh.
  destruct (grid_ok_lookup s 0 Hok ltac:(lia)) as (l & row & _ & _ & Hw). lia.
Qed.

(** ** The state after one generation *)

Lemma length_next_rows s : length (next_rows s) = height s.
Proof. unfold next_rows. by rewrite length_map, length_seq. Qed.

Lemma next_rows_width s :
  Forall (fun r => length r = width s) (next_rows s).
Proof.
  unfold next_rows. apply Forall_forall. intros r Hr.
  apply list_elem_of_fmap in Hr as (y & -> & _).
  by rewrite length_map, length_seq.
Qed.

Lemma grid_ok_next_state s : grid_ok s -> grid_ok (next_state s).
Proof.
  intros Hok. destruct (grid_ok_dims s Hok) as [Hh Hw].
  apply (grid_ok_fresh _ (heap s) (next_rows s)); cbn.
  - done.
  - by rewrite length_next_rows.
  - rewrite length_next_rows. unfold height. lia.
  - destruct (decide (gridHeight (CONFIG s) = 0)) as [E|E].
    + unfold next_rows, height. rewrite E. cbn. constructor.
    + eapply Forall_impl; [apply next_rows_width|]. cbn. intros r ->.
      unfold width. lia.
Qed.

Lemma nextGeneration_ok s :
  grid_ok s -> nextGeneration s = (Ok tt, next_state s).
Proof.
  intros Hok.
  unfold nextGeneration. unfold bind at 1.
  rewrite createEmptyGrid_ok by (by apply grid_ok_dims).
  unfold bind at 1. unfold gets at 1. cbn [CONFIG set_heap].
  unfold bind at 1.
  rewrite (seqZ_0 (gridHeight (CONFIG s))), for_map. fold (height s).
  rewrite (outer_loop s Hok (height s) 0%nat (empty_rows s)); try done.
  - cbn [take app]. fold (next_rows s).
    unfold bind at 1. unfold modify at 1.
    unfold bind at 1. unfold modify at 1.
    rewrite updateStats_ok; [done|].
    apply (grid_ok_next_state s Hok).
  - unfold empty_rows. by rewrite length_replicate.
  - unfold empty_rows. apply Forall_replicate. by rewrite length_replicate.
Qed.

(** ** Cells *)

Lemma cell_cells s (x y : nat) :
  cell s (Z.of_nat x) (Z.of_nat y)
  = default Undefined (cells s !! y ≫= fun row => row !! x).
Proof.
  unfold cell, index2, arr_get, cells.
  destruct (Z.leb_spec 0 (Z.of_nat y)); [|lia].
  destruct (Z.leb_spec 0 (Z.of_nat x)); [|lia].
  rewrite !Nat2Z.id, list_lookup_fmap.
  destruct (grid s !! y) as [l|]; [|done]. cbn.
  destruct (heap s !! l) as [row|]; done.
Qed.

Lemma cell_Forall (P : jsval -> Prop) s x y :
  grid_ok s -> Forall (Forall P) (cells s) ->
  0 <= x < gridWidth (CONFIG s) -> 0 <= y < gridHeight (CONFIG s) ->
  P (cell s x y).
Proof.
  intros Hok HP Hx Hy.
  destruct (grid_ok_lookup s y Hok Hy) as (l & row & Hl & Hrow & Hw).
  rewrite <- (Z2Nat.id x), <- (Z2Nat.id y) by lia. rewrite cell_cells.
  unfold cells in *. rewrite list_lookup_fmap, Hl. cbn. rewrite Hrow. cbn.
  destruct (lookup_lt_is_Some_2 row (Z.to_nat x)) as [v Hv]; [lia|].
  rewrite Hv. cbn.
  rewrite Forall_forall in HP.
  specialize (HP row). rewrite Forall_forall in HP. apply HP.
  - apply list_elem_of_fmap. exists l. rewrite Hrow. split; [done|].
    apply list_elem_of_lookup. eauto.
  - apply list_elem_of_lookup. eauto.
Qed.

Lemma cell_binary s x y :
  grid_ok s -> binary s ->
  0 <= x < gridWidth (CONFIG s) -> 0 <= y < gridHeight (CONFIG s) ->
  bit (cell s x y).
Proof. apply cell_Forall. Qed.

Lemma cells_shape s :
  grid_ok s ->
  length (cells s) = height s
  /\ Forall (fun row => length row = width s) (cells s).
Proof.
  intros Hok. pose proof Hok as (Hlen & _ & Hrows). unfold cells, height, width.
  split; [rewrite length_map; lia|].
  apply Forall_fmap. eapply Forall_impl; [exact Hrows|].
  intros l (row & Hrow & Hw). cbn. rewrite Hrow. cbn. lia.
Qed.

(** Two well-formed grids of the same dimensions with equal cells at every
    coordinate hold the same rows. *)
Lemma cells_ext s s' :
  grid_ok s -> grid_ok s' -> CONFIG s' = CONFIG s ->
  (forall x y,
     0 <= x < gridWidth (CONFIG s) -> 0 <= y < gridHeight (CONFIG s) ->
     cell s' x y = cell s x y) ->
  cells s' = cells s.
Proof.
  intros Hok Hok' Hc Hcell.
  destruct (cells_shape s Hok) as [Hh Hw].
  destruct (cells_shape s' Hok') as [Hh' Hw'].
  unfold height, width in *. rewrite Hc in Hh', Hw'.
  apply list_eq_same_length with (n := Z.to_nat (gridHeight (CONFIG s)));
    [done..|].
  intros y r' r Hy Hr' Hr.
  rewrite Forall_forall in Hw, Hw'.
  apply list_eq_same_length with (n := Z.to_nat (gridWidth (CONFIG s))).
  - apply Hw. apply list_elem_of_lookup. eauto.
  - apply Hw'. apply list_elem_of_lookup. eauto.
  - intros x v' v Hx Hv' Hv.
    specialize (Hcell (Z.of_nat x) (Z.of_nat y) ltac:(lia) ltac:(lia)).
    rewrite !cell_cells, Hr, Hr' in Hcell. cbn in Hcell.
    rewrite Hv, Hv' in Hcell. done.
Qed.

Lemma cell_next_state s (x y : nat) :
  grid_ok s -> (x < width s)%nat -> (y < height s)%nat ->
  cell (next_state s) (Z.of_nat x) (Z.of_nat y) = next_cell s x y.
Proof.
  intros Hok Hx Hy. rewrite cell_cells.
  rewrite (cells_fresh _ (heap s) (next_rows s)); cbn;
    [| done | by rewrite length_next_rows].
  unfold next_rows. rewrite list_lookup_fmap, lookup_seq_lt by done. cbn.
  by rewrite list_lookup_fmap, lookup_seq_lt by done.
Qed.

Lemma strict_eq_spec (v : jsval) (k : Z) : reflect (v = Num k) (strict_eq v k).
Proof.
  destruct v as [z| | |]; cbn; try (constructor; congruence).
  destruct (Z.eqb_spec z k); constructor; congruence.
Qed.

Lemma rule_spec (c n : jsval) :
  (c = Num 1 /\ (n = Num 2 \/ n = Num 3) \/ c = Num 0 /\ n = Num 3 ->
   rule c n = Num 1)
  /\ (~ (c = Num 1 /\ (n = Num 2 \/ n = Num 3) \/ c = Num 0 /\ n = Num 3) ->
      rule c n = Num 0).
Proof.
  unfold rule.
  destruct (strict_eq_spec c 1), (strict_eq_spec n 2), (strict_eq_spec n 3),
    (strict_eq_spec c 0); cbn; split; intros Hr; try reflexivity;
    exfalso; intuition congruence.
Qed.

(** ** C1: the simulation step *)

(** The sum of a list of bits is the number of its ones. *)
Lemma sum_bits (row : list jsval) (p : Z) :
  Forall bit row ->
  fold_left js_add row (Num p)
  = Num (p + Z.of_nat (length (filter (fun v => v = Num 1) row))).
Proof.
  intros Hrow. revert p. induction Hrow as [|v row Hv _ IH]; intros p.
  - cbn. f_equal. lia.
  - cbn [fold_left]. destruct Hv as [-> | ->]; cbn [js_add]; rewrite IH.
    + rewrite filter_cons_False by done. f_equal. lia.
    + rewrite filter_cons_True by done. cbn [length]. f_equal. lia.
Qed.

(** On a grid of bits the sum [countNeighbors] forms is the number of live
    neighbours. *)
Lemma neighbors_live s x y :
  grid_ok s -> binary s ->
  0 <= x < gridWidth (CONFIG s) -> 0 <= y < gridHeight (CONFIG s) ->
  neighbors s x y = Num (live_neighbors s x y).
Proof.
  intros Hok Hbin Hx Hy. unfold neighbors, live_neighbors.
  rewrite sum_bits; [done|].
  apply Forall_fmap, Forall_forall. intros d _. cbn. unfold neighbor.
  apply cell_binary; try done; apply Z.mod_pos_bound; lia.
Qed.

(** C1.  On a grid of the configured dimensions whose cells are 0 or 1,
    [nextGeneration] returns; the grid it installs has the configured
    dimensions and consists of arrays that did not exist before; the count
    [countNeighbors] returns for a cell is the number of its live
    neighbours on the torus, and the new cell is 1 exactly when the old
    cell was 1 with 2 or 3 live neighbours or was 0 with exactly 3, and is 0
    otherwise; every array that existed before, so every row of the input
    grid, is left as it was. *)
Theorem nextGeneration_rule s :
  grid_ok s -> binary s ->
  exists s',
    nextGeneration s = (Ok tt, s')
    /\ CONFIG s' = CONFIG s
    /\ grid_ok s'
    /\ (forall l, l ∈ grid s' -> (length (heap s) <= l)%nat)
    /\ (forall x y,
          0 <= x < gridWidth (CONFIG s) -> 0 <= y < gridHeight (CONFIG s) ->
          countNeighbors s (grid s) x y = Ok (Num (live_neighbors s x y))
          /\ (cell s x y = Num 1
              /\ (live_neighbors s x y = 2 \/ live_neighbors s x y = 3)
              \/ cell s x y = Num 0 /\ live_neighbors s x y = 3 ->
              cell s' x y = Num 1)
          /\ (~ (cell s x y = Num 1
                 /\ (live_neighbors s x y = 2 \/ live_neighbors s x y = 3)
                 \/ cell s x y = Num 0 /\ live_neighbors s x y = 3) ->
              cell s' x y = Num 0))
    /\ (forall l, (l < length (heap s))%nat -> heap s' !! l = heap s !! l)
    /\ rows_of (heap s') (grid s) = cells s.
Proof.
  intros Hok Hbin. exists (next_state s).
  split; [by apply nextGeneration_ok|].
  split; [done|]. split; [by apply grid_ok_next_state|].
  split; [|split; [|split]].
  - cbn. intros l Hl. apply elem_of_seq in Hl. lia.
  - intros x y Hx Hy.
    split; [rewrite countNeighbors_in_range by done;
            f_equal; by apply neighbors_live|].
    rewrite <- (Z2Nat.id x), <- (Z2Nat.id y) by lia.
    rewrite cell_next_state by (try done; unfold width, height; lia).
    unfold next_cell. rewrite !Z2Nat.id by lia.
    rewrite neighbors_live by done.
    destruct (rule_spec (cell s x y) (Num (live_neighbors s x y))) as [H1 H0].
    split; intros H; [apply H1 | apply H0]; intuition congruence.
  - cbn. intros l Hl. by apply lookup_app_l.
  - unfold rows_of, cells. cbn. apply map_ext_in. intros l Hl.
    rewrite lookup_app_l; [done|].
    eapply grid_ok_lt; [done|]. by apply list_elem_of_In.
Qed.

(** ** C2: the neighbour count *)

Lemma bit_cellZ s x y :
  bit (cell s x y) -> cell s x y = Num (cellZ s x y) /\ 0 <= cellZ s x y <= 1.
Proof. unfold cellZ. intros [-> | ->]; split; (done || lia). Qed.

Lemma wrap_mod (c d n : Z) : 0 < n -> (c + d + n) mod n = (c + d) mod n.
Proof.
  intros Hn. rewrite <- (Z.mod_add (c + d) 1 n) by lia. f_equal. lia.
Qed.

Lemma neighbor_binary s x y d :
  grid_ok s -> binary s ->
  0 <= x < gridWidth (CONFIG s) -> 0 <= y < gridHeight (CONFIG s) ->
  neighbor s x y d
  = Num (cellZ s ((x + snd d + gridWidth (CONFIG s)) mod gridWidth (CONFIG s))
                 ((y + fst d + gridHeight (CONFIG s)) mod gridHeight (CONFIG s)))
  /\ 0 <= cellZ s ((x + snd d + gridWidth (CONFIG s)) mod gridWidth (CONFIG s))
                  ((y + fst d + gridHeight (CONFIG s)) mod gridHeight (CONFIG s))
     <= 1.
Proof.
  intros Hok Hbin Hx Hy. unfold neighbor. rewrite !wrap_mod by lia.
  apply bit_cellZ, cell_binary; try done; apply Z.mod_pos_bound; lia.
Qed.

(** C2.  On a grid of the configured dimensions whose cells are 0 or 1, and
    for a coordinate inside it, [countNeighbors] returns an integer between 0
    and 8, the sum of the states of the eight neighbours at the wrapped
    coordinates.  For the corner (0, 0) the index computed at offset (-1, -1)
    is (W-1, H-1), and a live cell there makes the count at least 1. *)
Theorem countNeighbors_sum s x y :
  grid_ok s -> binary s ->
  0 <= x < gridWidth (CONFIG s) -> 0 <= y < gridHeight (CONFIG s) ->
  exists n,
    countNeighbors s (grid s) x y = Ok (Num n)
    /\ 0 <= n <= 8
    /\ n = neighborCount (cellZ s) (gridWidth (CONFIG s))
                         (gridHeight (CONFIG s)) x y
    /\ (x = 0 -> y = 0 ->
        js_rem (x + -1 + gridWidth (CONFIG s)) (gridWidth (CONFIG s))
        = Num (gridWidth (CONFIG s) - 1)
        /\ js_rem (y + -1 + gridHeight (CONFIG s)) (gridHeight (CONFIG s))
           = Num (gridHeight (CONFIG s) - 1)
        /\ (cell s (gridWidth (CONFIG s) - 1) (gridHeight (CONFIG s) - 1) = Num 1
            -> 1 <= n)).
Proof.
  intros Hok Hbin Hx Hy.
  exists (neighborCount (cellZ s) (gridWidth (CONFIG s))
                        (gridHeight (CONFIG s)) x y).
  rewrite countNeighbors_in_range by done.
  unfold neighborCount, offsets. cbn [map foldr fold_left fst snd].
  pose proof (fun d => neighbor_binary s x y d Hok Hbin Hx Hy) as Hn.
  destruct (Hn (-1, -1)) as [E1 B1]. destruct (Hn (-1, 0)) as [E2 B2].
  destruct (Hn (-1, 1)) as [E3 B3]. destruct (Hn (0, -1)) as [E4 B4].
  destruct (Hn (0, 1)) as [E5 B5]. destruct (Hn (1, -1)) as [E6 B6].
  destruct (Hn (1, 0)) as [E7 B7]. destruct (Hn (1, 1)) as [E8 B8].
  cbn [fst snd] in *.
  rewrite E1, E2, E3, E4, E5, E6, E7, E8. cbn [js_add].
  split; [do 2 f_equal; ring|]. split; [lia|]. split; [done|].
  intros -> ->. rewrite !js_rem_wrap by lia.
  replace ((0 + -1) mod gridWidth (CONFIG s)) with (gridWidth (CONFIG s) - 1).
  2: { apply Z.mod_unique with (q := -1); lia. }
  replace ((0 + -1) mod gridHeight (CONFIG s)) with (gridHeight (CONFIG s) - 1).
  2: { apply Z.mod_unique with (q := -1); lia. }
  split; [done|]. split; [done|]. intros Hlive.
  assert (Hc : cellZ s ((0 + -1 + gridWidth (CONFIG s)) mod gridWidth (CONFIG s))
                 ((0 + -1 + gridHeight (CONFIG s)) mod gridHeight (CONFIG s)) = 1).
  { replace (0 + -1 + gridWidth (CONFIG s)) with (gridWidth (CONFIG s) - 1) by lia.
    replace (0 + -1 + gridHeight (CONFIG s)) with (gridHeight (CONFIG s) - 1) by lia.
    rewrite !Z.mod_small by lia. unfold cellZ. by rewrite Hlive. }
  lia.
Qed.

(** ** C8: the empty grid *)

Lemma cell_next_in_range s x y :
  grid_ok s ->
  0 <= x < gridWidth (CONFIG s) -> 0 <= y < gridHeight (CONFIG s) ->
  cell (next_state s) x y = rule (cell s x y) (neighbors s x y).
Proof.
  intros Hok Hx Hy. rewrite <- (Z2Nat.id x), <- (Z2Nat.id y) by lia.
  by rewrite cell_next_state by (try done; unfold width, height; lia).
Qed.

(** C8.  On the grid of the configured dimensions with every cell 0,
    [nextGeneration] returns and installs a grid with the same rows: every
    cell is 0 again. *)
Theorem nextGeneration_all_dead s :
  grid_ok s -> all_dead s ->
  exists s',
    nextGeneration s = (Ok tt, s')
    /\ grid_ok s' /\ CONFIG s' = CONFIG s
    /\ all_dead s' /\ cells s' = cells s.
Proof.
  intros Hok Hdead. exists (next_state s).
  split; [by apply nextGeneration_ok|].
  split; [by apply grid_ok_next_state|]. split; [done|].
  assert (Hcells : cells (next_state s) = cells s).
  { apply cells_ext; [done | by apply grid_ok_next_state | done |].
    intros x y Hx Hy. rewrite cell_next_in_range by done.
    assert (H0 : forall x' y',
              0 <= x' < gridWidth (CONFIG s) -> 0 <= y' < gridHeight (CONFIG s) ->
              cell s x' y' = Num 0)
      by (intros; by apply (cell_Forall (fun v => v = Num 0))).
    unfold neighbors, offsets, neighbor. cbn [map fold_left fst snd].
    rewrite !H0 by (try done; apply Z.mod_pos_bound; lia).
    reflexivity. }
  split; [|done]. unfold all_dead. by rewrite Hcells.
Qed.

(** ** C9: the block *)

Lemma mod_succ (c n : Z) :
  0 <= c < n -> (c + 1) mod n = if decide (c + 1 = n) then 0 else c + 1.
Proof.
  intros Hc. case_decide as E.
  - rewrite E. apply Z.mod_same. lia.
  - apply Z.mod_small. lia.
Qed.

Lemma mod_pred (c n : Z) :
  0 <= c < n -> (c + -1) mod n = if decide (c = 0) then n - 1 else c - 1.
Proof.
  intros Hc. case_decide as E.
  - subst c. symmetry. apply Z.mod_unique with (q := -1); lia.
  - apply Z.mod_small. lia.
Qed.

(** Along one axis of length at least 3, a cell and its two neighbours meet
    the two block coordinates at most twice, and exactly twice when the cell
    itself is one of them. *)
Lemma block_axis (n b c : Z) :
  3 <= n -> 0 <= b < n -> 0 <= c < n ->
  0 <= on_axis n b c <= 1
  /\ 0 <= on_axis n b ((c + -1) mod n) + on_axis n b c
          + on_axis n b ((c + 1) mod n) <= 2
  /\ (on_axis n b c = 1 ->
      on_axis n b ((c + -1) mod n) + on_axis n b c
      + on_axis n b ((c + 1) mod n) = 2).
Proof.
  intros Hn Hb Hc. unfold on_axis.
  rewrite (mod_succ b), (mod_succ c), (mod_pred c) by done.
  repeat case_decide; lia.
Qed.

(** C9.  On a grid of the configured dimensions, at least 4 by 4, whose live
    cells are exactly the four cells of one 2 by 2 block (anywhere on the
    torus), [nextGeneration] returns and installs a grid with the same rows. *)
Theorem nextGeneration_block s bx by_ :
  grid_ok s ->
  4 <= gridWidth (CONFIG s) -> 4 <= gridHeight (CONFIG s) ->
  0 <= bx < gridWidth (CONFIG s) -> 0 <= by_ < gridHeight (CONFIG s) ->
  (forall x y,
     0 <= x < gridWidth (CONFIG s) -> 0 <= y < gridHeight (CONFIG s) ->
     cell s x y
     = if in_block (gridWidth (CONFIG s)) (gridHeight (CONFIG s)) bx by_ x y
       then Num 1 else Num 0) ->
  exists s',
    nextGeneration s = (Ok tt, s')
    /\ grid_ok s' /\ CONFIG s' = CONFIG s /\ cells s' = cells s.
Proof.
  intros Hok Hw Hh Hbx Hby Hblock. exists (next_state s).
  split; [by apply nextGeneration_ok|].
  split; [by apply grid_ok_next_state|]. split; [done|].
  apply cells_ext; [done | by apply grid_ok_next_state | done |].
  intros x y Hx Hy. rewrite cell_next_in_range by done.
  set (W := gridWidth (CONFIG s)) in *. set (H := gridHeight (CONFIG s)) in *.
  assert (Hcell : forall x' y', 0 <= x' < W -> 0 <= y' < H ->
                                cell s x' y' = Num (on_axis W bx x' * on_axis H by_ y')).
  { intros x' y' Hx' Hy'. rewrite Hblock by done. unfold in_block, on_axis.
    case_bool_decide as Hd; repeat case_decide; try done; exfalso; tauto. }
  pose proof (block_axis W bx x ltac:(lia) Hbx Hx) as (Ha & HA & HA1).
  pose proof (block_axis H by_ y ltac:(lia) Hby Hy) as (Hb & HB & HB1).
  unfold neighbors, offsets, neighbor. cbn [map fold_left fst snd].
  fold W H. rewrite !Hcell by (try done; apply Z.mod_pos_bound; lia).
  cbn [js_add]. rewrite !Z.add_0_r, (Z.mod_small x W), (Z.mod_small y H) by done.
  set (am := on_axis W bx ((x + -1) mod W)) in *.
  set (ap := on_axis W bx ((x + 1) mod W)) in *.
  set (bm := on_axis H by_ ((y + -1) mod H)) in *.
  set (bp := on_axis H by_ ((y + 1) mod H)) in *.
  set (a0 := on_axis W bx x) in *. set (b0 := on_axis H by_ y) in *.
  replace (0 + am * bm + a0 * bm + ap * bm + am * b0 + ap * b0 + am * bp
           + a0 * bp + ap * bp)
    with ((am + a0 + ap) * (bm + b0 + bp) - a0 * b0) by ring.
  clearbody am ap bm bp a0 b0.
  unfold rule, strict_eq.
  assert (Ha0 : a0 = 0 \/ a0 = 1) by lia. assert (Hb0 : b0 = 0 \/ b0 = 1) by lia.
  destruct Ha0 as [Ea | Ea], Hb0 as [Eb | Eb]; rewrite ?Ea, ?Eb in *.
  4: { rewrite HA1, HB1 by done. reflexivity. }
  all: replace (_ * _ - _) with ((am + a0 + ap) * (bm + b0 + bp)) by lia.
  all: cbn [Z.mul Z.eqb andb].
  all: destruct (Z.eqb_spec ((am + a0 + ap) * (bm + b0 + bp)) 3) as [E3|]; [|done].
  all: exfalso; nia.
Qed.

(** ** Pausing *)

Lemma pause_eq s : pause s = (Ok tt, paused s).
Proof. unfold pause, paused, bind, gets. by destruct (isRunning s). Qed.

Lemma isRunning_paused s : isRunning (paused s) = false.
Proof. unfold paused. by destruct (isRunning s) eqn:E. Qed.

Lemma paused_fields s :
  CONFIG (paused s) = CONFIG s /\ heap (paused s) = heap s
  /\ grid (paused s) = grid s /\ generation (paused s) = generation s
  /\ conwayGameSaves (paused s) = conwayGameSaves s.
Proof. unfold paused. by destruct (isRunning s). Qed.

Lemma grid_ok_paused s : grid_ok s -> grid_ok (paused s).
Proof. unfold paused. by destruct (isRunning s). Qed.

Lemma cells_paused s : cells (paused s) = cells s.
Proof. unfold paused. by destruct (isRunning s). Qed.

(** ** Binary grids, cell by cell *)

Lemma binary_of_cells s :
  grid_ok s ->
  (forall x y,
     0 <= x < gridWidth (CONFIG s) -> 0 <= y < gridHeight (CONFIG s) ->
     bit (cell s x y)) ->
  binary s.
Proof.
  intros Hok Hbit. destruct (cells_shape s Hok) as [Hh Hw].
  unfold binary. apply Forall_lookup. intros y row Hrow.
  apply Forall_lookup. intros x v Hv.
  assert (Hy : (y < height s)%nat) by (rewrite <- Hh; by eapply lookup_lt_Some).
  assert (Hx : (x < width s)%nat).
  { rewrite Forall_lookup in Hw. rewrite <- (Hw y row Hrow).
    by eapply lookup_lt_Some. }
  unfold height, width in *.
  specialize (Hbit (Z.of_nat x) (Z.of_nat y) ltac:(lia) ltac:(lia)).
  rewrite cell_cells, Hrow in Hbit. cbn in Hbit. by rewrite Hv in Hbit.
Qed.

Lemma binary_rows σ (h rows : list (list jsval)) :
  heap σ = h ++ rows -> grid σ = seq (length h) (length rows) ->
  Forall (Forall bit) rows -> binary σ.
Proof. intros Hh Hg Hb. unfold binary. by rewrite (cells_fresh σ h rows). Qed.

(** ** Writing one cell of the live grid *)

Lemma store2_live s x y v :
  grid_ok s ->
  0 <= x < gridWidth (CONFIG s) -> 0 <= y < gridHeight (CONFIG s) ->
  exists h',
    store2 (grid s) y x v s = (Ok tt, set_heap h' s)
    /\ grid_ok (set_heap h' s)
    /\ cell (set_heap h' s) x y = v
    /\ (forall x' y', (x', y') <> (x, y) ->
                      cell (set_heap h' s) x' y' = cell s x' y').
Proof.
  intros Hok Hx Hy.
  destruct (grid_ok_lookup s y Hok Hy) as (l & row & Hl & Hrow & Hw).
  pose proof Hok as (Hlen & Hnd & Hrows).
  exists (<[l := <[Z.to_nat x := v]> row]> (heap s)).
  assert (Hl' : (l < length (heap s))%nat) by (by eapply lookup_lt_Some).
  split; [|split; [|split]].
  - unfold store2, arr_get. destruct (Z.leb_spec 0 y); [|lia].
    rewrite Hl, Hrow. rewrite <- (Z2Nat.id x) at 1 by lia.
    by rewrite arr_set_in_range by lia.
  - unfold grid_ok. cbn. split; [done|]. split; [done|].
    eapply Forall_impl; [exact Hrows|]. intros l' (row' & Hrow' & Hw').
    unfold row_ok. cbn. destruct (decide (l' = l)) as [->|Hne].
    + rewrite list_lookup_insert_eq by done. eexists. split; [done|].
      rewrite length_insert. done.
    + rewrite list_lookup_insert_ne by done. eauto.
  - unfold cell, index2, arr_get. cbn.
    destruct (Z.leb_spec 0 y); [|lia]. destruct (Z.leb_spec 0 x); [|lia].
    rewrite Hl, list_lookup_insert_eq by done.
    by rewrite list_lookup_insert_eq by lia.
  - intros x' y' Hne. unfold cell, index2, arr_get. cbn.
    destruct (Z.leb_spec 0 y') as [Hy'|]; [|done].
    destruct (grid s !! Z.to_nat y') as [l'|] eqn:Hl'y; [|done].
    destruct (decide (l' = l)) as [->|Hll];
      [|by rewrite list_lookup_insert_ne by done].
    rewrite list_lookup_insert_eq, Hrow by done.
    assert (Z.to_nat y' = Z.to_nat y) by (by eapply NoDup_lookup).
    destruct (Z.leb_spec 0 x') as [Hx'|]; [|done].
    rewrite list_lookup_insert_ne; [done|].
    intros Ex. apply Hne. f_equal; lia.
Qed.

(** ** Clearing and randomizing *)

Lemma dims_ok_width s :
  dims_ok s -> 0 < gridHeight (CONFIG s) ->
  Z.of_nat (width s) = gridWidth (CONFIG s).
Proof. intros [Hh Hw] H0. unfold width. lia. Qed.

Lemma rows_ok_fresh s σ rows :
  dims_ok s -> rows_ok s rows -> CONFIG σ = CONFIG s ->
  heap σ = heap s ++ rows -> grid σ = seq (length (heap s)) (length rows) ->
  grid_ok σ.
Proof.
  intros Hd [Hlen Hrows] Hc Hh Hg.
  apply (grid_ok_fresh σ (heap s) rows); try done; rewrite Hc.
  - rewrite Hlen. destruct Hd. unfold height. lia.
  - destruct rows as [|r rows]; [constructor|].
    assert (0 < gridHeight (CONFIG s)) by (cbn in Hlen; unfold height in Hlen; lia).
    eapply Forall_impl; [exact Hrows|]. cbn. intros r' ->.
    by apply dims_ok_width.
Qed.

Lemma empty_rows_ok s : rows_ok s (empty_rows s).
Proof.
  unfold empty_rows. split; [by rewrite length_replicate|].
  apply Forall_replicate. by rewrite length_replicate.
Qed.

Lemma random_rows_ok rnd s : rows_ok s (random_rows rnd s).
Proof.
  unfold random_rows. split; [by rewrite length_map, length_seq|].
  apply Forall_forall. intros r Hr. apply list_elem_of_fmap in Hr as (y & -> & _).
  by rewrite length_imap, length_replicate.
Qed.

Lemma empty_rows_binary s : Forall (Forall bit) (empty_rows s).
Proof. unfold empty_rows. do 2 apply Forall_replicate. by left. Qed.

Lemma random_rows_binary rnd s : Forall (Forall bit) (random_rows rnd s).
Proof.
  unfold random_rows. apply Forall_forall. intros r Hr.
  apply list_elem_of_fmap in Hr as (y & -> & _).
  apply Forall_lookup. intros x v Hv. rewrite list_lookup_imap in Hv.
  destruct (replicate (width s) (Num 0) !! x); [|done]. cbn in Hv.
  injection Hv as <-. destruct (rnd _); [by right | by left].
Qed.

Lemma install_ok s rows message :
  dims_ok s -> rows_ok s rows ->
  grid_ok (install rows message s)
  /\ cells (install rows message s) = rows
  /\ generation (install rows message s) = 0
  /\ CONFIG (install rows message s) = CONFIG s.
Proof.
  intros Hd Hr. destruct (paused_fields s) as (Hc & Hh & _).
  split.
  { apply (rows_ok_fresh s _ rows); cbn; try done; by rewrite Hh. }
  split; [|done].
  apply (cells_fresh _ (heap s) rows); cbn; try done; by rewrite Hh.
Qed.

Lemma clear_ok s :
  dims_ok s -> clear s = (Ok tt, install (empty_rows s) (str "Tablero limpiado") s).
Proof.
  intros Hd. destruct (paused_fields s) as (Hc & Hh & _).
  assert (Hd' : dims_ok (paused s)) by (unfold dims_ok; by rewrite Hc).
  unfold clear. unfold bind at 1. rewrite pause_eq.
  unfold bind at 1. rewrite createEmptyGrid_ok by done.
  unfold bind at 1. unfold modify at 1. unfold bind at 1. unfold modify at 1.
  assert (He : empty_rows (paused s) = empty_rows s)
    by (unfold empty_rows, height, width; by rewrite Hc).
  assert (Hl : height (paused s) = length (empty_rows s))
    by (unfold empty_rows, height; by rewrite length_replicate, Hc).
  rewrite He, Hl, Hh.
  destruct (install_ok s (empty_rows s) (str "Tablero limpiado") Hd (empty_rows_ok s))
    as (Hok & _).
  unfold bind at 1. rewrite renderGrid_ok by exact Hok.
  unfold bind at 1. rewrite updateStats_ok by exact Hok.
  done.
Qed.

Lemma randomize_ok rnd s :
  dims_ok s ->
  randomize rnd s
  = (Ok tt, install (random_rows rnd s) (str "Tablero generado aleatoriamente") s).
Proof.
  intros Hd. destruct (paused_fields s) as (Hc & Hh & _).
  assert (Hd' : dims_ok (paused s)) by (unfold dims_ok; by rewrite Hc).
  unfold randomize. unfold bind at 1. rewrite pause_eq.
  unfold bind at 1. rewrite createRandomGrid_ok by done.
  unfold bind at 1. unfold modify at 1. unfold bind at 1. unfold modify at 1.
  assert (He : random_rows rnd (paused s) = random_rows rnd s)
    by (unfold random_rows, height, width; by rewrite Hc).
  assert (Hl : height (paused s) = length (random_rows rnd s))
    by (unfold random_rows, height; by rewrite length_map, length_seq, Hc).
  rewrite He, Hl, Hh.
  destruct (install_ok s (random_rows rnd s) (str "Tablero generado aleatoriamente")
              Hd (random_rows_ok rnd s)) as (Hok & _).
  unfold bind at 1. rewrite renderGrid_ok by exact Hok.
  unfold bind at 1. rewrite updateStats_ok by exact Hok.
  done.
Qed.

(** ** Mouse and touch input on a well-formed grid *)

Lemma guard_spec (w h x y : Z) :
  reflect (0 <= x < w /\ 0 <= y < h)
          ((0 <=? x) && (x <? w) && (0 <=? y) && (y <? h)).
Proof.
  apply iff_reflect. rewrite !andb_true_iff, !Z.leb_le, !Z.ltb_lt. lia.
Qed.

Lemma cell_stats_of s x y : cell (stats_of s) x y = cell s x y.
Proof. done. Qed.

(** Writing [v] (computed from the old cell by [f]) at (x, y) after the range
    test, then [renderGrid] and [updateStats]: the common part of the two
    handlers. *)
Lemma write_cell_ok (f : jsval -> jsval) s x y :
  grid_ok s ->
  0 <= x < gridWidth (CONFIG s) -> 0 <= y < gridHeight (CONFIG s) ->
  exists s',
    (store2 (grid s) y x (f (cell s x y));; renderGrid;; updateStats) s
    = (Ok tt, s')
    /\ grid_ok s' /\ CONFIG s' = CONFIG s
    /\ (generation s' = generation s
        /\ conwayGameSaves s' = conwayGameSaves s)
    /\ cell s' x y = f (cell s x y)
    /\ (forall x' y', (x', y') <> (x, y) -> cell s' x' y' = cell s x' y').
Proof.
  intros Hok Hx Hy.
  destruct (store2_live s x y (f (cell s x y)) Hok Hx Hy)
    as (h' & Hst & Hok' & Hc & Hother).
  exists (stats_of (set_heap h' s)).
  split; [|done].
  unfold bind at 1. rewrite Hst.
  unfold bind at 1. rewrite renderGrid_ok by done.
  by rewrite updateStats_ok by done.
Qed.

Lemma handleCanvasClick_ok s x y :
  grid_ok s ->
  exists s',
    handleCanvasClick x y s = (Ok tt, s')
    /\ grid_ok s' /\ CONFIG s' = CONFIG s
    /\ (generation s' = generation s
        /\ conwayGameSaves s' = conwayGameSaves s)
    /\ (0 <= x < gridWidth (CONFIG s) /\ 0 <= y < gridHeight (CONFIG s) ->
        cell s' x y = if strict_eq (cell s x y) 1 then Num 0 else Num 1)
    /\ (forall x' y', (x', y') <> (x, y) -> cell s' x' y' = cell s x' y').
Proof.
  intros Hok. unfold handleCanvasClick. unfold bind at 1. unfold gets at 1.
  destruct (guard_spec (gridWidth (CONFIG s)) (gridHeight (CONFIG s)) x y)
    as [[Hx Hy]|Hout].
  - unfold bind at 1. unfold gets at 1. unfold bind at 1. unfold reads at 1.
    rewrite index2_in_range by done.
    destruct (write_cell_ok
                (fun old => if strict_eq old 1 then Num 0 else Num 1)
                s x y Hok Hx Hy) as (s' & Hrun & H).
    exists s'. destruct H as (H1 & H2 & H3 & H4 & H5).
    split; [exact Hrun|]. do 3 (split; [done|]).
    split; [intros _; exact H4 | exact H5].
  - exists s. do 4 (split; [done|]).
    split; [intros Hin; by destruct Hout | done].
Qed.

Lemma handleTouchMove_ok s x y :
  grid_ok s ->
  exists s',
    handleTouchMove x y s = (Ok tt, s')
    /\ grid_ok s' /\ CONFIG s' = CONFIG s
    /\ (generation s' = generation s
        /\ conwayGameSaves s' = conwayGameSaves s)
    /\ (0 <= x < gridWidth (CONFIG s) /\ 0 <= y < gridHeight (CONFIG s) ->
        cell s' x y = Num 1)
    /\ (forall x' y', (x', y') <> (x, y) -> cell s' x' y' = cell s x' y').
Proof.
  intros Hok. unfold handleTouchMove. unfold bind at 1. unfold gets at 1.
  destruct (guard_spec (gridWidth (CONFIG s)) (gridHeight (CONFIG s)) x y)
    as [[Hx Hy]|Hout].
  - unfold bind at 1. unfold gets at 1.
    destruct (write_cell_ok (fun _ => Num 1) s x y Hok Hx Hy)
      as (s' & Hrun & H).
    exists s'. destruct H as (H1 & H2 & H3 & H4 & H5).
    split; [exact Hrun|]. do 3 (split; [done|]).
    split; [intros _; exact H4 | exact H5].
  - exists s. do 4 (split; [done|]).
    split; [intros Hin; by destruct Hout | done].
Qed.

(** A grid that differs from a binary one in at most one cell, which holds a
    bit, is binary. *)
Lemma binary_write s s' x y :
  grid_ok s -> binary s -> grid_ok s' -> CONFIG s' = CONFIG s ->
  (0 <= x < gridWidth (CONFIG s) /\ 0 <= y < gridHeight (CONFIG s) ->
   bit (cell s' x y)) ->
  (forall x' y', (x', y') <> (x, y) -> cell s' x' y' = cell s x' y') ->
  binary s'.
Proof.
  intros Hok Hbin Hok' Hc Hxy Hother. apply binary_of_cells; [done|].
  rewrite Hc. intros x' y' Hx' Hy'.
  destruct (decide ((x', y') = (x, y))) as [E|E].
  - injection E as -> ->. by apply Hxy.
  - rewrite Hother by done. by apply cell_binary.
Qed.

Lemma binary_next_state s : grid_ok s -> binary (next_state s).
Proof.
  intros Hok. apply binary_of_cells; [by apply grid_ok_next_state|].
  intros x y Hx Hy. rewrite cell_next_in_range by done.
  unfold rule, bit. repeat case_match; auto.
Qed.

(** ** C10: cells stay 0 or 1 *)

(** C10.  In a state whose grid has the configured dimensions and holds only
    0 and 1, each of [nextGeneration], [clear], [randomize],
    [handleCanvasClick] and [handleTouchMove] returns and leaves a grid of the
    configured dimensions that holds only 0 and 1.  A click inside the grid
    turns 1 into 0 and 0 into 1 at the clicked cell, a touch inside the grid
    makes the touched cell 1, and neither changes any other cell. *)
Theorem cells_stay_binary s :
  grid_ok s -> binary s ->
  (exists s', nextGeneration s = (Ok tt, s') /\ grid_ok s' /\ binary s')
  /\ (exists s', clear s = (Ok tt, s') /\ grid_ok s' /\ binary s')
  /\ (forall rnd,
        exists s', randomize rnd s = (Ok tt, s') /\ grid_ok s' /\ binary s')
  /\ (forall x y,
        exists s',
          handleCanvasClick x y s = (Ok tt, s') /\ grid_ok s' /\ binary s'
          /\ (0 <= x < gridWidth (CONFIG s) /\ 0 <= y < gridHeight (CONFIG s) ->
              (cell s x y = Num 1 -> cell s' x y = Num 0)
              /\ (cell s x y = Num 0 -> cell s' x y = Num 1))
          /\ (forall x' y', (x', y') <> (x, y) -> cell s' x' y' = cell s x' y'))
  /\ (forall x y,
        exists s',
          handleTouchMove x y s = (Ok tt, s') /\ grid_ok s' /\ binary s'
          /\ (0 <= x < gridWidth (CONFIG s) /\ 0 <= y < gridHeight (CONFIG s) ->
              cell s' x y = Num 1)
          /\ (forall x' y', (x', y') <> (x, y) -> cell s' x' y' = cell s x' y')).
Proof.
  intros Hok Hbin. pose proof (grid_ok_dims s Hok) as Hd.
  split; [|split; [|split; [|split]]].
  - exists (next_state s). split; [by apply nextGeneration_ok|].
    split; [by apply grid_ok_next_state | by apply binary_next_state].
  - exists (install (empty_rows s) (str "Tablero limpiado") s).
    split; [by apply clear_ok|].
    destruct (install_ok s (empty_rows s) (str "Tablero limpiado") Hd
                (empty_rows_ok s)) as (Hok' & Hcells & _).
    split; [done|]. unfold binary. rewrite Hcells. apply empty_rows_binary.
  - intros rnd.
    exists (install (random_rows rnd s) (str "Tablero generado aleatoriamente") s).
    split; [by apply randomize_ok|].
    destruct (install_ok s (random_rows rnd s)
                (str "Tablero generado aleatoriamente") Hd (random_rows_ok rnd s))
      as (Hok' & Hcells & _).
    split; [done|]. unfold binary. rewrite Hcells. apply random_rows_binary.
  - intros x y.
    destruct (handleCanvasClick_ok s x y Hok)
      as (s' & Hrun & Hok' & Hc & _ & Hxy & Hother).
    exists s'. split; [done|]. split; [done|]. split; [|split; [|done]].
    + apply (binary_write s s' x y); try done.
      intros Hin. rewrite Hxy by done. unfold bit. case_match; auto.
    + intros Hin. rewrite Hxy by done. split; intros ->; done.
  - intros x y.
    destruct (handleTouchMove_ok s x y Hok)
      as (s' & Hrun & Hok' & Hc & _ & Hxy & Hother).
    exists s'. split; [done|]. split; [done|]. split; [|split; [done|done]].
    apply (binary_write s s' x y); try done.
    intros Hin. rewrite Hxy by done. by right.
Qed.

(** ** Saving and loading *)

Lemma json_grid_binary s : binary s -> json_grid (heap s) (grid s) = cells s.
Proof.
  unfold binary, cells, json_grid. intros Hbin.
  apply map_ext_Forall. rewrite Forall_fmap in Hbin.
  eapply Forall_impl; [exact Hbin|]. cbn. intros l Hrow.
  rewrite <- (map_id (default [] (heap s !! l))) at 2.
  apply map_ext_Forall. eapply Forall_impl; [exact Hrow|].
  by intros v [-> | ->].
Qed.

(** Below 2^53 the increment of the counter is exact. *)
Lemma js_incr_exact (g : Z) : - 2 ^ 53 <= g < 2 ^ 53 -> js_incr g = g + 1.
Proof.
  intros Hg. unfold js_incr, to_double. cbv zeta.
  destruct (decide (g + 1 = 2 ^ 53)) as [-> | Hne]; [by vm_compute|].
  assert (Hl : Z.log2 (Z.abs (g + 1)) < 53).
  { destruct (decide (Z.abs (g + 1) = 0)) as [-> | H0]; [by vm_compute|].
    apply Z.log2_lt_pow2; lia. }
  destruct (Z.leb_spec (Z.log2 (Z.abs (g + 1)) - 52) 0); [done | lia].
Qed.

(** The increment never makes the counter negative. *)
Lemma js_incr_nonneg (g : Z) : 0 <= g -> 0 <= js_incr g.
Proof.
  intros Hg. unfold js_incr, to_double. cbv zeta.
  destruct (Z.leb_spec (Z.log2 (Z.abs (g + 1)) - 52) 0) as [_ | He]; [lia|].
  rewrite Z.sgn_pos, Z.mul_1_l by lia.
  set (u := 2 ^ (Z.log2 (Z.abs (g + 1)) - 52)).
  assert (Hu : 0 < u) by (apply Z.pow_pos_nonneg; lia).
  assert (Hq : 0 <= Z.abs (g + 1) / u) by (apply Z.div_pos; lia).
  repeat case_match; apply Z.mul_nonneg_nonneg; lia.
Qed.

Lemma saveGame_ok now s :
  trim (saveNameInput s) <> [] ->
  saveGame now s = (Ok tt, saved (trim (saveNameInput s)) now s).
Proof.
  intros Hne. unfold saveGame. unfold bind at 1. unfold gets at 1.
  by rewrite bool_decide_eq_false_2.
Qed.

Lemma saveGame_empty now s :
  trim (saveNameInput s) = [] ->
  saveGame now s
  = (Ok tt,
     set_toast
       (Some (str "Por favor, ingresa un nombre para la partida", error)) s).
Proof.
  intros He. unfold saveGame. unfold bind at 1. unfold gets at 1.
  by rewrite bool_decide_eq_true_2.
Qed.

(** The entries of the store after an assignment. *)
Lemma set_property_insert (m : gmap jsstring gameData) name gd :
  name <> str "__proto__" \/ m !! name <> None ->
  set_property m name gd = <[name := gd]> m.
Proof.
  intros H. unfold set_property. rewrite bool_decide_eq_false_2; [done|].
  intros [-> Hn]. by destruct H.
Qed.

Lemma set_property_proto (m : gmap jsstring gameData) gd :
  m !! str "__proto__" = None -> set_property m (str "__proto__") gd = m.
Proof. intros H. unfold set_property. by rewrite bool_decide_eq_true_2. Qed.

Lemma lookup_set_property_ne (m : gmap jsstring gameData) name gd other :
  other <> name -> set_property m name gd !! other = m !! other.
Proof.
  intros Hne. unfold set_property. case_bool_decide; [done|].
  by rewrite lookup_insert_ne.
Qed.

Lemma get_property_own (m : gmap jsstring gameData) name gd :
  m !! name = Some gd -> get_property m name = Own gd.
Proof. intros H. unfold get_property. by rewrite H. Qed.

Lemma get_property_absent (m : gmap jsstring gameData) name :
  m !! name = None -> name ∉ Object_prototype -> get_property m name = Absent.
Proof.
  intros H Hn. unfold get_property. rewrite H. by rewrite bool_decide_eq_false_2.
Qed.

Lemma get_property_inherited (m : gmap jsstring gameData) name :
  m !! name = None -> name ∈ Object_prototype ->
  get_property m name = Inherited.
Proof.
  intros H Hn. unfold get_property. rewrite H. by rewrite bool_decide_eq_true_2.
Qed.

Lemma loadGame_ok s name gd :
  dims_ok s ->
  getSavedGames s !! name = Some gd ->
  gd_gridWidth gd = gridWidth (CONFIG s) ->
  gd_gridHeight gd = gridHeight (CONFIG s) ->
  rows_ok s (gd_grid gd) ->
  loadGame name s = (Ok tt, loaded name gd s)
  /\ grid_ok (loaded name gd s)
  /\ cells (loaded name gd s) = gd_grid gd.
Proof.
  intros Hd Hgd Hw Hh Hrows. destruct (paused_fields s) as (Hc & Hhp & _).
  assert (Hok : grid_ok (loaded name gd s)).
  { apply (rows_ok_fresh s _ (gd_grid gd)); cbn; try done; by rewrite Hhp. }
  split; [|split; [done|]].
  - unfold loadGame. unfold bind at 1. unfold gets at 1.
    rewrite (get_property_own _ _ _ Hgd).
    unfold bind at 1. unfold gets at 1. rewrite Hw, Hh, !Z.eqb_refl. cbn [negb orb].
    unfold bind at 1. rewrite pause_eq.
    unfold bind at 1. rewrite mapM_alloc.
    unfold bind at 1. unfold modify at 1. unfold bind at 1. unfold modify at 1.
    rewrite Hhp.
    unfold bind at 1. rewrite renderGrid_ok by exact Hok.
    unfold bind at 1. rewrite updateStats_ok by exact Hok.
    done.
  - apply (cells_fresh _ (heap s) (gd_grid gd)); cbn; try done; by rewrite Hhp.
Qed.

Lemma loadGame_mismatch s name gd :
  getSavedGames s !! name = Some gd ->
  gd_gridWidth gd <> gridWidth (CONFIG s)
  \/ gd_gridHeight gd <> gridHeight (CONFIG s) ->
  loadGame name s
  = (Ok tt,
     set_toast
       (Some (str "La partida guardada tiene dimensiones diferentes", error)) s).
Proof.
  intros Hgd Hne. unfold loadGame. unfold bind at 1. unfold gets at 1.
  rewrite (get_property_own _ _ _ Hgd). unfold bind at 1. unfold gets at 1.
  destruct (Z.eqb_spec (gd_gridWidth gd) (gridWidth (CONFIG s)));
    destruct (Z.eqb_spec (gd_gridHeight gd) (gridHeight (CONFIG s)));
    cbn [negb orb]; try done.
  exfalso. tauto.
Qed.

Lemma loadGame_missing s name :
  getSavedGames s !! name = None -> name ∉ Object_prototype ->
  loadGame name s
  = (Ok tt, set_toast (Some (str "No se pudo cargar la partida", error)) s).
Proof.
  intros Hnone Hn. unfold loadGame. unfold bind at 1. unfold gets at 1.
  by rewrite get_property_absent.
Qed.

Lemma loadGame_inherited s name :
  getSavedGames s !! name = None -> name ∈ Object_prototype ->
  loadGame name s
  = (Ok tt,
     set_toast
       (Some (str "La partida guardada tiene dimensiones diferentes", error)) s).
Proof.
  intros Hnone Hn. unfold loadGame. unfold bind at 1. unfold gets at 1.
  by rewrite get_property_inherited.
Qed.

(** ** Save, then load *)

(** X23.  Take a state whose grid has the configured dimensions and holds only
    0 and 1, and a name input that trims to a non-empty name [N] other than
    [__proto__].  [saveGame] returns without touching the grid or the
    generation counter.  From any later state that still has the save store
    as [saveGame] left it and the same CONFIG, whatever its grid and counter
    have become, [loadGame N] returns with a grid equal to the saved one,
    cell for cell, and with the saved generation count. *)
Theorem save_load_roundtrip s now N :
  grid_ok s -> binary s ->
  trim (saveNameInput s) = N -> N <> [] -> N <> str "__proto__" ->
  exists s1,
    saveGame now s = (Ok tt, s1)
    /\ cells s1 = cells s /\ generation s1 = generation s
    /\ forall s2,
         conwayGameSaves s2 = conwayGameSaves s1 -> CONFIG s2 = CONFIG s ->
         exists s3,
           loadGame N s2 = (Ok tt, s3)
           /\ cells s3 = cells s /\ generation s3 = generation s.
Proof.
  intros Hok Hbin HN Hne Hproto. exists (saved N now s).
  split; [rewrite <- HN; apply saveGame_ok; by rewrite HN|].
  split; [done|]. split; [done|].
  intros s2 Hsaves Hc.
  assert (Hgd : getSavedGames s2 !! N = Some (snapshot N now s)).
  { unfold getSavedGames. rewrite Hsaves. cbn.
    rewrite set_property_insert by (by left). apply lookup_insert_eq. }
  assert (Hd2 : dims_ok s2).
  { unfold dims_ok. rewrite Hc. by apply grid_ok_dims. }
  assert (Hrows : rows_ok s2 (gd_grid (snapshot N now s))).
  { cbn. rewrite json_grid_binary by done. unfold rows_ok, height, width.
    rewrite Hc. by apply cells_shape. }
  destruct (loadGame_ok s2 N (snapshot N now s) Hd2 Hgd) as (Hrun & _ & Hcells);
    [by rewrite Hc | by rewrite Hc | done |].
  exists (loaded N (snapshot N now s) s2). split; [done|].
  split; [|done]. rewrite Hcells. cbn. by apply json_grid_binary.
Qed.

(** ** C3: the name [__proto__] *)

(** C3 fails for one name.  With [__proto__] in the name field of the
    blinker board, [saveGame] shows the toast that the game was saved and
    leaves the save store without any entry.  After a step, [loadGame] of
    that name finds the prototype of the store, reports different
    dimensions and restores neither the saved grid nor the saved
    generation count. *)
Theorem save_load_proto :
  grid_ok proto_named /\ binary proto_named
  /\ trim (saveNameInput proto_named) = str "__proto__"
  /\ exists s1 s2 s3,
       saveGame (str "2024-01-01T00:00:00.000Z") proto_named = (Ok tt, s1)
       /\ toast s1
          = Some (str "Partida " ++ quote ++ str "__proto__" ++ quote
                  ++ str " guardada correctamente", success)
       /\ getSavedGames s1 = ∅
       /\ step s1 = (Ok tt, s2)
       /\ CONFIG s2 = CONFIG proto_named
       /\ loadGame (str "__proto__") s2 = (Ok tt, s3)
       /\ toast s3
          = Some (str "La partida guardada tiene dimensiones diferentes", error)
       /\ cells s3 <> cells proto_named
       /\ generation s3 <> generation proto_named.
Proof.
  split; [decide_by_eval|]. split; [decide_by_eval|].
  split; [vm_compute; reflexivity|].
  exists (snd (saveGame (str "2024-01-01T00:00:00.000Z") proto_named)).
  exists (snd (step (snd (saveGame (str "2024-01-01T00:00:00.000Z")
                            proto_named)))).
  eexists.
  split; [vm_compute; reflexivity|]. split; [vm_compute; reflexivity|].
  split; [vm_compute; reflexivity|]. split; [vm_compute; reflexivity|].
  split; [vm_compute; reflexivity|]. split; [vm_compute; reflexivity|].
  split; [vm_compute; reflexivity|]. split; by vm_compute.
Qed.

(** ** C4: loading a game of other dimensions *)

(** C4.  When the stored game's gridWidth or gridHeight differs from the
    configured one, [loadGame] returns after showing the error toast about
    different dimensions; apart from the toast the state is the one before,
    so the grid with all its rows, the generation counter and the running
    flag are unchanged. *)
Theorem loadGame_dimension_mismatch s name gd :
  getSavedGames s !! name = Some gd ->
  gd_gridWidth gd <> gridWidth (CONFIG s)
  \/ gd_gridHeight gd <> gridHeight (CONFIG s) ->
  exists s',
    loadGame name s = (Ok tt, s')
    /\ toast s'
       = Some (str "La partida guardada tiene dimensiones diferentes", error)
    /\ s' = set_toast (toast s') s
    /\ grid s' = grid s /\ heap s' = heap s /\ cells s' = cells s
    /\ generation s' = generation s /\ isRunning s' = isRunning s
    /\ conwayGameSaves s' = conwayGameSaves s.
Proof.
  intros Hgd Hne. eexists. split; [by apply (loadGame_mismatch s name gd)|]. done.
Qed.

(** ** C6: unknown names *)

Lemma deleteGame_confirmed s name :
  deleteGame name true s
  = (Ok tt,
     set_toast (Some (deleted_toast name))
       (set_conwayGameSaves (Some (delete name (getSavedGames s))) s)).
Proof. done. Qed.

(** C6, as the code has it.  For a name that is not in the save store:
    [loadGame], unless the name is one that every object inherits, shows the
    error toast that the game could not be loaded and changes nothing else;
    [deleteGame] shows no error: cancelled, it does nothing at all;
    confirmed, it writes the store back with the same games in it and shows
    the success toast.  The grid, its rows, the generation counter and the
    running flag stay as they were in every case. *)
Theorem unknown_name s name :
  getSavedGames s !! name = None ->
  ((name ∉ Object_prototype) ->
   loadGame name s
   = (Ok tt, set_toast (Some (str "No se pudo cargar la partida", error)) s))
  /\ deleteGame name false s = (Ok tt, s)
  /\ exists s',
       deleteGame name true s = (Ok tt, s')
       /\ toast s' = Some (deleted_toast name)
       /\ getSavedGames s' = getSavedGames s
       /\ grid s' = grid s /\ heap s' = heap s
       /\ generation s' = generation s /\ isRunning s' = isRunning s.
Proof.
  intros Hnone. split; [by apply loadGame_missing|]. split; [done|].
  eexists. split; [apply deleteGame_confirmed|]. cbn.
  split; [done|]. split; [|done].
  unfold getSavedGames at 1. cbn. by apply delete_id.
Qed.

(** ** C7: a single step while running *)


(** ** The invariant of a session *)

Lemma inv_install s rows message :
  inv s -> rows_ok s rows -> Forall (Forall bit) rows ->
  inv (install rows message s).
Proof.
  intros (Hok & Hbin & Hgen & Hsaves) Hrows Hbits.
  destruct (install_ok s rows message (grid_ok_dims s Hok) Hrows)
    as (Hok' & Hcells & Hgen' & Hc).
  split; [done|]. split; [unfold binary; by rewrite Hcells|].
  split; [lia|]. destruct (paused_fields s) as (_ & _ & _ & _ & Hs).
  unfold getSavedGames in *. cbn. by rewrite Hs.
Qed.

Lemma inv_next_state s : inv s -> inv (next_state s).
Proof.
  intros (Hok & Hbin & Hgen & Hsaves).
  split; [by apply grid_ok_next_state|]. split; [by apply binary_next_state|].
  split; [cbn; by apply js_incr_nonneg | done].
Qed.

Lemma inv_paused s : inv s -> inv (paused s).
Proof. unfold paused. by destruct (isRunning s). Qed.

Lemma snapshot_ok name now s : inv s -> gameData_ok (snapshot name now s).
Proof.
  intros (Hok & Hbin & Hgen & _). unfold gameData_ok. cbn.
  rewrite json_grid_binary by done.
  destruct (cells_shape s Hok) as [Hh Hw]. done.
Qed.

Lemma saves_ok_set_property m name gd :
  saves_ok m -> gameData_ok gd -> saves_ok (set_property m name gd).
Proof.
  intros Hm Hgd. unfold set_property. case_bool_decide; [done|].
  by apply map_Forall_insert_2.
Qed.

Lemma inv_loaded s name gd :
  inv s -> getSavedGames s !! name = Some gd ->
  gd_gridWidth gd = gridWidth (CONFIG s) ->
  gd_gridHeight gd = gridHeight (CONFIG s) ->
  loadGame name s = (Ok tt, loaded name gd s) /\ inv (loaded name gd s).
Proof.
  intros (Hok & Hbin & Hgen & Hsaves) Hgd Hw Hh.
  destruct (Hsaves name gd Hgd) as (Hg & Hlen & Hrows & Hbits).
  assert (Hr : rows_ok s (gd_grid gd)).
  { unfold rows_ok, height, width. by rewrite <- Hw, <- Hh. }
  destruct (loadGame_ok s name gd (grid_ok_dims s Hok) Hgd Hw Hh Hr)
    as (Hrun & Hok' & Hcells).
  split; [done|]. split; [done|]. split; [unfold binary; by rewrite Hcells|].
  split; [done|]. destruct (paused_fields s) as (_ & _ & _ & _ & Hs).
  unfold getSavedGames in *. cbn. by rewrite Hs.
Qed.

(** [initCanvas] returns and changes nothing but CONFIG; in a window at
    least 1024 pixels wide it changes nothing at all. *)
Lemma initCanvas_eq innerWidth innerHeight s :
  initCanvas innerWidth innerHeight s
  = (Ok tt,
     set_CONFIG (CONFIG (snd (initCanvas innerWidth innerHeight s))) s).
Proof.
  unfold initCanvas.
  destruct (innerWidth <? 768); [|destruct (innerWidth <? 1024)];
    unfold bind, modify, ret; cbn [snd CONFIG set_CONFIG]; by destruct s.
Qed.

Lemma initCanvas_wide innerWidth innerHeight s :
  1024 <= innerWidth -> initCanvas innerWidth innerHeight s = (Ok tt, s).
Proof.
  intros Hw. unfold initCanvas.
  destruct (Z.ltb_spec innerWidth 768); [lia|].
  by destruct (Z.ltb_spec innerWidth 1024); [lia|].
Qed.

(** The state the resize callback leaves, whether its [renderGrid] throws
    or not. *)
Lemma resize_state innerWidth innerHeight s :
  snd (resize innerWidth innerHeight s)
  = set_CONFIG (CONFIG (snd (initCanvas innerWidth innerHeight (paused s))))
               (paused s).
Proof.
  unfold resize. unfold bind at 1. rewrite pause_eq.
  unfold bind at 1. rewrite initCanvas_eq. done.
Qed.

(** A state that differs in CONFIG only, and there not in the dimensions,
    is as well-formed as the one it came from. *)
Lemma inv_same_dims s cfg :
  same_dims s (set_CONFIG cfg s) -> inv s -> inv (set_CONFIG cfg s).
Proof.
  intros [Hw Hh] (Hok & Hbin & Hgen & Hsaves). cbn in Hw, Hh.
  split; [|done]. destruct Hok as (Hlen & Hnd & Hrows).
  split; [cbn; lia|]. split; [done|].
  eapply Forall_impl; [exact Hrows|]. intros l (row & Hrow & Hlr).
  exists row. split; [done|]. cbn. lia.
Qed.

(** Every handler that leaves the grid dimensions as they are returns
    normally from a state that satisfies the invariant and re-establishes
    it. *)
Lemma handle_inv e s :
  inv s -> same_dims s (snd (handle e s)) ->
  exists s', handle e s = (Ok tt, s') /\ inv s'.
Proof.
  intros Hinv Hsame. pose proof Hinv as (Hok & Hbin & Hgen & Hsaves).
  destruct e as [due id|id|id| | |rnd|x y|x y|v|now| | |name|name confirmed
                 |innerWidth innerHeight];
    cbn [handle] in *.
  - unfold animate. unfold bind at 1. unfold gets at 1.
    destruct (isRunning s); cbn [negb]; [|by exists s].
    destruct due.
    + eexists. split.
      * unfold bind at 1. unfold bind at 1. rewrite nextGeneration_ok by done.
        rewrite renderGrid_ok by (by apply grid_ok_next_state). done.
      * by apply (inv_next_state s).
    + eexists. split; [done|]. done.
  - unfold autoStart, start, showToast, bind, gets, modify.
    destruct (isRunning s); by eexists.
  - unfold togglePlayPause. unfold bind at 1. unfold gets at 1.
    destruct (isRunning s) eqn:E.
    + rewrite pause_eq. eexists. split; [done|]. by apply inv_paused.
    + unfold start, bind, gets, modify. rewrite E. by eexists.
  - exists (next_state (paused s)). split.
    + unfold step. unfold bind at 1. rewrite pause_eq.
      unfold bind at 1. rewrite nextGeneration_ok by (by apply grid_ok_paused).
      apply renderGrid_ok. by apply grid_ok_next_state, grid_ok_paused.
    + by apply inv_next_state, inv_paused.
  - eexists. split; [by apply clear_ok, grid_ok_dims|].
    apply inv_install; [done | apply empty_rows_ok | apply empty_rows_binary].
  - eexists. split; [by apply randomize_ok, grid_ok_dims|].
    apply inv_install;
      [done | apply random_rows_ok | apply random_rows_binary].
  - destruct (handleCanvasClick_ok s x y Hok)
      as (s' & Hrun & Hok' & Hc & [Hg Hs] & Hxy & Hother).
    exists s'. split; [done|]. split; [done|]. split.
    + apply (binary_write s s' x y); try done.
      intros Hin. rewrite Hxy by done. unfold bit. case_match; auto.
    + split; [lia|]. unfold getSavedGames. by rewrite Hs.
  - destruct (handleTouchMove_ok s x y Hok)
      as (s' & Hrun & Hok' & Hc & [Hg Hs] & Hxy & Hother).
    exists s'. split; [done|]. split; [done|]. split.
    + apply (binary_write s s' x y); try done.
      intros Hin. rewrite Hxy by done. by right.
    + split; [lia|]. unfold getSavedGames. by rewrite Hs.
  - by eexists.
  - destruct (decide (trim (saveNameInput s) = [])) as [E|E].
    + eexists. split; [by apply saveGame_empty|]. done.
    + eexists. split; [by apply saveGame_ok|].
      split; [done|]. split; [done|]. split; [done|].
      unfold getSavedGames at 1. cbn.
      apply saves_ok_set_property; [done|]. by apply snapshot_ok.
  - by eexists.
  - by eexists.
  - destruct (getSavedGames s !! name) as [gd|] eqn:Hgd.
    + destruct (decide (gd_gridWidth gd = gridWidth (CONFIG s)
                        /\ gd_gridHeight gd = gridHeight (CONFIG s)))
        as [[Hw Hh]|Hne].
      * eexists. by apply inv_loaded.
      * eexists. split; [apply (loadGame_mismatch s name gd); [done|lia]|].
        done.
    + destruct (decide (name ∈ Object_prototype)).
      * eexists. split; [by apply loadGame_inherited|]. done.
      * eexists. split; [by apply loadGame_missing|]. done.
  - destruct confirmed.
    + eexists. split; [apply deleteGame_confirmed|].
      split; [done|]. split; [done|]. split; [done|].
      unfold getSavedGames at 1. cbn. by apply map_Forall_delete.
    + by eexists.
  - rewrite resize_state in Hsame.
    assert (Hi : inv (set_CONFIG
                        (CONFIG (snd (initCanvas innerWidth innerHeight
                                        (paused s))))
                        (paused s))).
    { apply inv_same_dims; [|by apply inv_paused].
      destruct (paused_fields s) as (Hc & _). destruct Hsame as [Hw Hh].
      split; [by rewrite Hc | by rewrite Hc]. }
    eexists. split; [|exact Hi].
    unfold resize. unfold bind at 1. rewrite pause_eq.
    unfold bind at 1. rewrite initCanvas_eq.
    apply renderGrid_ok. by destruct Hi.
Qed.

Lemma init_inv cfg saves innerWidth innerHeight rnd :
  0 <= gridWidth
         (CONFIG (snd (initCanvas innerWidth innerHeight
                         (page_load cfg saves)))) ->
  0 <= gridHeight
         (CONFIG (snd (initCanvas innerWidth innerHeight
                         (page_load cfg saves)))) ->
  saves_ok (default ∅ saves) ->
  exists s,
    init innerWidth innerHeight rnd (page_load cfg saves) = (Ok tt, s)
    /\ inv s.
Proof.
  intros Hw Hh Hsaves.
  set (s0 := set_CONFIG
               (CONFIG (snd (initCanvas innerWidth innerHeight
                               (page_load cfg saves))))
               (page_load cfg saves)).
  assert (Hd : dims_ok s0) by (split; cbn; lia).
  set (s1 := set_grid (seq 0 (height s0)) (set_heap (random_rows rnd s0) s0)).
  assert (Hok : grid_ok s1).
  { apply (rows_ok_fresh s0 s1 (random_rows rnd s0)); try done.
    - apply random_rows_ok.
    - cbn. by destruct (random_rows_ok rnd s0) as [-> _]. }
  exists (stats_of s1). split.
  - unfold init. unfold bind at 1. rewrite initCanvas_eq. fold s0.
    unfold bind at 1. rewrite createRandomGrid_ok by done.
    unfold bind at 1. unfold modify at 1.
    unfold bind at 1. rewrite renderGrid_ok by exact Hok.
    by rewrite updateStats_ok by exact Hok.
  - split; [done|]. split; [|split; [done|done]].
    apply (binary_rows _ [] (random_rows rnd s0)); cbn; try done.
    + by destruct (random_rows_ok rnd s0) as [-> _].
    + apply random_rows_binary.
Qed.

Lemma reachable_inv s : reachable s -> inv s.
Proof.
  induction 1 as [cfg saves innerWidth innerHeight rnd Hw Hh Hsaves
                 | e s Hr IH Hsame].
  - destruct (init_inv cfg saves innerWidth innerHeight rnd Hw Hh Hsaves)
      as (s & -> & Hinv). done.
  - destruct (handle_inv e s IH Hsame) as (s' & -> & Hinv). done.
Qed.

(** ** The concrete sessions *)

Lemma reachable_fresh_session : reachable fresh_session.
Proof. apply reach_init; [by vm_compute | by vm_compute | apply map_Forall_empty]. Qed.

Lemma reachable_played_session : reachable played_session.
Proof.
  unfold played_session.
  apply reach_event; [|split; vm_compute; reflexivity].
  apply reach_event; [|split; vm_compute; reflexivity].
  apply reach_event; [|split; vm_compute; reflexivity].
  apply reachable_fresh_session.
Qed.

(** ** Counterexamples *)

(** C6 as stated fails: deleting a name that is not stored, once confirmed,
    shows the success toast and no error. *)
Lemma deleteGame_unknown_reports_success :
  getSavedGames blinker !! str "nada" = None
  /\ fst (deleteGame (str "nada") true blinker) = Ok tt
  /\ toast (snd (deleteGame (str "nada") true blinker))
     = Some (deleted_toast (str "nada"))
  /\ snd (deleted_toast (str "nada")) = success
  /\ success <> error.
Proof. repeat split; by vm_compute. Qed.

(** ** The theorems at concrete inputs *)

(** C1 on the 5 by 5 blinker. *)
Lemma nextGeneration_rule_witness :
  grid_ok blinker /\ binary blinker
  /\ exists s',
       nextGeneration blinker = (Ok tt, s')
       /\ CONFIG s' = CONFIG blinker
       /\ grid_ok s'
       /\ (forall l, l ∈ grid s' -> (length (heap blinker) <= l)%nat)
       /\ (forall x y,
             0 <= x < gridWidth (CONFIG blinker) ->
             0 <= y < gridHeight (CONFIG blinker) ->
             countNeighbors blinker (grid blinker) x y
             = Ok (Num (live_neighbors blinker x y))
             /\ (cell blinker x y = Num 1
                 /\ (live_neighbors blinker x y = 2
                     \/ live_neighbors blinker x y = 3)
                 \/ cell blinker x y = Num 0 /\ live_neighbors blinker x y = 3 ->
                 cell s' x y = Num 1)
             /\ (~ (cell blinker x y = Num 1
                    /\ (live_neighbors blinker x y = 2
                        \/ live_neighbors blinker x y = 3)
                    \/ cell blinker x y = Num 0
                       /\ live_neighbors blinker x y = 3) ->
                 cell s' x y = Num 0))
       /\ (forall l, (l < length (heap blinker))%nat ->
                     heap s' !! l = heap blinker !! l)
       /\ rows_of (heap s') (grid blinker) = cells blinker.
Proof.
  split; [decide_by_eval|]. split; [decide_by_eval|].
  apply (nextGeneration_rule blinker); decide_by_eval.
Defined.

(** C2 at the corner (0, 0) of the 4 by 3 board, whose opposite corner is
    alive. *)
Lemma countNeighbors_sum_witness :
  grid_ok corners /\ binary corners
  /\ 0 <= 0 < gridWidth (CONFIG corners)
  /\ 0 <= 0 < gridHeight (CONFIG corners)
  /\ exists n,
       countNeighbors corners (grid corners) 0 0 = Ok (Num n)
       /\ 0 <= n <= 8
       /\ n = neighborCount (cellZ corners) (gridWidth (CONFIG corners))
                            (gridHeight (CONFIG corners)) 0 0
       /\ (0 = 0 -> 0 = 0 ->
           js_rem (0 + -1 + gridWidth (CONFIG corners))
                  (gridWidth (CONFIG corners))
           = Num (gridWidth (CONFIG corners) - 1)
           /\ js_rem (0 + -1 + gridHeight (CONFIG corners))
                     (gridHeight (CONFIG corners))
              = Num (gridHeight (CONFIG corners) - 1)
           /\ (cell corners (gridWidth (CONFIG corners) - 1)
                    (gridHeight (CONFIG corners) - 1) = Num 1
               -> 1 <= n)).
Proof.
  split; [decide_by_eval|]. split; [decide_by_eval|].
  split; [by vm_compute|]. split; [by vm_compute|].
  apply (countNeighbors_sum corners 0 0);
    [decide_by_eval | decide_by_eval | by vm_compute | by vm_compute].
Defined.

(** X23 for the blinker saved under the typed name ["  osc "]. *)
Lemma save_load_roundtrip_witness :
  grid_ok (set_saveNameInput (str "  osc ") blinker)
  /\ binary (set_saveNameInput (str "  osc ") blinker)
  /\ trim (saveNameInput (set_saveNameInput (str "  osc ") blinker)) = str "osc"
  /\ str "osc" <> []
  /\ str "osc" <> str "__proto__"
  /\ exists s1,
       saveGame (str "2024-01-01T00:00:00.000Z")
                (set_saveNameInput (str "  osc ") blinker)
       = (Ok tt, s1)
       /\ cells s1 = cells (set_saveNameInput (str "  osc ") blinker)
       /\ generation s1 = generation (set_saveNameInput (str "  osc ") blinker)
       /\ forall s2,
            conwayGameSaves s2 = conwayGameSaves s1 ->
            CONFIG s2 = CONFIG (set_saveNameInput (str "  osc ") blinker) ->
            exists s3,
              loadGame (str "osc") s2 = (Ok tt, s3)
              /\ cells s3 = cells (set_saveNameInput (str "  osc ") blinker)
              /\ generation s3
                 = generation (set_saveNameInput (str "  osc ") blinker).
Proof.
  split; [decide_by_eval|]. split; [decide_by_eval|].
  split; [vm_compute; reflexivity|]. split; [discriminate|].
  split; [discriminate|].
  apply (save_load_roundtrip (set_saveNameInput (str "  osc ") blinker)
           (str "2024-01-01T00:00:00.000Z") (str "osc"));
    [decide_by_eval | decide_by_eval | vm_compute; reflexivity
     | discriminate | discriminate].
Defined.

(** C4 for a stored 80 by 50 game and a 5 by 5 live grid. *)
Lemma loadGame_dimension_mismatch_witness :
  getSavedGames small_window !! (str "wide") = Some wide_game
  /\ (gd_gridWidth wide_game <> gridWidth (CONFIG small_window)
      \/ gd_gridHeight wide_game <> gridHeight (CONFIG small_window))
  /\ exists s',
       loadGame (str "wide") small_window = (Ok tt, s')
       /\ toast s'
          = Some (str "La partida guardada tiene dimensiones diferentes", error)
       /\ s' = set_toast (toast s') small_window
       /\ grid s' = grid small_window /\ heap s' = heap small_window
       /\ cells s' = cells small_window
       /\ generation s' = generation small_window
       /\ isRunning s' = isRunning small_window
       /\ conwayGameSaves s' = conwayGameSaves small_window.
Proof.
  split; [reflexivity|]. split; [left; by vm_compute|].
  apply (loadGame_dimension_mismatch small_window (str "wide") wide_game);
    [reflexivity | left; by vm_compute].
Defined.

(** C6 for the blinker with an empty save store. *)
Lemma unknown_name_witness :
  getSavedGames blinker !! str "nada" = None
  /\ (str "nada" ∉ Object_prototype)
  /\ ((str "nada" ∉ Object_prototype) ->
      loadGame (str "nada") blinker
      = (Ok tt,
         set_toast (Some (str "No se pudo cargar la partida", error)) blinker))
  /\ deleteGame (str "nada") false blinker = (Ok tt, blinker)
  /\ exists s',
       deleteGame (str "nada") true blinker = (Ok tt, s')
       /\ toast s' = Some (deleted_toast (str "nada"))
       /\ getSavedGames s' = getSavedGames blinker
       /\ grid s' = grid blinker /\ heap s' = heap blinker
       /\ generation s' = generation blinker
       /\ isRunning s' = isRunning blinker.
Proof.
  split; [reflexivity|]. split; [decide_by_eval|].
  apply (unknown_name blinker (str "nada")). reflexivity.
Defined.


(** C8 on the 3 by 2 board with nothing alive. *)
Lemma nextGeneration_all_dead_witness :
  grid_ok barren /\ all_dead barren
  /\ exists s',
       nextGeneration barren = (Ok tt, s')
       /\ grid_ok s' /\ CONFIG s' = CONFIG barren
       /\ all_dead s' /\ cells s' = cells barren.
Proof.
  split; [decide_by_eval|]. split; [decide_by_eval|].
  apply (nextGeneration_all_dead barren); decide_by_eval.
Defined.

(** The live cells of the 5 by 4 board are those of the block at (4, 3). *)
Lemma wrapped_block_cells x y :
  0 <= x < gridWidth (CONFIG wrapped_block) ->
  0 <= y < gridHeight (CONFIG wrapped_block) ->
  cell wrapped_block x y
  = if in_block (gridWidth (CONFIG wrapped_block))
                (gridHeight (CONFIG wrapped_block)) 4 3 x y
    then Num 1 else Num 0.
Proof.
  intros Hx Hy. change (gridWidth (CONFIG wrapped_block)) with 5 in *.
  change (gridHeight (CONFIG wrapped_block)) with 4 in *.
  assert (Ex : x = 0 \/ x = 1 \/ x = 2 \/ x = 3 \/ x = 4) by lia.
  assert (Ey : y = 0 \/ y = 1 \/ y = 2 \/ y = 3) by lia.
  destruct Ex as [-> | [-> | [-> | [-> | ->]]]];
    destruct Ey as [-> | [-> | [-> | ->]]]; by vm_compute.
Defined.

(** C9 for the block that wraps around both edges of the 5 by 4 board. *)
Lemma nextGeneration_block_witness :
  grid_ok wrapped_block
  /\ 4 <= gridWidth (CONFIG wrapped_block)
  /\ 4 <= gridHeight (CONFIG wrapped_block)
  /\ 0 <= 4 < gridWidth (CONFIG wrapped_block)
  /\ 0 <= 3 < gridHeight (CONFIG wrapped_block)
  /\ (forall x y,
        0 <= x < gridWidth (CONFIG wrapped_block) ->
        0 <= y < gridHeight (CONFIG wrapped_block) ->
        cell wrapped_block x y
        = if in_block (gridWidth (CONFIG wrapped_block))
                      (gridHeight (CONFIG wrapped_block)) 4 3 x y
          then Num 1 else Num 0)
  /\ exists s',
       nextGeneration wrapped_block = (Ok tt, s')
       /\ grid_ok s' /\ CONFIG s' = CONFIG wrapped_block
       /\ cells s' = cells wrapped_block.
Proof.
  split; [decide_by_eval|]. split; [by vm_compute|]. split; [by vm_compute|].
  split; [by vm_compute|]. split; [by vm_compute|].
  split; [exact wrapped_block_cells|].
  apply (nextGeneration_block wrapped_block 4 3);
    [decide_by_eval | by vm_compute | by vm_compute | by vm_compute
     | by vm_compute | exact wrapped_block_cells].
Defined.

(** C10 on the 5 by 5 blinker. *)
Lemma cells_stay_binary_witness :
  grid_ok blinker /\ binary blinker
  /\ (exists s',
        nextGeneration blinker = (Ok tt, s') /\ grid_ok s' /\ binary s')
  /\ (exists s', clear blinker = (Ok tt, s') /\ grid_ok s' /\ binary s')
  /\ (forall rnd,
        exists s',
          randomize rnd blinker = (Ok tt, s') /\ grid_ok s' /\ binary s')
  /\ (forall x y,
        exists s',
          handleCanvasClick x y blinker = (Ok tt, s')
          /\ grid_ok s' /\ binary s'
          /\ (0 <= x < gridWidth (CONFIG blinker)
              /\ 0 <= y < gridHeight (CONFIG blinker) ->
              (cell blinker x y = Num 1 -> cell s' x y = Num 0)
              /\ (cell blinker x y = Num 0 -> cell s' x y = Num 1))
          /\ (forall x' y', (x', y') <> (x, y) ->
                            cell s' x' y' = cell blinker x' y'))
  /\ (forall x y,
        exists s',
          handleTouchMove x y blinker = (Ok tt, s')
          /\ grid_ok s' /\ binary s'
          /\ (0 <= x < gridWidth (CONFIG blinker)
              /\ 0 <= y < gridHeight (CONFIG blinker) ->
              cell s' x y = Num 1)
          /\ (forall x' y', (x', y') <> (x, y) ->
                            cell s' x' y' = cell blinker x' y')).
Proof.
  split; [decide_by_eval|]. split; [decide_by_eval|].
  apply (cells_stay_binary blinker); decide_by_eval.
Defined.

(** * Properties of the remaining code *)

(** ** Frames *)

Section Preserves.

Variable R : state -> state -> Prop.
Hypothesis R_refl : forall s, R s s.
Hypothesis R_trans : forall s1 s2 s3, R s1 s2 -> R s2 s3 -> R s1 s3.

Lemma preserves_ret {A : Type} (a : A) : preserves R (ret a).
Proof. intros s r s' [= <- <-]. apply R_refl. Qed.

Lemma preserves_gets {A : Type} (f : state -> A) : preserves R (gets f).
Proof. intros s r s' [= <- <-]. apply R_refl. Qed.

Lemma preserves_reads {A : Type} (f : state -> outcome A) :
  preserves R (reads f).
Proof. intros s r s' [= <- <-]. apply R_refl. Qed.

Lemma preserves_modify (f : state -> state) :
  (forall s, R s (f s)) -> preserves R (modify f).
Proof. intros Hf s r s' [= <- <-]. apply Hf. Qed.

Lemma preserves_bind {A B : Type} (c : M A) (k : A -> M B) :
  preserves R c -> (forall a, preserves R (k a)) -> preserves R (bind c k).
Proof.
  intros Hc Hk s r s' Hrun. unfold bind in Hrun.
  destruct (c s) as [[a|e] s1] eqn:E.
  - eapply R_trans; [by eapply Hc | by eapply Hk].
  - injection Hrun as <- <-. by eapply Hc.
Qed.

Lemma preserves_for {B : Type} (l : list B) (body : B -> M unit) :
  (forall b, b ∈ l -> preserves R (body b)) -> preserves R (for_ l body).
Proof.
  induction l as [|b l IH]; intros Hbody; cbn [for_].
  - apply preserves_ret.
  - apply preserves_bind; [apply Hbody; by left|].
    intros _. apply IH. intros b' Hb'. apply Hbody. by right.
Qed.

Lemma preserves_mapM {B C : Type} (f : B -> M C) (l : list B) :
  (forall b, b ∈ l -> preserves R (f b)) -> preserves R (mapM f l).
Proof.
  induction l as [|b l IH]; intros Hf; cbn [mapM].
  - apply preserves_ret.
  - apply preserves_bind; [apply Hf; by left|]. intros c.
    apply preserves_bind; [apply IH; intros b' Hb'; apply Hf; by right|].
    intros cs. apply preserves_ret.
Qed.

End Preserves.

Lemma preserves_mono (R R' : state -> state -> Prop) {A : Type} (c : M A) :
  (forall s s', R s s' -> R' s s') -> preserves R c -> preserves R' c.
Proof. intros HR Hc s r s' Hrun. apply HR. by eapply Hc. Qed.

Lemma heap_only_refl s : heap_only s s.
Proof. unfold heap_only. by rewrite set_heap_same. Qed.

Lemma heap_only_trans s1 s2 s3 :
  heap_only s1 s2 -> heap_only s2 s3 -> heap_only s1 s3.
Proof. unfold heap_only. intros H12 H23. rewrite H23, H12. done. Qed.

Lemma heap_only_store2 g y x v : preserves heap_only (store2 g y x v).
Proof.
  intros s r s' Hrun. unfold store2 in Hrun.
  destruct (arr_get g (Num y)) as [l|];
    [|injection Hrun as <- <-; apply heap_only_refl].
  destruct (heap s !! l) as [row|]; injection Hrun as <- <-;
    [done | apply heap_only_refl].
Qed.

Lemma heap_only_alloc row : preserves heap_only (alloc row).
Proof. intros s r s' [= <- <-]. done. Qed.

(** ** Grid creation with unusable dimensions *)

Lemma createEmptyGrid_throws s :
  ~ dims_ok s -> createEmptyGrid s = (Throw RangeError, s).
Proof.
  intros Hd. unfold createEmptyGrid.
  unfold bind at 1. unfold gets at 1. unfold bind at 1. unfold reads at 1.
  unfold Array_fill at 1.
  destruct (Z.ltb_spec (gridHeight (CONFIG s)) 0) as [|Hh]; [done|].
  assert (Hw : 0 < gridHeight (CONFIG s) /\ gridWidth (CONFIG s) < 0)
    by (unfold dims_ok in Hd; lia).
  destruct (Z.to_nat (gridHeight (CONFIG s))) as [|n] eqn:E; [lia|].
  cbn [replicate mapM]. unfold bind at 1. unfold bind at 1. unfold reads at 1.
  unfold Array_fill.
  by destruct (Z.ltb_spec (gridWidth (CONFIG s)) 0); [|lia].
Qed.

Lemma createRandomGrid_throws rnd s :
  ~ dims_ok s -> createRandomGrid rnd s = (Throw RangeError, s).
Proof.
  intros Hd. unfold createRandomGrid.
  unfold bind at 1. unfold gets at 1. unfold bind at 1. unfold reads at 1.
  unfold Array_fill at 1.
  destruct (Z.ltb_spec (gridHeight (CONFIG s)) 0) as [|Hh]; [done|].
  assert (Hw : 0 < gridHeight (CONFIG s) /\ gridWidth (CONFIG s) < 0)
    by (unfold dims_ok in Hd; lia).
  rewrite length_replicate.
  destruct (Z.to_nat (gridHeight (CONFIG s))) as [|n] eqn:E; [lia|].
  cbn [seq mapM]. unfold bind at 1. unfold bind at 1. unfold reads at 1.
  unfold Array_fill.
  by destruct (Z.ltb_spec (gridWidth (CONFIG s)) 0); [|lia].
Qed.

(** ** One generation from any state *)

Lemma building_start s : dims_ok s -> building s (set_heap (heap s ++ empty_rows s) s).
Proof.
  intros Hd. split; [done|]. exists (empty_rows s).
  split; [done|]. split; [apply empty_rows_ok | apply empty_rows_binary].
Qed.

Lemma store2_building s σ (y x : Z) v :
  building s σ ->
  0 <= y < gridHeight (CONFIG s) -> 0 <= x < gridWidth (CONFIG s) -> bit v ->
  exists σ',
    store2 (seq (length (heap s)) (height s)) y x v σ = (Ok tt, σ')
    /\ building s σ'.
Proof.
  intros (Hho & R & Hh & [Hlen Hw] & Hbits) Hy Hx Hv.
  destruct (lookup_lt_is_Some_2 R (Z.to_nat y)) as [row Hrow];
    [unfold height in Hlen; lia|].
  assert (Hrl : length row = width s).
  { rewrite Forall_forall in Hw. apply Hw, list_elem_of_lookup. eauto. }
  exists (set_heap (heap s ++ <[Z.to_nat y := <[Z.to_nat x := v]> row]> R) σ).
  split.
  - rewrite <- (Z2Nat.id y), <- (Z2Nat.id x) at 1 by lia.
    apply store2_new; try done; unfold height, width in *; lia.
  - split; [unfold heap_only in *; rewrite Hho; done|].
    eexists. split; [done|]. split; [split|].
    + by rewrite length_insert.
    + apply Forall_insert; [done|]. by rewrite length_insert.
    + apply Forall_insert; [done|]. apply Forall_insert; [|done].
      rewrite Forall_forall in Hbits. apply Hbits, list_elem_of_lookup. eauto.
Qed.

Lemma nextGeneration_body_building s (y x : Z) :
  0 <= y < gridHeight (CONFIG s) -> 0 <= x < gridWidth (CONFIG s) ->
  preserves (fun σ σ' => building s σ -> building s σ')
            (nextGeneration_body (seq (length (heap s)) (height s)) y x).
Proof.
  intros Hy Hx σ r σ' Hrun Hb. unfold nextGeneration_body in Hrun.
  unfold bind at 1 in Hrun. unfold reads at 1 in Hrun.
  destruct (countNeighbors σ (grid σ) x y) as [n|e];
    [|by injection Hrun as <- <-].
  unfold bind at 1 in Hrun. unfold reads at 1 in Hrun.
  destruct (index2 (heap σ) (grid σ) (Num y) (Num x)) as [c|e];
    [|by injection Hrun as <- <-].
  assert (Hst : forall v, bit v ->
            store2 (seq (length (heap s)) (height s)) y x v σ = (r, σ') ->
            building s σ').
  { intros v Hv Hs.
    destruct (store2_building s σ y x v Hb Hy Hx Hv) as (σ1 & Hs1 & Hb1).
    rewrite Hs1 in Hs. by injection Hs as <- <-. }
  destruct (strict_eq c 1 && (strict_eq n 2 || strict_eq n 3));
    [by apply (Hst (Num 1)); [right|]|].
  destruct (strict_eq c 0 && strict_eq n 3);
    [by apply (Hst (Num 1)); [right|] | by apply (Hst (Num 0)); [left|]].
Qed.

Lemma nextGeneration_loops_building s :
  preserves (fun σ σ' => building s σ -> building s σ')
    (for_ (seqZ 0 (gridHeight (CONFIG s))) (fun y =>
       for_ (seqZ 0 (gridWidth (CONFIG s))) (fun x =>
         nextGeneration_body (seq (length (heap s)) (height s)) y x))).
Proof.
  apply preserves_for; [auto | auto |]. intros y Hy.
  apply preserves_for; [auto | auto |]. intros x Hx.
  apply elem_of_seqZ in Hy, Hx. apply nextGeneration_body_building; lia.
Qed.

Lemma building_grid_ok s σ :
  dims_ok s -> building s σ ->
  grid_ok (set_grid (seq (length (heap s)) (height s)) σ)
  /\ binary (set_grid (seq (length (heap s)) (height s)) σ)
  /\ old_arrays_kept s σ.
Proof.
  intros Hd (Hho & R & Hh & Hrows & Hbits).
  assert (Hlen : height s = length R) by (by destruct Hrows as [-> _]).
  rewrite Hlen. split; [|split].
  - apply (rows_ok_fresh s _ R); cbn; try done. by rewrite Hho.
  - by apply (binary_rows _ (heap s) R).
  - intros l Hl. by rewrite Hh, lookup_app_l.
Qed.

(** X1.  From any state, whatever the live grid looks like, [nextGeneration]
    does one of two things.  Either it throws, and then only the heap has
    changed: the grid variable, the generation counter and every other
    variable are as before, and so is every array that existed.  Or it
    returns, and then the new grid has the configured dimensions, unshared
    rows and only 0 and 1 in its cells, and the counter, when it was between
    -2^53 and 2^53, is one higher; the arrays that existed are as before in
    this case too. *)
Theorem nextGeneration_all_or_nothing s :
  (exists e s',
     nextGeneration s = (Throw e, s')
     /\ heap_only s s' /\ grid s' = grid s /\ generation s' = generation s
     /\ old_arrays_kept s s')
  \/ (exists s',
        nextGeneration s = (Ok tt, s')
        /\ grid_ok s' /\ binary s'
        /\ (- 2 ^ 53 <= generation s < 2 ^ 53 ->
            generation s' = generation s + 1)
        /\ CONFIG s' = CONFIG s /\ old_arrays_kept s s').
Proof.
  assert (Hd : dims_ok s \/ ~ dims_ok s) by (unfold dims_ok; lia).
  destruct Hd as [Hd|Hd].
  2: { left. exists RangeError, s. split.
       - unfold nextGeneration. unfold bind at 1.
         by rewrite createEmptyGrid_throws.
       - split; [apply heap_only_refl|]. by repeat split. }
  pose proof (nextGeneration_loops_building s) as Hloops.
  destruct (for_ (seqZ 0 (gridHeight (CONFIG s)))
              (fun y => for_ (seqZ 0 (gridWidth (CONFIG s)))
                 (fun x => nextGeneration_body
                             (seq (length (heap s)) (height s)) y x))
              (set_heap (heap s ++ empty_rows s) s))
    as [[[]|e] σ] eqn:E;
    specialize (Hloops _ _ _ E (building_start s Hd));
    destruct (building_grid_ok s σ Hd Hloops) as (Hok & Hbin & Hold);
    destruct Hloops as [Hho _].
  - right. eexists. split.
    + unfold nextGeneration. unfold bind at 1.
      rewrite createEmptyGrid_ok by done.
      unfold bind at 1. unfold gets at 1. cbn [CONFIG set_heap].
      unfold bind at 1. rewrite E.
      unfold bind at 1. unfold modify at 1.
      unfold bind at 1. unfold modify at 1.
      by rewrite updateStats_ok.
    + split; [exact Hok|]. split; [exact Hbin|].
      split; [intros Hg; cbn; rewrite Hho; cbn; by apply js_incr_exact|].
      split; [cbn; rewrite Hho; reflexivity | exact Hold].
  - left. exists e, σ. split.
    + unfold nextGeneration. unfold bind at 1.
      rewrite createEmptyGrid_ok by done.
      unfold bind at 1. unfold gets at 1. cbn [CONFIG set_heap].
      unfold bind at 1. by rewrite E.
    + split; [done|]. split; [rewrite Hho; reflexivity|].
      split; [rewrite Hho; reflexivity | exact Hold].
Qed.

(** ** What no handler touches *)

Lemma config_kept_refl s : config_kept s s.
Proof. done. Qed.

Lemma config_kept_trans s1 s2 s3 :
  config_kept s1 s2 -> config_kept s2 s3 -> config_kept s1 s3.
Proof. unfold config_kept. congruence. Qed.

Lemma store_kept_refl s : store_kept s s.
Proof. done. Qed.

Lemma store_kept_trans s1 s2 s3 :
  store_kept s1 s2 -> store_kept s2 s3 -> store_kept s1 s3.
Proof. unfold store_kept. congruence. Qed.

Lemma heap_only_store_kept s s' : heap_only s s' -> store_kept s s'.
Proof. unfold heap_only. intros ->. done. Qed.

Lemma heap_only_config_kept s s' : heap_only s s' -> config_kept s s'.
Proof. unfold heap_only. intros ->. done. Qed.

Lemma generation_kept_refl s : generation_kept s s.
Proof. done. Qed.

Lemma generation_kept_trans s1 s2 s3 :
  generation_kept s1 s2 -> generation_kept s2 s3 -> generation_kept s1 s3.
Proof. unfold generation_kept. congruence. Qed.

Lemma heap_only_generation_kept s s' : heap_only s s' -> generation_kept s s'.
Proof. unfold heap_only. intros ->. done. Qed.

Lemma keeps_counter_refl s : keeps_counter s s.
Proof. by intros H. Qed.

Lemma keeps_counter_trans s1 s2 s3 :
  keeps_counter s1 s2 -> keeps_counter s2 s3 -> keeps_counter s1 s3.
Proof. unfold keeps_counter. auto. Qed.

Lemma heap_only_keeps_counter s s' : heap_only s s' -> keeps_counter s s'.
Proof. unfold heap_only. intros -> H. exact H. Qed.

Lemma heap_and_stats_only_refl s : heap_and_stats_only s s.
Proof. by destruct s. Qed.

Lemma heap_and_stats_only_trans s1 s2 s3 :
  heap_and_stats_only s1 s2 -> heap_and_stats_only s2 s3 ->
  heap_and_stats_only s1 s3.
Proof.
  unfold heap_and_stats_only. intros H12 H23. rewrite H23, H12. done.
Qed.

Lemma heap_only_heap_and_stats_only s s' :
  heap_only s s' -> heap_and_stats_only s s'.
Proof. unfold heap_only. intros ->. by destruct s. Qed.

Create HintDb frame.
#[local] Hint Resolve config_kept_refl config_kept_trans store_kept_refl
  store_kept_trans heap_only_refl heap_only_trans heap_only_store_kept
  heap_only_config_kept heap_and_stats_only_refl heap_and_stats_only_trans
  heap_only_heap_and_stats_only generation_kept_refl generation_kept_trans
  heap_only_generation_kept keeps_counter_refl keeps_counter_trans
  heap_only_keeps_counter : frame.

(** Take a computation apart along its binds, loops and branches; [leaf]
    settles the assignments. *)
Ltac frame_by leaf :=
  lazymatch goal with
  | |- preserves _ (bind _ _) =>
      apply preserves_bind;
      [eauto with frame | frame_by leaf | intros; frame_by leaf]
  | |- preserves _ (ret _) => apply preserves_ret; eauto with frame
  | |- preserves _ (gets _) => apply preserves_gets; eauto with frame
  | |- preserves _ (reads _) => apply preserves_reads; eauto with frame
  | |- preserves _ (modify _) => apply preserves_modify; intros; leaf
  | |- preserves _ (for_ _ _) =>
      apply preserves_for;
      [eauto with frame | eauto with frame | intros; frame_by leaf]
  | |- preserves _ (mapM _ _) =>
      apply preserves_mapM;
      [eauto with frame | eauto with frame | intros; frame_by leaf]
  | |- preserves _ (store2 _ _ _ _) =>
      apply (preserves_mono heap_only);
      [eauto with frame | apply heap_only_store2]
  | |- preserves _ (alloc _) =>
      apply (preserves_mono heap_only);
      [eauto with frame | apply heap_only_alloc]
  | |- preserves _ (if ?b then _ else _) => destruct b; frame_by leaf
  | |- preserves _ (match ?o with _ => _ end) => destruct o; frame_by leaf
  end.

Ltac frame := frame_by ltac:(idtac; first [done | reflexivity]).

Lemma store_kept_handle e :
  writes_store e = false -> preserves store_kept (handle e).
Proof.
  destruct e; intros Hw; try discriminate Hw; cbn [handle];
    unfold animate, togglePlayPause, step, clear, randomize,
      handleCanvasClick, handleTouchMove, showLoadModal, loadGame, autoStart,
      resize;
    unfold closeModal, pause, start, nextGeneration, initCanvas;
    unfold nextGeneration_body, createEmptyGrid, createRandomGrid, renderGrid,
      updateStats, showToast;
    frame.
Qed.

Lemma config_kept_handle e :
  resizes e = false -> preserves config_kept (handle e).
Proof.
  destruct e; intros Hw; try discriminate Hw; cbn [handle];
    unfold animate, togglePlayPause, step, clear, randomize,
      handleCanvasClick, handleTouchMove, showLoadModal, loadGame, autoStart,
      saveGame, deleteGame;
    unfold closeModal, pause, start, nextGeneration;
    unfold nextGeneration_body, createEmptyGrid, createRandomGrid, renderGrid,
      updateStats, showToast;
    frame.
Qed.

(** X2.  In any state and whether the handler returns or throws: CONFIG is
    changed by the resize callback only, and by that only in a window
    narrower than 1024 pixels; the save store is written by [saveGame] and
    [deleteGame] only: after any other event the localStorage item is what
    it was. *)
Theorem handlers_keep_setup e s :
  (resizes e = false -> CONFIG (snd (handle e s)) = CONFIG s)
  /\ (forall innerWidth innerHeight,
        e = EvResize innerWidth innerHeight -> 1024 <= innerWidth ->
        CONFIG (snd (handle e s)) = CONFIG s)
  /\ (writes_store e = false ->
      conwayGameSaves (snd (handle e s)) = conwayGameSaves s).
Proof.
  split; [|split].
  - intros Hr.
    apply (config_kept_handle e Hr s (fst (handle e s))).
    by destruct (handle e s).
  - intros innerWidth innerHeight -> Hw. cbn [handle].
    rewrite resize_state, initCanvas_wide by done. cbn [snd CONFIG set_CONFIG].
    by destruct (paused_fields s) as [-> _].
  - intros Hw.
    apply (store_kept_handle e Hw s (fst (handle e s))).
    by destruct (handle e s).
Qed.

(** ** C5: the generation counter *)

(** Settle an assignment that keeps the counter or makes it a number known
    not to be negative. *)
Ltac counter_leaf :=
  unfold keeps_counter;
  first [ done
        | intros [? ?]; split;
          [cbn; first [lia | by apply js_incr_nonneg] | done] ].

Lemma get_property_Own (m : gmap jsstring gameData) name gd :
  get_property m name = Own gd -> m !! name = Some gd.
Proof.
  unfold get_property. destruct (m !! name); [by intros [= ->]|].
  by case_bool_decide.
Qed.

(** No handler, on any path, makes the counter or a stored count
    negative. *)
Lemma keeps_counter_handle e : preserves keeps_counter (handle e).
Proof.
  destruct e as [due id|id|id| | |rnd|x y|x y|v|now| | |name|name confirmed
                 |innerWidth innerHeight];
    cbn [handle].
  10: { intros s r s' Hrun [Hg Hc].
        destruct (decide (trim (saveNameInput s) = [])) as [E|E].
        - rewrite saveGame_empty in Hrun by done. by injection Hrun as <- <-.
        - rewrite saveGame_ok in Hrun by done. injection Hrun as <- <-.
          split; [done|]. unfold getSavedGames at 1. cbn.
          unfold counts_ok, set_property. case_bool_decide; [done|].
          by apply map_Forall_insert_2. }
  13: { intros s r s' Hrun [Hg Hc]. destruct confirmed.
        - rewrite deleteGame_confirmed in Hrun. injection Hrun as <- <-.
          split; [done|]. unfold getSavedGames at 1. cbn.
          by apply map_Forall_delete.
        - by injection Hrun as <- <-. }
  12: { intros s r s' Hrun Hok. pose proof Hok as [Hg Hc].
        unfold loadGame in Hrun. unfold bind at 1 in Hrun.
        unfold gets at 1 in Hrun.
        destruct (get_property (getSavedGames s) name) as [gd| |] eqn:E.
        - apply get_property_Own in E. pose proof (Hc name gd E) as Hgd.
          cbn in Hgd. revert Hok. change (keeps_counter s s').
          clear Hg Hc E. revert s r s' Hrun.
          change (preserves keeps_counter
                    (let* cfg := gets CONFIG in
                     if negb (gd_gridWidth gd =? gridWidth cfg)
                        || negb (gd_gridHeight gd =? gridHeight cfg)
                     then showToast
                            (str "La partida guardada tiene dimensiones diferentes")
                            error
                     else
                       pause;;
                       let* g := mapM alloc (gd_grid gd) in
                       modify (set_grid g);;
                       modify (set_generation (gd_generation gd));;
                       renderGrid;;
                       updateStats;;
                       closeModal;;
                       showToast (str "Partida " ++ quote ++ name ++ quote
                                  ++ str " cargada")
                                 success)).
          unfold pause, renderGrid, updateStats, closeModal, showToast.
          frame_by counter_leaf.
        - by injection Hrun as <- <-.
        - by injection Hrun as <- <-. }
  all: unfold animate, togglePlayPause, step, clear, randomize,
         handleCanvasClick, handleTouchMove, showLoadModal, autoStart, resize;
       unfold closeModal, pause, start, nextGeneration, initCanvas;
       unfold nextGeneration_body, createEmptyGrid, createRandomGrid,
         renderGrid, updateStats, showToast;
       frame_by counter_leaf.
Qed.

Lemma keeps_counter_init innerWidth innerHeight rnd :
  preserves keeps_counter (init innerWidth innerHeight rnd).
Proof.
  unfold init, initCanvas, createRandomGrid, renderGrid, updateStats.
  frame_by counter_leaf.
Qed.

(** In every session the counter and the stored counts are not negative. *)
Lemma session_counter s : session s -> counter_ok s.
Proof.
  induction 1 as [cfg saves innerWidth innerHeight rnd Hsaves | e s Hs IH].
  - apply (keeps_counter_init innerWidth innerHeight rnd (page_load cfg saves)
             (fst (init innerWidth innerHeight rnd (page_load cfg saves))));
      [by destruct (init _ _ _ _) | by split].
  - apply (keeps_counter_handle e s (fst (handle e s)));
      [by destruct (handle e s) | done].
Qed.

(** [loadGame] of a stored game of the configured dimensions leaves the
    counter at the stored count, whether drawing the loaded grid throws or
    not. *)
Lemma loadGame_generation s name gd :
  getSavedGames s !! name = Some gd ->
  gd_gridWidth gd = gridWidth (CONFIG s) ->
  gd_gridHeight gd = gridHeight (CONFIG s) ->
  generation (snd (loadGame name s)) = gd_generation gd.
Proof.
  intros Hgd Hw Hh.
  assert (Hp : preserves generation_kept
                 (renderGrid;; updateStats;; closeModal;;
                  showToast (str "Partida " ++ quote ++ name ++ quote
                             ++ str " cargada") success)).
  { unfold renderGrid, updateStats, closeModal, showToast. frame. }
  unfold loadGame. unfold bind at 1. unfold gets at 1.
  rewrite (get_property_own _ _ _ Hgd).
  unfold bind at 1. unfold gets at 1. rewrite Hw, Hh, !Z.eqb_refl.
  cbn [negb orb].
  unfold bind at 1. rewrite pause_eq.
  unfold bind at 1. rewrite mapM_alloc.
  unfold bind at 1. unfold modify at 1. unfold bind at 1. unfold modify at 1.
  cbv beta iota.
  match goal with
  | |- generation (snd (?c ?σ)) = _ =>
      assert (H : generation_kept σ (snd (c σ)))
        by (apply (Hp σ (fst (c σ))); by destruct (c σ))
  end.
  by rewrite H.
Qed.

(** C5, as the code has it.  In every state of a session, whatever events
    have arrived, resizes of the window included, the generation counter is
    a non-negative integer.  On a grid of the configured dimensions
    [nextGeneration] returns, and with the counter one higher as long as the
    counter is below 2^53.  With dimensions that are not negative, [clear]
    and [randomize] return with the counter 0.  [loadGame], for a stored
    game of the configured dimensions, sets the counter to the generation
    count stored in that game, which is not negative, and returns when the
    stored grid has the configured dimensions. *)
Theorem generation_counter s :
  session s ->
  0 <= generation s
  /\ (grid_ok s -> generation s < 2 ^ 53 ->
      exists s',
        nextGeneration s = (Ok tt, s') /\ generation s' = generation s + 1)
  /\ (dims_ok s -> exists s', clear s = (Ok tt, s') /\ generation s' = 0)
  /\ (dims_ok s ->
      forall rnd, exists s', randomize rnd s = (Ok tt, s') /\ generation s' = 0)
  /\ (forall name gd,
        getSavedGames s !! name = Some gd ->
        gd_gridWidth gd = gridWidth (CONFIG s) ->
        gd_gridHeight gd = gridHeight (CONFIG s) ->
        generation (snd (loadGame name s)) = gd_generation gd
        /\ 0 <= gd_generation gd
        /\ (dims_ok s -> rows_ok s (gd_grid gd) ->
            fst (loadGame name s) = Ok tt)).
Proof.
  intros Hs. destruct (session_counter s Hs) as [Hg Hc].
  split; [done|]. split; [|split; [|split; [|]]].
  - intros Hok Hlt. exists (next_state s).
    split; [by apply nextGeneration_ok|]. cbn. apply js_incr_exact. lia.
  - intros Hd. eexists. split; [by apply clear_ok | done].
  - intros Hd rnd. eexists. split; [by apply randomize_ok | done].
  - intros name gd Hgd Hw Hh. split; [by apply loadGame_generation|].
    split; [exact (Hc name gd Hgd)|].
    intros Hd Hrows.
    by destruct (loadGame_ok s name gd Hd Hgd Hw Hh Hrows) as (-> & _).
Qed.

Lemma session_played_session : session played_session.
Proof.
  do 3 apply session_event. apply session_init. apply map_Forall_empty.
Qed.

Lemma session_late_session : session late_session.
Proof.
  apply session_event. apply session_init.
  apply map_Forall_singleton. by vm_compute.
Qed.

(** C5 as stated fails twice.  After one step and a save, loading the saved
    game leaves the generation counter at 1, not at 0.  And in a session
    that has loaded a game of generation 2^53, [nextGeneration] returns with
    the counter where it was. *)
Lemma loadGame_keeps_generation :
  session played_session
  /\ fst (loadGame (str "a") played_session) = Ok tt
  /\ generation (snd (loadGame (str "a") played_session)) = 1
  /\ generation (snd (loadGame (str "a") played_session)) <> 0
  /\ session late_session
  /\ fst (nextGeneration late_session) = Ok tt
  /\ generation (snd (nextGeneration late_session)) = generation late_session
  /\ generation (snd (nextGeneration late_session))
     <> generation late_session + 1.
Proof.
  split; [apply session_played_session|].
  split; [by vm_compute|]. split; [by vm_compute|]. split; [by vm_compute|].
  split; [apply session_late_session|].
  split; [by vm_compute|]. split; by vm_compute.
Qed.

(** C5 in the session on the 3 by 2 board that holds the game "a" of
    generation 1. *)
Lemma generation_counter_witness :
  session played_session
  /\ grid_ok played_session /\ generation played_session = 1
  /\ getSavedGames played_session !! str "a" = Some stored_a
  /\ gd_gridWidth stored_a = gridWidth (CONFIG played_session)
  /\ gd_gridHeight stored_a = gridHeight (CONFIG played_session)
  /\ gd_generation stored_a = 1
  /\ 0 <= generation played_session
  /\ (grid_ok played_session -> generation played_session < 2 ^ 53 ->
      exists s',
        nextGeneration played_session = (Ok tt, s')
        /\ generation s' = generation played_session + 1)
  /\ (dims_ok played_session ->
      exists s', clear played_session = (Ok tt, s') /\ generation s' = 0)
  /\ (dims_ok played_session ->
      forall rnd,
        exists s', randomize rnd played_session = (Ok tt, s')
                   /\ generation s' = 0)
  /\ (forall name gd,
        getSavedGames played_session !! name = Some gd ->
        gd_gridWidth gd = gridWidth (CONFIG played_session) ->
        gd_gridHeight gd = gridHeight (CONFIG played_session) ->
        generation (snd (loadGame name played_session)) = gd_generation gd
        /\ 0 <= gd_generation gd
        /\ (dims_ok played_session -> rows_ok played_session (gd_grid gd) ->
            fst (loadGame name played_session) = Ok tt)).
Proof.
  split; [apply session_played_session|].
  split; [decide_by_eval|]. split; [vm_compute; reflexivity|].
  split; [vm_compute; reflexivity|]. split; [vm_compute; reflexivity|].
  split; [vm_compute; reflexivity|]. split; [vm_compute; reflexivity|].
  apply (generation_counter played_session). apply session_played_session.
Defined.


(** ** Creating grids *)

(** X3.  [clear] from any state, whatever the old grid looks like.  When
    [gridHeight] is negative, or positive with a negative [gridWidth], the
    array constructor throws a RangeError after the game has been paused and
    nothing else has changed.  Otherwise (a height of 0 with a negative
    width included) [clear] returns: the new grid has the configured
    dimensions, rows of its own that did not exist before, and 0 in every
    cell; the generation counter is 0, the game is paused, the toast says so,
    and the arrays that existed before are untouched. *)
Theorem clear_any_state s :
  (~ dims_ok s /\ clear s = (Throw RangeError, paused s))
  \/ (dims_ok s
      /\ exists s',
           clear s = (Ok tt, s')
           /\ grid_ok s' /\ all_dead s'
           /\ (forall l, l ∈ grid s' -> (length (heap s) <= l)%nat)
           /\ old_arrays_kept s s'
           /\ generation s' = 0 /\ isRunning s' = false
           /\ toast s' = Some (str "Tablero limpiado", success)
           /\ CONFIG s' = CONFIG s).
Proof.
  assert (Hd : dims_ok s \/ ~ dims_ok s) by (unfold dims_ok; lia).
  destruct (paused_fields s) as (Hc & Hh & _).
  destruct Hd as [Hd|Hd]; [right | left]; (split; [done|]).
  - exists (install (empty_rows s) (str "Tablero limpiado") s).
    split; [by apply clear_ok|].
    destruct (install_ok s (empty_rows s) (str "Tablero limpiado") Hd
                (empty_rows_ok s)) as (Hok & Hcells & Hgen & Hcfg).
    split; [done|]. split; [unfold all_dead; rewrite Hcells;
                            do 2 apply Forall_replicate; done|].
    split; [cbn; intros l Hl; apply elem_of_seq in Hl; lia|].
    split; [intros l Hl; cbn; by apply lookup_app_l|].
    split; [done|]. split; [cbn; apply isRunning_paused|]. done.
  - unfold clear. unfold bind at 1. rewrite pause_eq. unfold bind at 1.
    rewrite createEmptyGrid_throws; [done|]. unfold dims_ok. by rewrite Hc.
Qed.

Lemma random_rows_lookup rnd s (x y : nat) :
  (x < width s)%nat -> (y < height s)%nat ->
  random_rows rnd s !! y ≫= (fun row => row !! x)
  = Some (if rnd (y * width s + x)%nat then Num 1 else Num 0).
Proof.
  intros Hx Hy. unfold random_rows.
  rewrite list_lookup_fmap, lookup_seq_lt by done. cbn.
  rewrite list_lookup_imap, lookup_replicate_2 by done. done.
Qed.

(** X4.  [randomize] from any state.  With unusable dimensions it throws a
    RangeError after pausing, as [clear] does.  Otherwise it returns with a
    grid of the configured dimensions in which the cell at (x, y) is 1
    exactly when draw number [y * gridWidth + x] of [Math.random()] fell
    below the density (the draws are used row by row, left to right); the
    generation counter is 0 and the game is paused. *)
Theorem randomize_any_state rnd s :
  (~ dims_ok s /\ randomize rnd s = (Throw RangeError, paused s))
  \/ (dims_ok s
      /\ exists s',
           randomize rnd s = (Ok tt, s')
           /\ grid_ok s' /\ binary s'
           /\ (forall x y,
                 0 <= x < gridWidth (CONFIG s) ->
                 0 <= y < gridHeight (CONFIG s) ->
                 cell s' x y
                 = if rnd (Z.to_nat y * Z.to_nat (gridWidth (CONFIG s))
                           + Z.to_nat x)%nat
                   then Num 1 else Num 0)
           /\ old_arrays_kept s s'
           /\ generation s' = 0 /\ isRunning s' = false
           /\ toast s' = Some (str "Tablero generado aleatoriamente", success)
           /\ CONFIG s' = CONFIG s).
Proof.
  assert (Hd : dims_ok s \/ ~ dims_ok s) by (unfold dims_ok; lia).
  destruct (paused_fields s) as (Hc & Hh & _).
  destruct Hd as [Hd|Hd]; [right | left]; (split; [done|]).
  - exists (install (random_rows rnd s) (str "Tablero generado aleatoriamente") s).
    split; [by apply randomize_ok|].
    destruct (install_ok s (random_rows rnd s)
                (str "Tablero generado aleatoriamente") Hd (random_rows_ok rnd s))
      as (Hok & Hcells & Hgen & Hcfg).
    split; [done|].
    split; [unfold binary; rewrite Hcells; apply random_rows_binary|].
    split.
    { intros x y Hx Hy. rewrite <- (Z2Nat.id x), <- (Z2Nat.id y) at 1 by lia.
      rewrite cell_cells, Hcells.
      rewrite random_rows_lookup by (unfold width, height; lia). done. }
    split; [intros l Hl; cbn; by apply lookup_app_l|].
    split; [done|]. split; [cbn; apply isRunning_paused|]. done.
  - unfold randomize. unfold bind at 1. rewrite pause_eq. unfold bind at 1.
    rewrite createRandomGrid_throws; [done|]. unfold dims_ok. by rewrite Hc.
Qed.

(** ** Statistics *)

Lemma ofold_fold {A B : Type} (f : A -> B -> outcome A) (g : A -> B -> A)
      (l : list B) :
  (forall a b, b ∈ l -> f a b = Ok (g a b)) ->
  forall a, ofold f a l = Ok (fold_left g l a).
Proof.
  induction l as [|b l IH]; intros Hf a; [done|].
  cbn. rewrite Hf by (by left). cbn. apply IH. intros. apply Hf. by right.
Qed.

Lemma fold_left_fmap {A B C : Type} (g : A -> C -> A) (f : B -> C) (l : list B) a :
  fold_left g (map f l) a = fold_left (fun a b => g a (f b)) l a.
Proof. revert a. induction l as [|b l IH]; intros a; [done|]. cbn. apply IH. Qed.

Lemma fold_left_ext_in {A B : Type} (g g' : A -> B -> A) (l : list B) a :
  (forall a b, b ∈ l -> g a b = g' a b) -> fold_left g l a = fold_left g' l a.
Proof.
  revert a. induction l as [|b l IH]; intros a Hg; [done|].
  cbn. rewrite Hg by (by left). apply IH. intros. apply Hg. by right.
Qed.

(** Folding over the indices of a list and looking each one up is folding
    over the list. *)
Lemma fold_left_lookup {A B : Type} (h : A -> option B -> A) (l pre : list B) a :
  fold_left (fun a i => h a ((pre ++ l) !! i)) (seq (length pre) (length l)) a
  = fold_left (fun a b => h a (Some b)) l a.
Proof.
  revert pre a. induction l as [|b l IH]; intros pre a; [done|].
  cbn [length seq fold_left]. rewrite list_lookup_middle by done.
  specialize (IH (pre ++ [b]) (h a (Some b))).
  rewrite length_app, <- app_assoc in IH. cbn in IH.
  replace (length pre + 1)%nat with (S (length pre)) in IH by lia. exact IH.
Qed.

Lemma fold_left_lookup_0 {A B : Type} (h : A -> option B -> A) (l : list B) a :
  fold_left (fun a i => h a (l !! i)) (seq 0 (length l)) a
  = fold_left (fun a b => h a (Some b)) l a.
Proof. apply (fold_left_lookup h l []). Qed.

Lemma sum_rows (rows : list (list jsval)) (p : Z) :
  Forall (Forall bit) rows ->
  fold_left (fun p row => fold_left js_add row p) rows (Num p)
  = Num (p + Z.of_nat (length (filter (fun v => v = Num 1) (concat rows)))).
Proof.
  intros Hrows. revert p. induction Hrows as [|row rows Hrow _ IH]; intros p.
  - cbn. f_equal. lia.
  - cbn [fold_left concat]. rewrite sum_bits by done. rewrite IH.
    rewrite filter_app, length_app. f_equal. lia.
Qed.

Lemma population_live_cells s :
  grid_ok s -> binary s -> population s = Ok (Num (live_cells s)).
Proof.
  intros Hok Hbin. destruct (cells_shape s Hok) as [Hh Hw].
  unfold population.
  rewrite (ofold_fold _
    (fun p y => fold_left (fun p x => js_add p (cell s x y))
                          (seqZ 0 (gridWidth (CONFIG s))) p)).
  2: { intros p y Hy. apply ofold_fold. intros p' x Hx.
       apply elem_of_seqZ in Hy, Hx.
       by rewrite index2_in_range by (try done; lia). }
  rewrite !seqZ_0, fold_left_fmap. fold (height s) (width s).
  set (F := fun (p : jsval) (orow : option (list jsval)) =>
              fold_left (fun p x =>
                js_add p (default Undefined (orow ≫= fun row => row !! x)))
                (seq 0 (width s)) p).
  rewrite (fold_left_ext_in _ (fun p y => F p (cells s !! y))).
  2: { intros p y _. unfold F. rewrite fold_left_fmap. apply fold_left_ext_in.
       intros p' x _. by rewrite cell_cells. }
  rewrite <- Hh, (fold_left_lookup_0 F (cells s)).
  rewrite (fold_left_ext_in _ (fun p row => fold_left js_add row p)).
  2: { intros p row Hrow. unfold F. cbn.
       rewrite Forall_forall in Hw. rewrite <- (Hw row Hrow).
       apply (fold_left_lookup_0 (fun p ov => js_add p (default Undefined ov))). }
  rewrite sum_rows by done. unfold live_cells. do 2 f_equal.
Qed.

(** X5.  On a grid of the configured dimensions that holds only 0 and 1,
    [updateStats] returns and changes the two statistics fields only: the
    generation field shows the generation counter and the population field
    shows the number of cells that are 1. *)
Theorem updateStats_counts s :
  grid_ok s -> binary s ->
  exists s',
    updateStats s = (Ok tt, s')
    /\ generationDisplay s' = Some (generation s)
    /\ populationDisplay s' = Some (Num (live_cells s))
    /\ s' = set_populationDisplay (populationDisplay s')
              (set_generationDisplay (generationDisplay s') s).
Proof.
  intros Hok Hbin. exists (stats_of s).
  split; [by apply updateStats_ok|]. unfold stats_of.
  rewrite population_live_cells by done. done.
Qed.

(** ** Repeated steps and animation frames *)


(** X7.  While the game is paused, animation frame callbacks do nothing: any
    number of [animate] calls, due or not, leave the state exactly as it is,
    so no generation is computed and no further callback is requested. *)
Theorem animate_while_paused (frames : list (bool * nat)) s :
  isRunning s = false ->
  for_ frames (fun f => animate (fst f) (snd f)) s = (Ok tt, s).
Proof.
  intros Hr. induction frames as [|[due id] frames IH]; [done|].
  cbn [for_ fst snd]. unfold bind at 1.
  assert (Ha : animate due id s = (Ok tt, s))
    by (unfold animate, bind, gets; by rewrite Hr).
  by rewrite Ha.
Qed.


(** ** Start, pause and toggle *)

(** X9.  In any state: [start] leaves the game running and [pause] leaves it
    paused; a second [start] or a second [pause] changes nothing more (so a
    game that runs keeps the callback handle it has); [togglePlayPause]
    inverts the running flag, and two toggles bring back the state up to the
    callback handle. *)
Theorem start_pause_toggle s id id' :
  isRunning (snd (start id s)) = true
  /\ isRunning (snd (pause s)) = false
  /\ isRunning (snd (togglePlayPause id s)) = negb (isRunning s)
  /\ (start id;; start id') s = start id s
  /\ (pause;; pause) s = pause s
  /\ (exists s',
        (togglePlayPause id;; togglePlayPause id') s = (Ok tt, s')
        /\ set_animationId (animationId s) s' = s).
Proof.
  unfold togglePlayPause, start, pause, bind, gets, modify.
  destruct s as [c h g r n a m i t gd pd lm]. destruct r; cbn.
  - repeat split; try done. by eexists.
  - repeat split; try done. by eexists.
Qed.

(** ** Mouse and touch input *)

Lemma heap_and_stats_only_click x y :
  preserves heap_and_stats_only (handleCanvasClick x y).
Proof.
  unfold handleCanvasClick; unfold renderGrid, updateStats; frame.
Qed.

Lemma heap_and_stats_only_touch x y :
  preserves heap_and_stats_only (handleTouchMove x y).
Proof.
  unfold handleTouchMove; unfold renderGrid, updateStats; frame.
Qed.

(** X10.  In any state, a click or a touch whose cell coordinates are outside
    the configured grid does nothing at all; and whatever the coordinates,
    and whether the handler returns or throws, it changes only arrays and the
    two statistics fields: the game is not paused, the generation counter,
    the grid variable, the save store and the toast are as before. *)
Theorem input_leaves_game_alone s x y :
  (~ (0 <= x < gridWidth (CONFIG s) /\ 0 <= y < gridHeight (CONFIG s)) ->
   handleCanvasClick x y s = (Ok tt, s)
   /\ handleTouchMove x y s = (Ok tt, s))
  /\ heap_and_stats_only s (snd (handleCanvasClick x y s))
  /\ heap_and_stats_only s (snd (handleTouchMove x y s)).
Proof.
  split; [|split].
  - intros Hout.
    split; unfold handleCanvasClick, handleTouchMove;
      unfold bind at 1; unfold gets at 1;
      by destruct (guard_spec (gridWidth (CONFIG s)) (gridHeight (CONFIG s))
                     x y).
  - apply (heap_and_stats_only_click x y s (fst (handleCanvasClick x y s))).
    by destruct (handleCanvasClick x y s).
  - apply (heap_and_stats_only_touch x y s (fst (handleTouchMove x y s))).
    by destruct (handleTouchMove x y s).
Qed.

(** X11.  On a grid of the configured dimensions that holds only 0 and 1, a
    click on a cell inside the grid changes that cell, and a second click on
    the same cell brings back the grid as it was, cell for cell. *)
Theorem click_twice s x y :
  grid_ok s -> binary s ->
  0 <= x < gridWidth (CONFIG s) -> 0 <= y < gridHeight (CONFIG s) ->
  exists s1 s2,
    handleCanvasClick x y s = (Ok tt, s1)
    /\ handleCanvasClick x y s1 = (Ok tt, s2)
    /\ cell s1 x y <> cell s x y
    /\ cells s2 = cells s.
Proof.
  intros Hok Hbin Hx Hy.
  destruct (handleCanvasClick_ok s x y Hok)
    as (s1 & Hrun1 & Hok1 & Hc1 & _ & Hxy1 & Hother1).
  destruct (handleCanvasClick_ok s1 x y Hok1)
    as (s2 & Hrun2 & Hok2 & Hc2 & _ & Hxy2 & Hother2).
  exists s1, s2. split; [done|]. split; [done|].
  specialize (Hxy1 (conj Hx Hy)). rewrite Hc1 in Hxy2.
  specialize (Hxy2 (conj Hx Hy)).
  pose proof (cell_binary s x y Hok Hbin Hx Hy) as Hbit.
  split.
  - rewrite Hxy1. by destruct Hbit as [-> | ->].
  - apply cells_ext; [done | done | congruence |].
    intros x' y' _ _. destruct (decide ((x', y') = (x, y))) as [E|E].
    + injection E as -> ->. rewrite Hxy2, Hxy1.
      by destruct Hbit as [-> | ->].
    + by rewrite Hother2, Hother1.
Qed.

(** X12.  On a grid of the configured dimensions, a touch on a cell inside
    the grid makes that cell 1 and turns no cell that was 1 into anything
    else; touching the same cell again leaves the grid as the first touch
    left it. *)
Theorem touch_draws s x y :
  grid_ok s ->
  0 <= x < gridWidth (CONFIG s) -> 0 <= y < gridHeight (CONFIG s) ->
  exists s1 s2,
    handleTouchMove x y s = (Ok tt, s1)
    /\ cell s1 x y = Num 1
    /\ (forall x' y', cell s x' y' = Num 1 -> cell s1 x' y' = Num 1)
    /\ handleTouchMove x y s1 = (Ok tt, s2)
    /\ cells s2 = cells s1.
Proof.
  intros Hok Hx Hy.
  destruct (handleTouchMove_ok s x y Hok)
    as (s1 & Hrun1 & Hok1 & Hc1 & _ & Hxy1 & Hother1).
  destruct (handleTouchMove_ok s1 x y Hok1)
    as (s2 & Hrun2 & Hok2 & Hc2 & _ & Hxy2 & Hother2).
  exists s1, s2. specialize (Hxy1 (conj Hx Hy)). rewrite Hc1 in Hxy2.
  specialize (Hxy2 (conj Hx Hy)).
  split; [done|]. split; [done|]. split; [|split; [done|]].
  - intros x' y' Hlive. destruct (decide ((x', y') = (x, y))) as [E|E].
    + by injection E as -> ->.
    + by rewrite Hother1.
  - apply cells_ext; [done | done | done |].
    intros x' y' _ _. destruct (decide ((x', y') = (x, y))) as [E|E].
    + injection E as -> ->. by rewrite Hxy2, Hxy1.
    + by rewrite Hother2.
Qed.

(** ** Saving under a name *)

Lemma blank_app (v1 v2 : jsstring) :
  blank (v1 ++ v2) = blank v1 && blank v2.
Proof.
  induction v1 as [|c v1 IH]; [done|]. cbn. rewrite IH. by rewrite andb_assoc.
Qed.

Lemma blank_reverse (v : jsstring) : blank (reverse v) = blank v.
Proof.
  induction v as [|c v IH]; [done|].
  rewrite reverse_cons, blank_app, IH. cbn.
  by rewrite andb_true_r, andb_comm.
Qed.

Lemma blank_trim_start (v : jsstring) : blank (trim_start v) = blank v.
Proof.
  induction v as [|c v IH]; [done|]. cbn.
  destruct (is_space c) eqn:E; [done|]. cbn. by rewrite E.
Qed.

Lemma trim_start_empty (v : jsstring) :
  trim_start v = [] <-> blank v = true.
Proof.
  split.
  - intros He. rewrite <- blank_trim_start, He. done.
  - induction v as [|c v IH]; [done|]. cbn.
    destruct (is_space c); [done | discriminate].
Qed.

(** The trimmed string is empty exactly when the string is blank. *)
Lemma trim_empty (v : jsstring) : trim v = [] <-> blank v = true.
Proof.
  unfold trim. split.
  - intros He. apply (f_equal reverse) in He.
    rewrite reverse_involutive, reverse_nil in He.
    apply trim_start_empty in He.
    by rewrite blank_reverse, blank_trim_start in He.
  - intros Hb.
    assert (He : trim_start (reverse (trim_start v)) = [])
      by (apply trim_start_empty; by rewrite blank_reverse, blank_trim_start).
    by rewrite He.
Qed.

Lemma json_grid_cells s :
  json_grid (heap s) (grid s) = map (map json_val) (cells s).
Proof. unfold json_grid, cells. by rewrite map_map. Qed.

(** X13.  [saveGame] in any state.  When the name field is empty or holds
    white space only, nothing is stored: the error toast asks for a name and
    the rest of the state, the field included, stays as it is.  In every
    other case the trimmed name is not empty and the success toast is shown;
    the game is then in the store under that name, unless the name is
    [__proto__]: for that name, when the store has no such entry, the store
    holds what it held before. *)
Theorem saveGame_needs_a_name now s :
  (blank (saveNameInput s) = true ->
   saveGame now s
   = (Ok tt,
      set_toast (Some (str "Por favor, ingresa un nombre para la partida", error))
                s))
  /\ (blank (saveNameInput s) = false ->
      trim (saveNameInput s) <> []
      /\ exists s' message,
           saveGame now s = (Ok tt, s')
           /\ toast s' = Some (message, success)
           /\ (trim (saveNameInput s) <> str "__proto__" ->
               exists gd,
                 getSavedGames s' !! trim (saveNameInput s) = Some gd)
           /\ (trim (saveNameInput s) = str "__proto__" ->
               getSavedGames s !! str "__proto__" = None ->
               getSavedGames s' = getSavedGames s)).
Proof.
  split; intros Hb.
  - apply saveGame_empty. by apply trim_empty.
  - assert (Hne : trim (saveNameInput s) <> []).
    { intros He. apply trim_empty in He. congruence. }
    split; [done|]. eexists _, _. split; [by apply saveGame_ok|].
    split; [done|]. split.
    + intros Hp. eexists. unfold getSavedGames at 1. cbn.
      rewrite set_property_insert by (by left). apply lookup_insert_eq.
    + intros Hp Hnone. unfold getSavedGames at 1. cbn. rewrite Hp.
      by rewrite set_property_proto.
Qed.

(** X14.  A [saveGame] that stores, under a trimmed name [N] other than
    [__proto__]: the entry [N] of the store records the name, the generation
    counter, the date passed in, the configured dimensions and a copy of the
    grid in which every number is kept and anything else has become null;
    every other entry of the store is as before (an older entry [N] is
    replaced); the name field is emptied; the grid, the heap, the generation
    counter and the running flag are untouched. *)
Theorem saveGame_entry now s N :
  trim (saveNameInput s) = N -> N <> [] -> N <> str "__proto__" ->
  exists s' gd,
    saveGame now s = (Ok tt, s')
    /\ getSavedGames s' !! N = Some gd
    /\ gd_name gd = N /\ gd_generation gd = generation s /\ gd_date gd = now
    /\ gd_gridWidth gd = gridWidth (CONFIG s)
    /\ gd_gridHeight gd = gridHeight (CONFIG s)
    /\ gd_grid gd = map (map json_val) (cells s)
    /\ (forall other, other <> N ->
                      getSavedGames s' !! other = getSavedGames s !! other)
    /\ saveNameInput s' = []
    /\ grid s' = grid s /\ heap s' = heap s
    /\ generation s' = generation s /\ isRunning s' = isRunning s.
Proof.
  intros HN Hne Hp. exists (saved N now s), (snapshot N now s).
  split; [rewrite <- HN; apply saveGame_ok; by rewrite HN|].
  split; [unfold getSavedGames; cbn;
          rewrite set_property_insert by (by left); apply lookup_insert_eq|].
  do 5 (split; [done|]). split; [apply json_grid_cells|].
  split; [|done]. intros other Ho. unfold getSavedGames at 1. cbn.
  by apply lookup_set_property_ne.
Qed.

(** ** Deleting and loading *)

(** X15.  [deleteGame] in any state, for any name, stored or not.  Cancelled
    at the confirmation it changes nothing.  Confirmed, it returns with the
    entry of that name gone and every other entry of the store as before;
    nothing but the store and the toast has changed; and a [loadGame] of the
    name right after it reports an error and loads nothing: that the game
    could not be loaded, or, for a name that every object inherits, that the
    dimensions differ. *)
Theorem deleteGame_removes s name :
  deleteGame name false s = (Ok tt, s)
  /\ exists s',
       deleteGame name true s = (Ok tt, s')
       /\ getSavedGames s' !! name = None
       /\ (forall other, other <> name ->
                         getSavedGames s' !! other = getSavedGames s !! other)
       /\ s' = set_toast (toast s') (set_conwayGameSaves (conwayGameSaves s') s)
       /\ ((name ∉ Object_prototype) ->
           loadGame name s'
           = (Ok tt,
              set_toast (Some (str "No se pudo cargar la partida", error)) s'))
       /\ (name ∈ Object_prototype ->
           loadGame name s'
           = (Ok tt,
              set_toast
                (Some (str "La partida guardada tiene dimensiones diferentes",
                       error)) s')).
Proof.
  split; [done|]. eexists. split; [apply deleteGame_confirmed|].
  assert (Hgone : getSavedGames
                    (set_toast (Some (deleted_toast name))
                       (set_conwayGameSaves
                          (Some (delete name (getSavedGames s))) s))
                  !! name = None)
    by (unfold getSavedGames at 1; cbn; apply lookup_delete_eq).
  split; [done|]. split; [|split; [done|split]].
  - intros other Ho. unfold getSavedGames at 1. cbn. by apply lookup_delete_ne.
  - intros Hn. by apply loadGame_missing.
  - intros Hn. by apply loadGame_inherited.
Qed.

(** X16.  Saving a game under a name that was not in the store and then
    deleting that name (confirmed) leaves the store holding the games it held
    before. *)
Theorem save_then_delete_restores now s N :
  trim (saveNameInput s) = N -> N <> [] ->
  getSavedGames s !! N = None ->
  exists s',
    (saveGame now;; deleteGame N true) s = (Ok tt, s')
    /\ getSavedGames s' = getSavedGames s.
Proof.
  intros HN Hne Hnew. eexists. split.
  - unfold bind. rewrite saveGame_ok by (by rewrite HN).
    apply deleteGame_confirmed.
  - unfold getSavedGames at 1. cbn. unfold getSavedGames at 1. cbn.
    rewrite HN. unfold set_property. case_bool_decide.
    + by apply delete_id.
    + rewrite delete_insert_eq. by apply delete_id.
Qed.

(** X17.  In any state whose configured dimensions are not negative,
    whatever its own grid looks like: [loadGame] of a stored game that is
    as [saveGame] writes it (a grid of bits with the dimensions stored next
    to it) and has the configured dimensions returns with the game paused
    and the load dialog closed; the grid it installs holds the stored rows
    in arrays of its own that did not exist before, so later changes of the
    grid cannot reach the store; the store itself and the arrays that
    existed are untouched. *)
Theorem loadGame_installs_copy s name gd :
  dims_ok s ->
  getSavedGames s !! name = Some gd -> gameData_ok gd ->
  gd_gridWidth gd = gridWidth (CONFIG s) ->
  gd_gridHeight gd = gridHeight (CONFIG s) ->
  exists s',
    loadGame name s = (Ok tt, s')
    /\ isRunning s' = false /\ loadModal s' = false
    /\ grid_ok s' /\ binary s' /\ cells s' = gd_grid gd
    /\ (forall l, l ∈ grid s' -> (length (heap s) <= l)%nat)
    /\ old_arrays_kept s s'
    /\ conwayGameSaves s' = conwayGameSaves s.
Proof.
  intros Hd Hgd (_ & Hlen & Hrows & Hbits) Hw Hh.
  assert (Hr' : rows_ok s (gd_grid gd))
    by (unfold rows_ok, height, width; by rewrite <- Hw, <- Hh).
  destruct (loadGame_ok s name gd Hd Hgd Hw Hh Hr') as (Hrun & Hok' & Hcells).
  destruct (paused_fields s) as (_ & Hhp & _ & _ & Hs).
  exists (loaded name gd s). split; [done|].
  split; [cbn; apply isRunning_paused|]. split; [done|].
  split; [done|]. split; [unfold binary; by rewrite Hcells|]. split; [done|].
  split; [cbn; intros l Hl; apply elem_of_seq in Hl; lia|].
  split; [intros l Hl; cbn; by apply lookup_app_l|]. done.
Qed.

(** ** Sessions *)

(** X18.  Take a session in which the grid keeps its dimensions: the page
    is initialised in a window that gives dimensions that are not negative,
    with a store written by [saveGame] in such sessions, and the events
    that follow leave the dimensions as they are.  In every state of it the
    grid has the configured dimensions and unshared rows, every cell is 0
    or 1, every stored game is a grid of bits of the dimensions stored with
    it, and every event handler that leaves the dimensions as they are
    returns without throwing.  Every event but a resize is of this kind. *)
Theorem session_never_throws s :
  reachable s ->
  grid_ok s /\ binary s /\ saves_ok (getSavedGames s)
  /\ (forall e,
        same_dims s (snd (handle e s)) -> exists s', handle e s = (Ok tt, s'))
  /\ (forall e, resizes e = false -> same_dims s (snd (handle e s))).
Proof.
  intros Hr. pose proof (reachable_inv s Hr) as Hinv.
  pose proof Hinv as (Hok & Hbin & _ & Hsaves).
  split; [done|]. split; [done|]. split; [done|]. split.
  - intros e Hsame. destruct (handle_inv e s Hinv Hsame) as (s' & Hrun & _).
    eauto.
  - intros e He.
    assert (Hc : CONFIG (snd (handle e s)) = CONFIG s).
    { apply (config_kept_handle e He s (fst (handle e s))).
      by destruct (handle e s). }
    unfold same_dims. by rewrite Hc.
Qed.

(** ** Moving the board around the torus *)

Lemma neighbors_shifted a b s t x y :
  shifted a b s t ->
  0 <= x < gridWidth (CONFIG s) -> 0 <= y < gridHeight (CONFIG s) ->
  neighbors t x y
  = neighbors s ((x + a) mod gridWidth (CONFIG s))
                ((y + b) mod gridHeight (CONFIG s)).
Proof.
  intros [Hc Hcell] Hx Hy. unfold neighbors. f_equal.
  apply map_ext. intros [i j]. unfold neighbor. rewrite Hc. cbn [fst snd].
  rewrite Hcell by (apply Z.mod_pos_bound; lia).
  rewrite !Z.add_mod_idemp_l by lia.
  f_equal; f_equal; lia.
Qed.

(** X19.  The step has no special place on the board: when one grid of the
    configured dimensions is another one moved by [a] columns and [b] rows
    around the torus, the grids [nextGeneration] makes of them are moved
    against each other in the same way. *)
Theorem nextGeneration_shifted a b s t :
  grid_ok s -> grid_ok t -> shifted a b s t ->
  exists s' t',
    nextGeneration s = (Ok tt, s')
    /\ nextGeneration t = (Ok tt, t')
    /\ shifted a b s' t'.
Proof.
  intros Hs Ht Hsh. exists (next_state s), (next_state t).
  split; [by apply nextGeneration_ok|]. split; [by apply nextGeneration_ok|].
  pose proof Hsh as [Hc Hcell]. split; [done|].
  change (CONFIG (next_state s)) with (CONFIG s). intros x y Hx Hy.
  rewrite cell_next_in_range by (try done; rewrite Hc; done).
  rewrite cell_next_in_range by (try done; apply Z.mod_pos_bound; lia).
  by rewrite Hcell, (neighbors_shifted a b s t) by done.
Qed.

(** ** What a neighbour count depends on *)

Lemma wrapped_neighbor_differs (n c d : Z) :
  2 <= n -> 0 <= c < n -> d = -1 \/ d = 1 -> (c + d) mod n <> c.
Proof.
  intros Hn Hc [-> | ->].
  - rewrite mod_pred by done. case_decide; lia.
  - rewrite mod_succ by done. case_decide; lia.
Qed.

(** X20.  On a board at least 2 by 2, the count [countNeighbors] returns for
    a cell does not depend on what that cell itself holds: two grids of the
    configured dimensions that agree everywhere else give the same count
    there.  (So a click on a cell leaves the cell's own count as it was.) *)
Theorem own_cell_not_counted s t x y :
  grid_ok s -> grid_ok t -> CONFIG t = CONFIG s ->
  2 <= gridWidth (CONFIG s) -> 2 <= gridHeight (CONFIG s) ->
  0 <= x < gridWidth (CONFIG s) -> 0 <= y < gridHeight (CONFIG s) ->
  (forall x' y', (x', y') <> (x, y) -> cell t x' y' = cell s x' y') ->
  countNeighbors t (grid t) x y = countNeighbors s (grid s) x y.
Proof.
  intros Hs Ht Hc Hw Hh Hx Hy Hother.
  rewrite !countNeighbors_in_range by (try done; rewrite Hc; done).
  do 2 f_equal. apply map_ext_in. intros [i j] Hin.
  unfold neighbor. rewrite Hc. cbn [fst snd]. apply Hother.
  unfold offsets in Hin. cbn in Hin. intros [= Ex Ey].
  assert (Hi : i = 0 \/ i = -1 \/ i = 1) by (intuition congruence).
  assert (Hj : j = 0 \/ j = -1 \/ j = 1) by (intuition congruence).
  destruct Hj as [-> | Hj].
  - destruct Hi as [-> | Hi]; [intuition congruence|].
    by apply (wrapped_neighbor_differs (gridHeight (CONFIG s)) y i).
  - by apply (wrapped_neighbor_differs (gridWidth (CONFIG s)) x j).
Qed.

(** X21.  A cell of the next generation depends on the 3 by 3 block around it
    only: when two grids of the configured dimensions hold the same values
    at a cell and at its eight wrapped neighbours, [nextGeneration] gives
    that cell the same value in both, whatever the grids hold elsewhere. *)
Theorem nextGeneration_local s t x y :
  grid_ok s -> grid_ok t -> CONFIG t = CONFIG s ->
  0 <= x < gridWidth (CONFIG s) -> 0 <= y < gridHeight (CONFIG s) ->
  (forall i j,
     -1 <= i <= 1 -> -1 <= j <= 1 ->
     cell t ((x + j) mod gridWidth (CONFIG s)) ((y + i) mod gridHeight (CONFIG s))
     = cell s ((x + j) mod gridWidth (CONFIG s))
              ((y + i) mod gridHeight (CONFIG s))) ->
  exists s' t',
    nextGeneration s = (Ok tt, s')
    /\ nextGeneration t = (Ok tt, t')
    /\ cell t' x y = cell s' x y.
Proof.
  intros Hs Ht Hc Hx Hy Hblock. exists (next_state s), (next_state t).
  split; [by apply nextGeneration_ok|]. split; [by apply nextGeneration_ok|].
  rewrite !cell_next_in_range by (try done; rewrite Hc; done).
  f_equal.
  - specialize (Hblock 0 0 ltac:(lia) ltac:(lia)).
    by rewrite !Z.add_0_r, !Z.mod_small in Hblock by lia.
  - unfold neighbors. f_equal. apply map_ext_in. intros [i j] Hin.
    unfold neighbor. rewrite Hc. cbn [fst snd]. apply Hblock.
    + unfold offsets in Hin. cbn in Hin.
      assert (i = 0 \/ i = -1 \/ i = 1) by (intuition congruence). lia.
    + unfold offsets in Hin. cbn in Hin.
      assert (j = 0 \/ j = -1 \/ j = 1) by (intuition congruence). lia.
Qed.

(** ** Page initialisation *)

(** X22.  [init] on the freshly loaded page, in a window of [innerWidth] by
    [innerHeight] pixels.  [initCanvas] settles CONFIG first; in a window
    of 1024 pixels or more it is the CONFIG of the script.  With unusable
    dimensions the grid constructor then throws a RangeError and nothing
    else has happened.  Otherwise [init] returns with a grid of the
    dimensions [initCanvas] chose, whose cell (x, y) is 1 exactly when draw
    number [y * gridWidth + x] fell below the density; generation 0 is shown
    with the number of live cells; the game is not running yet and the save
    store is what localStorage held. *)
Theorem init_page cfg saves innerWidth innerHeight rnd :
  let s0 := snd (initCanvas innerWidth innerHeight (page_load cfg saves)) in
  (1024 <= innerWidth -> CONFIG s0 = cfg)
  /\ ((~ dims_ok s0
       /\ init innerWidth innerHeight rnd (page_load cfg saves)
          = (Throw RangeError, s0))
      \/ (dims_ok s0
          /\ exists s,
               init innerWidth innerHeight rnd (page_load cfg saves)
               = (Ok tt, s)
               /\ grid_ok s /\ binary s /\ CONFIG s = CONFIG s0
               /\ (forall x y,
                     0 <= x < gridWidth (CONFIG s0) ->
                     0 <= y < gridHeight (CONFIG s0) ->
                     cell s x y
                     = if rnd (Z.to_nat y * Z.to_nat (gridWidth (CONFIG s0))
                               + Z.to_nat x)%nat
                       then Num 1 else Num 0)
               /\ generation s = 0 /\ isRunning s = false
               /\ generationDisplay s = Some 0
               /\ populationDisplay s = Some (Num (live_cells s))
               /\ conwayGameSaves s = saves)).
Proof.
  intros s0.
  pose proof (initCanvas_eq innerWidth innerHeight (page_load cfg saves)) as Hi.
  change (snd (initCanvas innerWidth innerHeight (page_load cfg saves)))
    with s0 in Hi.
  assert (Hwide : 1024 <= innerWidth -> CONFIG s0 = cfg).
  { intros Hw. unfold s0. by rewrite initCanvas_wide. }
  assert (Hs0 : s0 = set_CONFIG (CONFIG s0) (page_load cfg saves))
    by (unfold s0 at 1; by rewrite Hi).
  clearbody s0. remember (CONFIG s0) as c eqn:Hc. clear Hc. subst s0.
  set (s0 := set_CONFIG c (page_load cfg saves)) in *.
  split; [done|].
  assert (Hd : dims_ok s0 \/ ~ dims_ok s0) by (unfold dims_ok; lia).
  destruct Hd as [Hd|Hd]; [right | left]; (split; [done|]).
  - set (s1 := set_grid (seq 0 (height s0)) (set_heap (random_rows rnd s0) s0)).
    assert (Hok : grid_ok s1).
    { apply (rows_ok_fresh s0 s1 (random_rows rnd s0)); try done.
      - apply random_rows_ok.
      - cbn. by destruct (random_rows_ok rnd s0) as [-> _]. }
    assert (Hcells : cells s1 = random_rows rnd s0).
    { apply (cells_fresh s1 [] (random_rows rnd s0)); cbn; [done|].
      by destruct (random_rows_ok rnd s0) as [-> _]. }
    assert (Hbin : binary s1)
      by (unfold binary; rewrite Hcells; apply random_rows_binary).
    exists (stats_of s1). split.
    { unfold init. unfold bind at 1. rewrite Hi.
      unfold bind at 1. rewrite createRandomGrid_ok by done.
      unfold bind at 1. unfold modify at 1.
      unfold bind at 1. rewrite renderGrid_ok by exact Hok.
      by rewrite updateStats_ok by exact Hok. }
    split; [done|]. split; [done|]. split; [done|]. split.
    { intros x y Hx Hy. rewrite <- (Z2Nat.id x), <- (Z2Nat.id y) at 1 by lia.
      rewrite cell_cells.
      change (cells (stats_of s1)) with (cells s1). rewrite Hcells.
      rewrite random_rows_lookup by (unfold width, height; cbn; lia). done. }
    split; [done|]. split; [done|]. split; [done|]. split; [|done].
    unfold stats_of. cbn. rewrite population_live_cells by done. done.
  - unfold init. unfold bind at 1. rewrite Hi.
    unfold bind at 1. by rewrite createRandomGrid_throws.
Qed.

(** ** Resizing the window *)

Lemma ofold_throws {A B : Type} (f : A -> B -> outcome A) (l1 l2 : list B)
      (b : B) (e : exn) :
  (forall a b', b' ∈ l1 -> exists a', f a b' = Ok a') ->
  (forall a, f a b = Throw e) ->
  forall a, ofold f a (l1 ++ b :: l2) = Throw e.
Proof.
  induction l1 as [|b1 l1 IH]; intros Hok Hb a; cbn.
  - by rewrite Hb.
  - destruct (Hok a b1) as [a' Ha']; [by left|]. rewrite Ha'. cbn.
    apply IH; [|done]. intros. apply Hok. by right.
Qed.

(** X24.  The resize callback never makes a new grid.  In any state, and
    whether its [renderGrid] throws or not, it leaves the game paused and
    changes nothing else but CONFIG: the grid with its arrays, the
    generation counter, the save store and the toast are untouched; in a
    window at least 1024 pixels wide CONFIG is untouched as well.  So when
    the callback changes the height of a grid of the configured dimensions,
    or the width of one that has rows, the grid no longer has the configured
    dimensions. *)
Theorem resize_keeps_grid innerWidth innerHeight s :
  snd (resize innerWidth innerHeight s)
  = set_CONFIG (CONFIG (snd (resize innerWidth innerHeight s))) (paused s)
  /\ (1024 <= innerWidth -> snd (resize innerWidth innerHeight s) = paused s)
  /\ (grid_ok s ->
      gridHeight (CONFIG (snd (resize innerWidth innerHeight s)))
      <> gridHeight (CONFIG s)
      \/ (0 < gridHeight (CONFIG s)
          /\ gridWidth (CONFIG (snd (resize innerWidth innerHeight s)))
             <> gridWidth (CONFIG s)) ->
      ~ grid_ok (snd (resize innerWidth innerHeight s))).
Proof.
  rewrite resize_state. cbn [CONFIG set_CONFIG].
  destruct (paused_fields s) as (Hc & Hhp & Hgp & _).
  split; [done|]. split.
  - intros Hw. rewrite initCanvas_wide by done. cbn [snd].
    by destruct (paused s).
  - intros (Hlen & _ & Hrows) Hdiff (Hlen' & _ & Hrows').
    cbn [CONFIG set_CONFIG grid heap] in Hlen', Hrows'.
    rewrite Hgp in Hlen', Hrows'.
    destruct Hdiff as [Hh | [Hpos Hw]]; [lia|].
    destruct (grid s) as [|l g] eqn:Eg; [cbn in Hlen; lia|].
    apply Forall_cons in Hrows as [(row & Hrow & Hl) _].
    apply Forall_cons in Hrows' as [(row' & Hrow' & Hl') _].
    cbn [CONFIG set_CONFIG heap] in Hrow', Hl'. rewrite Hhp in Hrow'.
    rewrite Hrow in Hrow'. injection Hrow' as <-. lia.
Qed.

(** X25.  When the resize callback makes the configured height larger than
    that of a grid of the configured dimensions, and the configured width is
    positive, its [renderGrid] reads a row the grid does not have: the
    callback throws a TypeError. *)
Theorem resize_taller_throws innerWidth innerHeight s :
  grid_ok s ->
  gridHeight (CONFIG s)
  < gridHeight (CONFIG (snd (resize innerWidth innerHeight s))) ->
  0 < gridWidth (CONFIG (snd (resize innerWidth innerHeight s))) ->
  fst (resize innerWidth innerHeight s) = Throw TypeError.
Proof.
  intros Hok Hh Hw. rewrite resize_state in Hh, Hw.
  cbn [CONFIG set_CONFIG] in Hh, Hw.
  unfold resize. unfold bind at 1. rewrite pause_eq.
  unfold bind at 1. rewrite initCanvas_eq. cbv beta iota.
  set (c := CONFIG (snd (initCanvas innerWidth innerHeight (paused s)))) in *.
  destruct (paused_fields s) as (_ & Hhp & Hgp & _).
  unfold renderGrid, reads. cbn [fst CONFIG set_CONFIG heap grid].
  rewrite Hhp, Hgp.
  pose proof (grid_ok_dims s Hok) as [Hh0 _].
  replace (gridHeight c)
    with (gridHeight (CONFIG s) + (gridHeight c - gridHeight (CONFIG s)))
    by lia.
  rewrite seqZ_app by lia.
  rewrite (seqZ_cons (0 + gridHeight (CONFIG s))) by lia.
  apply ofold_throws.
  - intros [] y Hy. apply elem_of_seqZ in Hy. apply ofold_total.
    intros [] x Hx.
    destruct (grid_ok_lookup s y Hok) as (l & row & Hl & Hrow & _); [lia|].
    unfold index2, arr_get.
    destruct (Z.leb_spec 0 y); [|lia]. rewrite Hl, Hrow. by eexists.
  - intros []. rewrite (seqZ_cons 0) by lia. cbn [ofold].
    unfold index2 at 1, arr_get at 1.
    destruct (Z.leb_spec 0 (0 + gridHeight (CONFIG s))); [|lia].
    destruct Hok as (Hlen & _).
    rewrite lookup_ge_None_2 by lia. done.
Qed.

(** ** The further properties at concrete inputs *)

(** X5 on the 4 by 3 board, which has four live cells. *)
Lemma updateStats_counts_witness :
  grid_ok corners /\ binary corners /\ live_cells corners = 4
  /\ exists s',
       updateStats corners = (Ok tt, s')
       /\ generationDisplay s' = Some (generation corners)
       /\ populationDisplay s' = Some (Num (live_cells corners))
       /\ s' = set_populationDisplay (populationDisplay s')
                 (set_generationDisplay (generationDisplay s') corners).
Proof.
  split; [decide_by_eval|]. split; [decide_by_eval|].
  split; [vm_compute; reflexivity|].
  apply (updateStats_counts corners); decide_by_eval.
Defined.


(** X7 for three frames that reach the paused blinker. *)
Lemma animate_while_paused_witness :
  isRunning blinker = false
  /\ for_ three_frames (fun f => animate (fst f) (snd f)) blinker
     = (Ok tt, blinker).
Proof.
  split; [reflexivity|]. apply (animate_while_paused three_frames blinker).
  reflexivity.
Defined.


(** X11 for the centre of the blinker. *)
Lemma click_twice_witness :
  grid_ok blinker /\ binary blinker
  /\ 0 <= 2 < gridWidth (CONFIG blinker)
  /\ 0 <= 2 < gridHeight (CONFIG blinker)
  /\ exists s1 s2,
       handleCanvasClick 2 2 blinker = (Ok tt, s1)
       /\ handleCanvasClick 2 2 s1 = (Ok tt, s2)
       /\ cell s1 2 2 <> cell blinker 2 2
       /\ cells s2 = cells blinker.
Proof.
  split; [decide_by_eval|]. split; [decide_by_eval|].
  split; [by vm_compute|]. split; [by vm_compute|].
  apply (click_twice blinker 2 2);
    [decide_by_eval | decide_by_eval | by vm_compute | by vm_compute].
Defined.

(** X12 for the middle of the upper row of the empty 3 by 2 board. *)
Lemma touch_draws_witness :
  grid_ok barren
  /\ 0 <= 1 < gridWidth (CONFIG barren)
  /\ 0 <= 0 < gridHeight (CONFIG barren)
  /\ exists s1 s2,
       handleTouchMove 1 0 barren = (Ok tt, s1)
       /\ cell s1 1 0 = Num 1
       /\ (forall x' y', cell barren x' y' = Num 1 -> cell s1 x' y' = Num 1)
       /\ handleTouchMove 1 0 s1 = (Ok tt, s2)
       /\ cells s2 = cells s1.
Proof.
  split; [decide_by_eval|]. split; [by vm_compute|]. split; [by vm_compute|].
  apply (touch_draws barren 1 0);
    [decide_by_eval | by vm_compute | by vm_compute].
Defined.

(** X14 for the blinker saved under the typed name ["  osc "]. *)
Lemma saveGame_entry_witness :
  trim (saveNameInput (set_saveNameInput (str "  osc ") blinker)) = str "osc"
  /\ str "osc" <> []
  /\ str "osc" <> str "__proto__"
  /\ exists s' gd,
       saveGame (str "2024-01-01T00:00:00.000Z") (set_saveNameInput (str "  osc ") blinker)
       = (Ok tt, s')
       /\ getSavedGames s' !! (str "osc") = Some gd
       /\ gd_name gd = str "osc"
       /\ gd_generation gd = generation (set_saveNameInput (str "  osc ") blinker)
       /\ gd_date gd = (str "2024-01-01T00:00:00.000Z")
       /\ gd_gridWidth gd
          = gridWidth (CONFIG (set_saveNameInput (str "  osc ") blinker))
       /\ gd_gridHeight gd
          = gridHeight (CONFIG (set_saveNameInput (str "  osc ") blinker))
       /\ gd_grid gd
          = map (map json_val) (cells (set_saveNameInput (str "  osc ") blinker))
       /\ (forall other,
             other <> (str "osc") ->
             getSavedGames s' !! other
             = getSavedGames (set_saveNameInput (str "  osc ") blinker) !! other)
       /\ saveNameInput s' = []
       /\ grid s' = grid (set_saveNameInput (str "  osc ") blinker)
       /\ heap s' = heap (set_saveNameInput (str "  osc ") blinker)
       /\ generation s' = generation (set_saveNameInput (str "  osc ") blinker)
       /\ isRunning s' = isRunning (set_saveNameInput (str "  osc ") blinker).
Proof.
  split; [vm_compute; reflexivity|]. split; [discriminate|].
  split; [discriminate|].
  apply (saveGame_entry (str "2024-01-01T00:00:00.000Z")
           (set_saveNameInput (str "  osc ") blinker) (str "osc"));
    [vm_compute; reflexivity | discriminate | discriminate].
Defined.

(** X16 for the same save into an empty store. *)
Lemma save_then_delete_restores_witness :
  trim (saveNameInput (set_saveNameInput (str "  osc ") blinker)) = str "osc"
  /\ str "osc" <> []
  /\ getSavedGames (set_saveNameInput (str "  osc ") blinker) !! (str "osc") = None
  /\ exists s',
       (saveGame (str "2024-01-01T00:00:00.000Z");; deleteGame (str "osc") true)
         (set_saveNameInput (str "  osc ") blinker) = (Ok tt, s')
       /\ getSavedGames s'
          = getSavedGames (set_saveNameInput (str "  osc ") blinker).
Proof.
  split; [vm_compute; reflexivity|]. split; [discriminate|].
  split; [reflexivity|].
  apply (save_then_delete_restores (str "2024-01-01T00:00:00.000Z")
           (set_saveNameInput (str "  osc ") blinker) (str "osc"));
    [vm_compute; reflexivity | discriminate | reflexivity].
Defined.

(** The game stored as "a" is as [saveGame] writes it. *)
Lemma stored_a_ok : gameData_ok stored_a.
Proof.
  apply snapshot_ok, reachable_inv, reach_event;
    [apply reachable_fresh_session | split; vm_compute; reflexivity].
Defined.

(** X17 for the game stored as "a" in the played session. *)
Lemma loadGame_installs_copy_witness :
  dims_ok played_session
  /\ getSavedGames played_session !! str "a" = Some stored_a
  /\ gameData_ok stored_a
  /\ gd_gridWidth stored_a = gridWidth (CONFIG played_session)
  /\ gd_gridHeight stored_a = gridHeight (CONFIG played_session)
  /\ exists s',
       loadGame (str "a") played_session = (Ok tt, s')
       /\ isRunning s' = false /\ loadModal s' = false
       /\ grid_ok s' /\ binary s' /\ cells s' = gd_grid stored_a
       /\ (forall l, l ∈ grid s' -> (length (heap played_session) <= l)%nat)
       /\ old_arrays_kept played_session s'
       /\ conwayGameSaves s' = conwayGameSaves played_session.
Proof.
  assert (Hd : dims_ok played_session)
    by (apply grid_ok_dims, reachable_inv, reachable_played_session).
  split; [exact Hd|].
  split; [vm_compute; reflexivity|]. split; [exact stored_a_ok|].
  split; [vm_compute; reflexivity|]. split; [vm_compute; reflexivity|].
  apply (loadGame_installs_copy played_session (str "a") stored_a);
    [exact Hd | vm_compute; reflexivity | exact stored_a_ok
     | vm_compute; reflexivity | vm_compute; reflexivity].
Defined.

(** X18 in the played session. *)
Lemma session_never_throws_witness :
  reachable played_session
  /\ grid_ok played_session /\ binary played_session
  /\ saves_ok (getSavedGames played_session)
  /\ (forall e,
        same_dims played_session (snd (handle e played_session)) ->
        exists s', handle e played_session = (Ok tt, s'))
  /\ (forall e,
        resizes e = false ->
        same_dims played_session (snd (handle e played_session))).
Proof.
  split; [apply reachable_played_session|].
  apply (session_never_throws played_session). apply reachable_played_session.
Defined.

(** The corner block is the wrapped block moved by one column and one row. *)
Lemma corner_block_shifted : shifted 1 1 wrapped_block corner_block.
Proof.
  split; [reflexivity|]. intros x y Hx Hy.
  change (gridWidth (CONFIG wrapped_block)) with 5 in *.
  change (gridHeight (CONFIG wrapped_block)) with 4 in *.
  assert (Ex : x = 0 \/ x = 1 \/ x = 2 \/ x = 3 \/ x = 4) by lia.
  assert (Ey : y = 0 \/ y = 1 \/ y = 2 \/ y = 3) by lia.
  destruct Ex as [-> | [-> | [-> | [-> | ->]]]];
    destruct Ey as [-> | [-> | [-> | ->]]]; by vm_compute.
Defined.

(** X19 for these two boards. *)
Lemma nextGeneration_shifted_witness :
  grid_ok wrapped_block /\ grid_ok corner_block
  /\ shifted 1 1 wrapped_block corner_block
  /\ exists s' t',
       nextGeneration wrapped_block = (Ok tt, s')
       /\ nextGeneration corner_block = (Ok tt, t')
       /\ shifted 1 1 s' t'.
Proof.
  split; [decide_by_eval|]. split; [decide_by_eval|].
  split; [exact corner_block_shifted|].
  apply (nextGeneration_shifted 1 1 wrapped_block corner_block);
    [decide_by_eval | decide_by_eval | exact corner_block_shifted].
Defined.

(** The click on the centre changed the centre only. *)
Lemma blinker_centre_clicked_elsewhere x' y' :
  (x', y') <> (2, 2) -> cell blinker_centre_clicked x' y' = cell blinker x' y'.
Proof.
  assert (Hok : grid_ok blinker) by decide_by_eval.
  destruct (handleCanvasClick_ok blinker 2 2 Hok)
    as (s' & Hrun & _ & _ & _ & _ & Hother).
  unfold blinker_centre_clicked. rewrite Hrun. exact (Hother x' y').
Defined.

(** X20 for the blinker and its centre. *)
Lemma own_cell_not_counted_witness :
  grid_ok blinker /\ grid_ok blinker_centre_clicked
  /\ CONFIG blinker_centre_clicked = CONFIG blinker
  /\ 2 <= gridWidth (CONFIG blinker) /\ 2 <= gridHeight (CONFIG blinker)
  /\ 0 <= 2 < gridWidth (CONFIG blinker)
  /\ 0 <= 2 < gridHeight (CONFIG blinker)
  /\ (forall x' y', (x', y') <> (2, 2) ->
                    cell blinker_centre_clicked x' y' = cell blinker x' y')
  /\ countNeighbors blinker_centre_clicked (grid blinker_centre_clicked) 2 2
     = countNeighbors blinker (grid blinker) 2 2.
Proof.
  split; [decide_by_eval|]. split; [decide_by_eval|].
  split; [vm_compute; reflexivity|].
  split; [by vm_compute|]. split; [by vm_compute|].
  split; [by vm_compute|]. split; [by vm_compute|].
  split; [exact blinker_centre_clicked_elsewhere|].
  apply (own_cell_not_counted blinker blinker_centre_clicked 2 2);
    [decide_by_eval | decide_by_eval | vm_compute; reflexivity
     | by vm_compute | by vm_compute | by vm_compute | by vm_compute
     | exact blinker_centre_clicked_elsewhere].
Defined.

(** Around the centre, the board clicked in the corner is the blinker. *)
Lemma blinker_corner_clicked_centre i j :
  -1 <= i <= 1 -> -1 <= j <= 1 ->
  cell blinker_corner_clicked ((2 + j) mod gridWidth (CONFIG blinker))
       ((2 + i) mod gridHeight (CONFIG blinker))
  = cell blinker ((2 + j) mod gridWidth (CONFIG blinker))
         ((2 + i) mod gridHeight (CONFIG blinker)).
Proof.
  intros Hi Hj.
  assert (Ei : i = -1 \/ i = 0 \/ i = 1) by lia.
  assert (Ej : j = -1 \/ j = 0 \/ j = 1) by lia.
  destruct Ei as [-> | [-> | ->]]; destruct Ej as [-> | [-> | ->]];
    by vm_compute.
Defined.

(** X21 for the centre of the blinker and a change in the corner. *)
Lemma nextGeneration_local_witness :
  grid_ok blinker /\ grid_ok blinker_corner_clicked
  /\ CONFIG blinker_corner_clicked = CONFIG blinker
  /\ 0 <= 2 < gridWidth (CONFIG blinker)
  /\ 0 <= 2 < gridHeight (CONFIG blinker)
  /\ (forall i j,
        -1 <= i <= 1 -> -1 <= j <= 1 ->
        cell blinker_corner_clicked ((2 + j) mod gridWidth (CONFIG blinker))
             ((2 + i) mod gridHeight (CONFIG blinker))
        = cell blinker ((2 + j) mod gridWidth (CONFIG blinker))
               ((2 + i) mod gridHeight (CONFIG blinker)))
  /\ exists s' t',
       nextGeneration blinker = (Ok tt, s')
       /\ nextGeneration blinker_corner_clicked = (Ok tt, t')
       /\ cell t' 2 2 = cell s' 2 2.
Proof.
  split; [decide_by_eval|]. split; [decide_by_eval|].
  split; [vm_compute; reflexivity|].
  split; [by vm_compute|]. split; [by vm_compute|].
  split; [exact blinker_corner_clicked_centre|].
  apply (nextGeneration_local blinker blinker_corner_clicked 2 2);
    [decide_by_eval | decide_by_eval | vm_compute; reflexivity
     | by vm_compute | by vm_compute | exact blinker_corner_clicked_centre].
Defined.

(** X25 for the 5 by 5 blinker in a window of 500 by 800 pixels, where
    [initCanvas] asks for 72 by 66 cells. *)
Lemma resize_taller_throws_witness :
  grid_ok blinker
  /\ gridHeight (CONFIG blinker) < gridHeight (CONFIG (snd (resize 500 800 blinker)))
  /\ 0 < gridWidth (CONFIG (snd (resize 500 800 blinker)))
  /\ fst (resize 500 800 blinker) = Throw TypeError.
Proof.
  split; [decide_by_eval|]. split; [by vm_compute|]. split; [by vm_compute|].
  apply (resize_taller_throws 500 800 blinker);
    [decide_by_eval | by vm_compute | by vm_compute].
Defined.
